(** * Marty Labs creative engine: the feedback memory and its detectors

    A shallow embedding of [server/memory/store.js] (the feedback ledger,
    the pattern learner, the contradiction detector, the context compiler
    and the pipeline item store) and of the batch script route of
    [server/routes/generate.js], with the properties the specification
    states about them.

    Conventions of the embedding.
    - JavaScript strings are [string]s, the bytes of their UTF-8
      encoding; [toLowerCase] is the default case conversion of Unicode
      and [trim] removes the white space of ECMAScript.
    - Time stamps are integers (milliseconds), an absent property is
      [None], and the truthiness tests of the source are written out.
    - An object literal used as a dictionary keeps its own properties in
      creation order; reads fall back on [Object.prototype], and
      [Object.values] enumerates array-index keys first.
    - [uuid()] and [Date.now()] are oracles: the [n]-th identifier drawn
      and the [n]-th clock reading; the world records how many were
      consumed.  The text generator is an oracle as well: its [n]-th
      request fails or yields a parsed reply, whose optional fields are
      present when the reply has them with a truthy value.
    - A call that throws keeps the effects it had before: operations
      return a result, or the error thrown, next to the world they leave.
    - The data directory holds one document per project and category
      ([<projectId>_<category>.json]) plus the project index; documents
      are typed, the store is keyed by project and category, and a
      missing file reads as the default the source substitutes for it.
      The key is the file for the project identifiers that are plain
      parts of a file name ([plainId]: letters, digits, hyphens and
      underscores, as [uuid()] gives them); the properties that tell the
      documents of two projects apart are stated for these. *)

From Stdlib Require Import List String Ascii ZArith NArith Bool Lia Permutation.
From stdpp Require Import gmap strings.
Import ListNotations.
Local Open Scope string_scope.
Local Open Scope list_scope.

#[local] Unset Default Proof Using.

(** ** JavaScript strings *)

Module JS.

(** A property read that may be [undefined], used as a condition. *)
Definition truthy (o : option string) : bool :=
  match o with
  | Some s => negb (String.eqb s "")
  | None => false
  end.

(** *** Code points

    A string is held as the bytes of its UTF-8 encoding, a lone surrogate
    as the three bytes the same scheme gives it.  Equality and
    [includes] of an ASCII keyword are then those of the bytes; the
    operations that look at characters ([toLowerCase], [trim]) or count
    UTF-16 code units ([substring]) work on the byte sequences of the
    code points. *)

(** The number of bytes of the sequence a byte starts; a byte that
    starts none stands alone. *)
Definition sequenceLength (c : ascii) : nat :=
  let n := N_of_ascii c in
  if (n <? 194)%N then 1
  else if (n <? 224)%N then 2
  else if (n <? 240)%N then 3
  else if (n <? 245)%N then 4
  else 1.

(** The byte sequences of a string, one per code point: [need] bytes are
    still missing from the sequence [cur]. *)
Fixpoint sequences (need : nat) (cur : string) (s : string) : list string :=
  match s with
  | EmptyString => match need with O => [] | S _ => [cur] end
  | String c s' =>
      let cur' := match need with
                  | O => String c EmptyString
                  | S _ => (cur ++ String c EmptyString)%string
                  end in
      match match need with O => sequenceLength c - 1 | S k => k end with
      | O => cur' :: sequences 0 EmptyString s'
      | S k => sequences (S k) cur' s'
      end
  end.

Definition chars (s : string) : list string := sequences 0 EmptyString s.

Definition join (l : list string) : string := fold_right String.append EmptyString l.

Definition continuation (c : ascii) : N := N_of_ascii c - 128.

(** The code point of a byte sequence; what is no sequence of a code
    point gets a number above the code points. *)
Definition codePoint (ch : string) : N :=
  match ch with
  | EmptyString => 1114112
  | String a rest =>
      if negb (sequenceLength a =? String.length ch)%nat then 1114112 + N_of_ascii a
      else
        match map continuation (list_ascii_of_string rest) with
        | [] => if N_of_ascii a <? 128 then N_of_ascii a else 1114112 + N_of_ascii a
        | [b] => (N_of_ascii a - 192) * 64 + b
        | [b; c] => (N_of_ascii a - 224) * 4096 + b * 64 + c
        | [b; c; d] => (N_of_ascii a - 240) * 262144 + b * 4096 + c * 64 + d
        | _ => 1114112
        end
  end%N.

Definition utf8 (cp : N) : string :=
  string_of_list_ascii
    (map ascii_of_N
       (if cp <? 128 then [cp]
        else if cp <? 2048 then [192 + cp / 64; 128 + cp mod 64]
        else if cp <? 65536
             then [224 + cp / 4096; 128 + (cp / 64) mod 64; 128 + cp mod 64]
             else [240 + cp / 262144; 128 + (cp / 4096) mod 64;
                   128 + (cp / 64) mod 64; 128 + cp mod 64]))%N.

(** The number of UTF-16 code units of a code point. *)
Definition codeUnits (ch : string) : nat :=
  let cp := codePoint ch in
  if (65536 <=? cp)%N && (cp <? 1114112)%N then 2 else 1.

Definition highSurrogate (cp : N) : N := (55296 + (cp - 65536) / 1024)%N.

(** [s.substring(0, n)]: the first [n] code units.  A cut between the
    two units of a code point above U+FFFF leaves its high surrogate. *)
Fixpoint takeUnits (n : nat) (chs : list string) : list string :=
  match chs, n with
  | [], _ => []
  | _, O => []
  | ch :: rest, S k =>
      match codeUnits ch, k with
      | 2, O => [utf8 (highSurrogate (codePoint ch))]
      | 2, S k' => ch :: takeUnits k' rest
      | _, _ => ch :: takeUnits k rest
      end
  end.

Definition substring0 (n : nat) (s : string) : string := join (takeUnits n (chars s)).

(** *** Lower case *)

(** The simple lower-case mappings of the Unicode Character Database
    (version 14.0.0; later versions add the pairs of letters encoded
    since): the code points [first, first + step, ..., last] map to
    [image, image + step, ...]. *)
Definition lowerCaseRanges : list (N * N * N * N) :=
  [ (65, 90, 1, 97); (192, 214, 1, 224); (216, 222, 1, 248); (256, 302, 2, 257);
   (306, 310, 2, 307); (313, 327, 2, 314); (330, 374, 2, 331); (376, 376, 1, 255);
   (377, 381, 2, 378); (385, 385, 1, 595); (386, 388, 2, 387); (390, 390, 1, 596);
   (391, 391, 1, 392); (393, 394, 1, 598); (395, 395, 1, 396); (398, 398, 1, 477);
   (399, 399, 1, 601); (400, 400, 1, 603); (401, 401, 1, 402); (403, 403, 1, 608);
   (404, 404, 1, 611); (406, 406, 1, 617); (407, 407, 1, 616); (408, 408, 1, 409);
   (412, 412, 1, 623); (413, 413, 1, 626); (415, 415, 1, 629); (416, 420, 2, 417);
   (422, 422, 1, 640); (423, 423, 1, 424); (425, 425, 1, 643); (428, 428, 1, 429);
   (430, 430, 1, 648); (431, 431, 1, 432); (433, 434, 1, 650); (435, 437, 2, 436);
   (439, 439, 1, 658); (440, 440, 1, 441); (444, 444, 1, 445); (452, 452, 1, 454);
   (453, 453, 1, 454); (455, 455, 1, 457); (456, 456, 1, 457); (458, 458, 1, 460);
   (459, 475, 2, 460); (478, 494, 2, 479); (497, 497, 1, 499); (498, 500, 2, 499);
   (502, 502, 1, 405); (503, 503, 1, 447); (504, 542, 2, 505); (544, 544, 1, 414);
   (546, 562, 2, 547); (570, 570, 1, 11365); (571, 571, 1, 572); (573, 573, 1, 410);
   (574, 574, 1, 11366); (577, 577, 1, 578); (579, 579, 1, 384); (580, 580, 1, 649);
   (581, 581, 1, 652); (582, 590, 2, 583); (880, 882, 2, 881); (886, 886, 1, 887);
   (895, 895, 1, 1011); (902, 902, 1, 940); (904, 906, 1, 941); (908, 908, 1, 972);
   (910, 911, 1, 973); (913, 929, 1, 945); (931, 939, 1, 963); (975, 975, 1, 983);
   (984, 1006, 2, 985); (1012, 1012, 1, 952); (1015, 1015, 1, 1016);
   (1017, 1017, 1, 1010); (1018, 1018, 1, 1019); (1021, 1023, 1, 891);
   (1024, 1039, 1, 1104); (1040, 1071, 1, 1072); (1120, 1152, 2, 1121);
   (1162, 1214, 2, 1163); (1216, 1216, 1, 1231); (1217, 1229, 2, 1218);
   (1232, 1326, 2, 1233); (1329, 1366, 1, 1377); (4256, 4293, 1, 11520);
   (4295, 4295, 1, 11559); (4301, 4301, 1, 11565); (5024, 5103, 1, 43888);
   (5104, 5109, 1, 5112); (7312, 7354, 1, 4304); (7357, 7359, 1, 4349);
   (7680, 7828, 2, 7681); (7838, 7838, 1, 223); (7840, 7934, 2, 7841);
   (7944, 7951, 1, 7936); (7960, 7965, 1, 7952); (7976, 7983, 1, 7968);
   (7992, 7999, 1, 7984); (8008, 8013, 1, 8000); (8025, 8031, 2, 8017);
   (8040, 8047, 1, 8032); (8072, 8079, 1, 8064); (8088, 8095, 1, 8080);
   (8104, 8111, 1, 8096); (8120, 8121, 1, 8112); (8122, 8123, 1, 8048);
   (8124, 8124, 1, 8115); (8136, 8139, 1, 8050); (8140, 8140, 1, 8131);
   (8152, 8153, 1, 8144); (8154, 8155, 1, 8054); (8168, 8169, 1, 8160);
   (8170, 8171, 1, 8058); (8172, 8172, 1, 8165); (8184, 8185, 1, 8056);
   (8186, 8187, 1, 8060); (8188, 8188, 1, 8179); (8486, 8486, 1, 969);
   (8490, 8490, 1, 107); (8491, 8491, 1, 229); (8498, 8498, 1, 8526);
   (8544, 8559, 1, 8560); (8579, 8579, 1, 8580); (9398, 9423, 1, 9424);
   (11264, 11311, 1, 11312); (11360, 11360, 1, 11361); (11362, 11362, 1, 619);
   (11363, 11363, 1, 7549); (11364, 11364, 1, 637); (11367, 11371, 2, 11368);
   (11373, 11373, 1, 593); (11374, 11374, 1, 625); (11375, 11375, 1, 592);
   (11376, 11376, 1, 594); (11378, 11378, 1, 11379); (11381, 11381, 1, 11382);
   (11390, 11391, 1, 575); (11392, 11490, 2, 11393); (11499, 11501, 2, 11500);
   (11506, 11506, 1, 11507); (42560, 42604, 2, 42561); (42624, 42650, 2, 42625);
   (42786, 42798, 2, 42787); (42802, 42862, 2, 42803); (42873, 42875, 2, 42874);
   (42877, 42877, 1, 7545); (42878, 42886, 2, 42879); (42891, 42891, 1, 42892);
   (42893, 42893, 1, 613); (42896, 42898, 2, 42897); (42902, 42920, 2, 42903);
   (42922, 42922, 1, 614); (42923, 42923, 1, 604); (42924, 42924, 1, 609);
   (42925, 42925, 1, 620); (42926, 42926, 1, 618); (42928, 42928, 1, 670);
   (42929, 42929, 1, 647); (42930, 42930, 1, 669); (42931, 42931, 1, 43859);
   (42932, 42946, 2, 42933); (42948, 42948, 1, 42900); (42949, 42949, 1, 642);
   (42950, 42950, 1, 7566); (42951, 42953, 2, 42952); (42960, 42960, 1, 42961);
   (42966, 42968, 2, 42967); (42997, 42997, 1, 42998); (65313, 65338, 1, 65345);
   (66560, 66599, 1, 66600); (66736, 66771, 1, 66776); (66928, 66938, 1, 66967);
   (66940, 66954, 1, 66979); (66956, 66962, 1, 66995); (66964, 66965, 1, 67003);
   (68736, 68786, 1, 68800); (71840, 71871, 1, 71872); (93760, 93791, 1, 93792);
   (125184, 125217, 1, 125218) ]%N.

(** The code points with the property [Cased]. *)
Definition casedRanges : list (N * N) :=
  [ (65, 90); (97, 122); (170, 170); (181, 181); (186, 186); (192, 214); (216, 246);
   (248, 442); (444, 447); (452, 659); (661, 696); (704, 705); (736, 740); (837, 837);
   (880, 883); (886, 887); (890, 893); (895, 895); (902, 902); (904, 906); (908, 908);
   (910, 929); (931, 1013); (1015, 1153); (1162, 1327); (1329, 1366); (1376, 1416);
   (4256, 4293); (4295, 4295); (4301, 4301); (4304, 4346); (4349, 4351); (5024, 5109);
   (5112, 5117); (7296, 7304); (7312, 7354); (7357, 7359); (7424, 7615); (7680, 7957);
   (7960, 7965); (7968, 8005); (8008, 8013); (8016, 8023); (8025, 8025); (8027, 8027);
   (8029, 8029); (8031, 8061); (8064, 8116); (8118, 8124); (8126, 8126); (8130, 8132);
   (8134, 8140); (8144, 8147); (8150, 8155); (8160, 8172); (8178, 8180); (8182, 8188);
   (8305, 8305); (8319, 8319); (8336, 8348); (8450, 8450); (8455, 8455); (8458, 8467);
   (8469, 8469); (8473, 8477); (8484, 8484); (8486, 8486); (8488, 8488); (8490, 8493);
   (8495, 8500); (8505, 8505); (8508, 8511); (8517, 8521); (8526, 8526); (8544, 8575);
   (8579, 8580); (9398, 9449); (11264, 11492); (11499, 11502); (11506, 11507);
   (11520, 11557); (11559, 11559); (11565, 11565); (42560, 42605); (42624, 42653);
   (42786, 42887); (42891, 42894); (42896, 42954); (42960, 42961); (42963, 42963);
   (42965, 42969); (42997, 42998); (43000, 43002); (43824, 43866); (43868, 43880);
   (43888, 43967); (64256, 64262); (64275, 64279); (65313, 65338); (65345, 65370);
   (66560, 66639); (66736, 66771); (66776, 66811); (66928, 66938); (66940, 66954);
   (66956, 66962); (66964, 66965); (66967, 66977); (66979, 66993); (66995, 67001);
   (67003, 67004); (67456, 67456); (67459, 67461); (67463, 67504); (67506, 67514);
   (68736, 68786); (68800, 68850); (71840, 71903); (93760, 93823); (119808, 119892);
   (119894, 119964); (119966, 119967); (119970, 119970); (119973, 119974);
   (119977, 119980); (119982, 119993); (119995, 119995); (119997, 120003);
   (120005, 120069); (120071, 120074); (120077, 120084); (120086, 120092);
   (120094, 120121); (120123, 120126); (120128, 120132); (120134, 120134);
   (120138, 120144); (120146, 120485); (120488, 120512); (120514, 120538);
   (120540, 120570); (120572, 120596); (120598, 120628); (120630, 120654);
   (120656, 120686); (120688, 120712); (120714, 120744); (120746, 120770);
   (120772, 120779); (122624, 122633); (122635, 122654); (125184, 125251);
   (127280, 127305); (127312, 127337); (127344, 127369) ]%N.

(** The code points with the property [Case_Ignorable]. *)
Definition caseIgnorableRanges : list (N * N) :=
  [ (39, 39); (46, 46); (58, 58); (94, 94); (96, 96); (168, 168); (173, 173); (175, 175);
   (180, 180); (183, 184); (688, 879); (884, 885); (890, 890); (900, 901); (903, 903);
   (1155, 1161); (1369, 1369); (1375, 1375); (1425, 1469); (1471, 1471); (1473, 1474);
   (1476, 1477); (1479, 1479); (1524, 1524); (1536, 1541); (1552, 1562); (1564, 1564);
   (1600, 1600); (1611, 1631); (1648, 1648); (1750, 1757); (1759, 1768); (1770, 1773);
   (1807, 1807); (1809, 1809); (1840, 1866); (1958, 1968); (2027, 2037); (2042, 2042);
   (2045, 2045); (2070, 2093); (2137, 2139); (2184, 2184); (2192, 2193); (2200, 2207);
   (2249, 2306); (2362, 2362); (2364, 2364); (2369, 2376); (2381, 2381); (2385, 2391);
   (2402, 2403); (2417, 2417); (2433, 2433); (2492, 2492); (2497, 2500); (2509, 2509);
   (2530, 2531); (2558, 2558); (2561, 2562); (2620, 2620); (2625, 2626); (2631, 2632);
   (2635, 2637); (2641, 2641); (2672, 2673); (2677, 2677); (2689, 2690); (2748, 2748);
   (2753, 2757); (2759, 2760); (2765, 2765); (2786, 2787); (2810, 2815); (2817, 2817);
   (2876, 2876); (2879, 2879); (2881, 2884); (2893, 2893); (2901, 2902); (2914, 2915);
   (2946, 2946); (3008, 3008); (3021, 3021); (3072, 3072); (3076, 3076); (3132, 3132);
   (3134, 3136); (3142, 3144); (3146, 3149); (3157, 3158); (3170, 3171); (3201, 3201);
   (3260, 3260); (3263, 3263); (3270, 3270); (3276, 3277); (3298, 3299); (3328, 3329);
   (3387, 3388); (3393, 3396); (3405, 3405); (3426, 3427); (3457, 3457); (3530, 3530);
   (3538, 3540); (3542, 3542); (3633, 3633); (3636, 3642); (3654, 3662); (3761, 3761);
   (3764, 3772); (3782, 3782); (3784, 3789); (3864, 3865); (3893, 3893); (3895, 3895);
   (3897, 3897); (3953, 3966); (3968, 3972); (3974, 3975); (3981, 3991); (3993, 4028);
   (4038, 4038); (4141, 4144); (4146, 4151); (4153, 4154); (4157, 4158); (4184, 4185);
   (4190, 4192); (4209, 4212); (4226, 4226); (4229, 4230); (4237, 4237); (4253, 4253);
   (4348, 4348); (4957, 4959); (5906, 5908); (5938, 5939); (5970, 5971); (6002, 6003);
   (6068, 6069); (6071, 6077); (6086, 6086); (6089, 6099); (6103, 6103); (6109, 6109);
   (6155, 6159); (6211, 6211); (6277, 6278); (6313, 6313); (6432, 6434); (6439, 6440);
   (6450, 6450); (6457, 6459); (6679, 6680); (6683, 6683); (6742, 6742); (6744, 6750);
   (6752, 6752); (6754, 6754); (6757, 6764); (6771, 6780); (6783, 6783); (6823, 6823);
   (6832, 6862); (6912, 6915); (6964, 6964); (6966, 6970); (6972, 6972); (6978, 6978);
   (7019, 7027); (7040, 7041); (7074, 7077); (7080, 7081); (7083, 7085); (7142, 7142);
   (7144, 7145); (7149, 7149); (7151, 7153); (7212, 7219); (7222, 7223); (7288, 7293);
   (7376, 7378); (7380, 7392); (7394, 7400); (7405, 7405); (7412, 7412); (7416, 7417);
   (7468, 7530); (7544, 7544); (7579, 7679); (8125, 8125); (8127, 8129); (8141, 8143);
   (8157, 8159); (8173, 8175); (8189, 8190); (8203, 8207); (8216, 8217); (8228, 8228);
   (8231, 8231); (8234, 8238); (8288, 8292); (8294, 8303); (8305, 8305); (8319, 8319);
   (8336, 8348); (8400, 8432); (11388, 11389); (11503, 11505); (11631, 11631);
   (11647, 11647); (11744, 11775); (11823, 11823); (12293, 12293); (12330, 12333);
   (12337, 12341); (12347, 12347); (12441, 12446); (12540, 12542); (40981, 40981);
   (42232, 42237); (42508, 42508); (42607, 42610); (42612, 42621); (42623, 42623);
   (42652, 42655); (42736, 42737); (42752, 42785); (42864, 42864); (42888, 42890);
   (42994, 42996); (43000, 43001); (43010, 43010); (43014, 43014); (43019, 43019);
   (43045, 43046); (43052, 43052); (43204, 43205); (43232, 43249); (43263, 43263);
   (43302, 43309); (43335, 43345); (43392, 43394); (43443, 43443); (43446, 43449);
   (43452, 43453); (43471, 43471); (43493, 43494); (43561, 43566); (43569, 43570);
   (43573, 43574); (43587, 43587); (43596, 43596); (43632, 43632); (43644, 43644);
   (43696, 43696); (43698, 43700); (43703, 43704); (43710, 43711); (43713, 43713);
   (43741, 43741); (43756, 43757); (43763, 43764); (43766, 43766); (43867, 43871);
   (43881, 43883); (44005, 44005); (44008, 44008); (44013, 44013); (64286, 64286);
   (64434, 64450); (65024, 65039); (65043, 65043); (65056, 65071); (65106, 65106);
   (65109, 65109); (65279, 65279); (65287, 65287); (65294, 65294); (65306, 65306);
   (65342, 65342); (65344, 65344); (65392, 65392); (65438, 65439); (65507, 65507);
   (65529, 65531); (66045, 66045); (66272, 66272); (66422, 66426); (67456, 67461);
   (67463, 67504); (67506, 67514); (68097, 68099); (68101, 68102); (68108, 68111);
   (68152, 68154); (68159, 68159); (68325, 68326); (68900, 68903); (69291, 69292);
   (69446, 69456); (69506, 69509); (69633, 69633); (69688, 69702); (69744, 69744);
   (69747, 69748); (69759, 69761); (69811, 69814); (69817, 69818); (69821, 69821);
   (69826, 69826); (69837, 69837); (69888, 69890); (69927, 69931); (69933, 69940);
   (70003, 70003); (70016, 70017); (70070, 70078); (70089, 70092); (70095, 70095);
   (70191, 70193); (70196, 70196); (70198, 70199); (70206, 70206); (70367, 70367);
   (70371, 70378); (70400, 70401); (70459, 70460); (70464, 70464); (70502, 70508);
   (70512, 70516); (70712, 70719); (70722, 70724); (70726, 70726); (70750, 70750);
   (70835, 70840); (70842, 70842); (70847, 70848); (70850, 70851); (71090, 71093);
   (71100, 71101); (71103, 71104); (71132, 71133); (71219, 71226); (71229, 71229);
   (71231, 71232); (71339, 71339); (71341, 71341); (71344, 71349); (71351, 71351);
   (71453, 71455); (71458, 71461); (71463, 71467); (71727, 71735); (71737, 71738);
   (71995, 71996); (71998, 71998); (72003, 72003); (72148, 72151); (72154, 72155);
   (72160, 72160); (72193, 72202); (72243, 72248); (72251, 72254); (72263, 72263);
   (72273, 72278); (72281, 72283); (72330, 72342); (72344, 72345); (72752, 72758);
   (72760, 72765); (72767, 72767); (72850, 72871); (72874, 72880); (72882, 72883);
   (72885, 72886); (73009, 73014); (73018, 73018); (73020, 73021); (73023, 73029);
   (73031, 73031); (73104, 73105); (73109, 73109); (73111, 73111); (73459, 73460);
   (78896, 78904); (92912, 92916); (92976, 92982); (92992, 92995); (94031, 94031);
   (94095, 94111); (94176, 94177); (94179, 94180); (110576, 110579); (110581, 110587);
   (110589, 110590); (113821, 113822); (113824, 113827); (118528, 118573);
   (118576, 118598); (119143, 119145); (119155, 119170); (119173, 119179);
   (119210, 119213); (119362, 119364); (121344, 121398); (121403, 121452);
   (121461, 121461); (121476, 121476); (121499, 121503); (121505, 121519);
   (122880, 122886); (122888, 122904); (122907, 122913); (122915, 122916);
   (122918, 122922); (123184, 123197); (123566, 123566); (123628, 123631);
   (125136, 125142); (125252, 125259); (127995, 127999); (917505, 917505);
   (917536, 917631); (917760, 917999) ]%N.

Definition inRanges (ranges : list (N * N)) (cp : N) : bool :=
  existsb (fun r => (fst r <=? cp)%N && (cp <=? snd r)%N) ranges.

Definition cased (ch : string) : bool := inRanges casedRanges (codePoint ch).

Definition caseIgnorable (ch : string) : bool :=
  inRanges caseIgnorableRanges (codePoint ch).

Definition simpleLowerCase (cp : N) : option N :=
  match
    List.find
      (fun r =>
         let '(first, last, step, _) := r in
         (first <=? cp)%N && (cp <=? last)%N && ((cp - first) mod step =? 0)%N)
      lowerCaseRanges
  with
  | Some (first, _, _, image) => Some (image + (cp - first))%N
  | None => None
  end.

(** The lower case of one code point.  U+0130 is the one code point
    whose lower case is two code points; capital sigma (U+03A3) becomes the
    final sigma where it ends a word, the small sigma elsewhere. *)
Definition lowerCase (final : bool) (ch : string) : string :=
  let cp := codePoint ch in
  if (cp =? 931)%N then utf8 (if final then 962 else 963)
  else if (cp =? 304)%N then (utf8 105 ++ utf8 775)%string
  else match simpleLowerCase cp with
       | Some image => utf8 image
       | None => ch
       end.

(** A cased letter follows, case-ignorable code points apart. *)
Fixpoint beforeCased (rest : list string) : bool :=
  match rest with
  | [] => false
  | ch :: rest' => if caseIgnorable ch then beforeCased rest' else cased ch
  end.

(** [afterCased]: a cased letter precedes, case-ignorable code points
    apart. *)
Fixpoint lowerFrom (afterCased : bool) (chs : list string) : list string :=
  match chs with
  | [] => []
  | ch :: rest =>
      lowerCase (afterCased && negb (beforeCased rest)) ch
      :: lowerFrom (if caseIgnorable ch then afterCased else cased ch) rest
  end.

(** [s.toLowerCase()]: the default case conversion of Unicode. *)
Definition toLowerCase (s : string) : string := join (lowerFrom false (chars s)).

(** [includes hay kw] is [hay.includes(kw)]. *)
Fixpoint includes (hay kw : string) : bool :=
  String.prefix kw hay
  || match hay with
     | EmptyString => false
     | String _ hay' => includes hay' kw
     end.

(** *** White space

    [trim] removes the code points of [WhiteSpace] and [LineTerminator]:
    tab, line feed, vertical tab, form feed, carriage return, space,
    no-break space, the other space separators, the line and paragraph
    separators and the byte order mark. *)
Definition whiteSpace : list N :=
  [ 9; 10; 11; 12; 13; 32; 160; 5760; 8192; 8193; 8194; 8195; 8196; 8197; 8198;
    8199; 8200; 8201; 8202; 8232; 8233; 8239; 8287; 12288; 65279 ]%N.

Definition isSpace (ch : string) : bool :=
  existsb (N.eqb (codePoint ch)) whiteSpace.

Fixpoint dropSpaces (chs : list string) : list string :=
  match chs with
  | [] => []
  | ch :: rest => if isSpace ch then dropSpaces rest else chs
  end.

(** [s.trim()] *)
Definition trim (s : string) : string :=
  join (rev (dropSpaces (rev (dropSpaces (chars s))))).

Definition quote : string := String (ascii_of_nat 34) EmptyString.

(** The keys every object literal inherits from [Object.prototype]. *)
Definition prototypeKeys : list string :=
  [ "constructor"; "__defineGetter__"; "__defineSetter__"; "hasOwnProperty";
    "__lookupGetter__"; "__lookupSetter__"; "isPrototypeOf";
    "propertyIsEnumerable"; "toString"; "valueOf"; "__proto__";
    "toLocaleString" ].

Definition inherited (k : string) : bool :=
  existsb (String.eqb k) prototypeKeys.

(** Array indices: the canonical decimal numerals below [2^32 - 1].
    Own keys of this form are enumerated first, in numeric order. *)
Definition digit (c : ascii) : option N :=
  let n := nat_of_ascii c in
  if (48 <=? n)%nat && (n <=? 57)%nat then Some (N.of_nat (n - 48)) else None.

Fixpoint digits (acc : N) (s : string) : option N :=
  match s with
  | EmptyString => Some acc
  | String c s' =>
      match digit c with
      | Some d => digits (acc * 10 + d) s'
      | None => None
      end
  end.

Definition arrayIndex (k : string) : option N :=
  match k with
  | EmptyString => None
  | String c rest =>
      if Ascii.eqb c "0" && negb (String.eqb rest "") then None
      else match digits 0 k with
           | Some n => if (n <? 4294967295)%N then Some n else None
           | None => None
           end
  end.

End JS.

(** ** Results of code that may throw *)

Inductive Error : Type :=
| TypeError (message : string)
| UpstreamError.

Inductive Result (A : Type) : Type :=
| Ok (value : A)
| Throw (e : Error).
Arguments Ok {A} value.
Arguments Throw {A} e.

(** ** The data model *)

Record FeedbackEntry : Type := mkEntry {
  entryId : string;
  itemId : string;
  itemTitle : string;
  stage : string;
  action : string;
  comment : option string;
  timestamp : Z
}.

Inductive ContradictionType : Type := direct | thematic.

Record Contradiction : Type := mkContradiction {
  contradictionId : string;
  type : ContradictionType;
  entry1 : FeedbackEntry;
  entry2 : FeedbackEntry;
  description : string
}.

(** The object literal the detector pushes, before [uuid()] has given it
    its identifier. *)
Record Pending : Type := mkPending {
  pendingType : ContradictionType;
  pendingEntry1 : FeedbackEntry;
  pendingEntry2 : FeedbackEntry;
  pendingDescription : string
}.

Definition issue (id : string) (p : Pending) : Contradiction :=
  {| contradictionId := id;
     type := pendingType p;
     entry1 := pendingEntry1 p;
     entry2 := pendingEntry2 p;
     description := pendingDescription p |}.

Definition pending (c : Contradiction) : Pending :=
  {| pendingType := type c;
     pendingEntry1 := entry1 c;
     pendingEntry2 := entry2 c;
     pendingDescription := description c |}.

(** ** The contradiction detector: grouping by item *)

(** [byItem], a plain object used as a dictionary: its own properties in
    creation order. *)
Definition ByItem : Type := list (string * list FeedbackEntry).

Fixpoint ownProperty (o : ByItem) (k : string) : option (list FeedbackEntry) :=
  match o with
  | [] => None
  | (k', es) :: o' => if String.eqb k' k then Some es else ownProperty o' k
  end.

Fixpoint pushOwn (o : ByItem) (k : string) (e : FeedbackEntry) : ByItem :=
  match o with
  | [] => []
  | (k', es) :: o' =>
      if String.eqb k' k then (k', es ++ [e]) :: o' else (k', es) :: pushOwn o' k e
  end.

(** One step of [feedback.forEach(e => { if (!byItem[e.itemId])
    byItem[e.itemId] = []; byItem[e.itemId].push(e); })].  The read
    [byItem[k]] finds an own property, or else a member of
    [Object.prototype], which is truthy and has no [push]. *)
Definition groupStep (o : ByItem) (e : FeedbackEntry) : Result ByItem :=
  let k := itemId e in
  match ownProperty o k with
  | Some _ => Ok (pushOwn o k e)
  | None =>
      if JS.inherited k
      then Throw (TypeError "byItem[e.itemId].push is not a function")
      else Ok (o ++ [(k, [e])])
  end.

Fixpoint groupFrom (o : ByItem) (feedback : list FeedbackEntry) : Result ByItem :=
  match feedback with
  | [] => Ok o
  | e :: rest =>
      match groupStep o e with
      | Ok o' => groupFrom o' rest
      | Throw err => Throw err
      end
  end.

Definition groupByItem (feedback : list FeedbackEntry) : Result ByItem :=
  groupFrom [] feedback.

(** The enumeration order of own properties: array-index keys ascending,
    then the other keys in creation order. *)
Definition Property : Type := string * list FeedbackEntry.

Fixpoint insertIndexed (x : N * Property) (l : list (N * Property)) : list (N * Property) :=
  match l with
  | [] => [x]
  | y :: l' => if (fst x <=? fst y)%N then x :: l else y :: insertIndexed x l'
  end.

Fixpoint indexedProperties (o : ByItem) : list (N * Property) :=
  match o with
  | [] => []
  | p :: o' =>
      match JS.arrayIndex (fst p) with
      | Some n => insertIndexed (n, p) (indexedProperties o')
      | None => indexedProperties o'
      end
  end.

Fixpoint namedProperties (o : ByItem) : list Property :=
  match o with
  | [] => []
  | p :: o' =>
      match JS.arrayIndex (fst p) with
      | Some _ => namedProperties o'
      | None => p :: namedProperties o'
      end
  end.

Definition objectEntries (o : ByItem) : list Property :=
  map snd (indexedProperties o) ++ namedProperties o.

(** [Object.values(byItem)] *)
Definition objectValues (o : ByItem) : list (list FeedbackEntry) :=
  map snd (objectEntries o).

(** ** The contradiction detector: direct contradictions *)

Definition opposed (a b : FeedbackEntry) : bool :=
  (String.eqb (action a) "approved" && String.eqb (action b) "rejected")
  || (String.eqb (action a) "rejected" && String.eqb (action b) "approved").

Definition directContradiction (a b : FeedbackEntry) : Pending :=
  {| pendingType := direct;
     pendingEntry1 := a;
     pendingEntry2 := b;
     pendingDescription :=
       "You " ++ action a ++ " " ++ JS.quote ++ itemTitle a ++ JS.quote
       ++ " then " ++ action b ++ " it. Which call do we go with?" |}.

(** The inner loop, [j] from [i + 1]: [a] is [entries[i]]. *)
Definition checkAgainst (a : FeedbackEntry) (later : list FeedbackEntry) : list Pending :=
  flat_map (fun b => if opposed a b then [directContradiction a b] else []) later.

(** The outer loop over [i]. *)
Fixpoint checkEntries (entries : list FeedbackEntry) : list Pending :=
  match entries with
  | [] => []
  | a :: later => checkAgainst a later ++ checkEntries later
  end.

Definition directContradictions (o : ByItem) : list Pending :=
  flat_map checkEntries (objectValues o).

(** ** The contradiction detector: thematic contradictions *)

Inductive Theme : Type := shorter | longer | lighter | darker | grounded | absurd.

Definition themeKeywords (t : Theme) : list string :=
  match t with
  | shorter => ["too long"; "shorter"; "trim"; "cut down"]
  | longer => ["too short"; "longer"; "expand"; "more detail"]
  | lighter => ["too dark"; "lighter"; "softer"; "less edgy"]
  | darker => ["darker"; "edgier"; "push it"; "more aggressive"]
  | grounded => ["too absurd"; "too weird"; "more realistic"; "grounded"]
  | absurd => ["more absurd"; "weirder"; "push further"; "too safe"]
  end.

(** [Object.entries(themeKeywords)] enumerates the table in this order. *)
Definition themeOrder : list Theme :=
  [shorter; longer; lighter; darker; grounded; absurd].

Definition Theme_eqb (a b : Theme) : bool :=
  match a, b with
  | shorter, shorter | longer, longer | lighter, lighter
  | darker, darker | grounded, grounded | absurd, absurd => true
  | _, _ => false
  end.

(** [themes]: the entries tagged under each theme; a theme without a
    property reads as the empty list. *)
Definition Themes : Type := Theme -> list FeedbackEntry.

Definition noThemes : Themes := fun _ => [].

Definition pushTheme (themes : Themes) (t : Theme) (e : FeedbackEntry) : Themes :=
  fun t' => if Theme_eqb t t' then themes t' ++ [e] else themes t'.

Definition commentText (e : FeedbackEntry) : string :=
  match comment e with
  | Some c => c
  | None => ""
  end.

(** [keywords.some(kw => lower.includes(kw))] *)
Definition triggers (t : Theme) (lower : string) : bool :=
  existsb (fun kw => JS.includes lower kw) (themeKeywords t).

(** The body of [commented.forEach]: one pass over the keyword table. *)
Definition tagEntry (themes : Themes) (e : FeedbackEntry) : Themes :=
  let lower := JS.toLowerCase (commentText e) in
  fold_left
    (fun th t => if triggers t lower then pushTheme th t e else th)
    themeOrder themes.

Definition commented (feedback : list FeedbackEntry) : list FeedbackEntry :=
  List.filter (fun e => JS.truthy (comment e)) feedback.

Definition tagThemes (feedback : list FeedbackEntry) : Themes :=
  fold_left tagEntry (commented feedback) noThemes.

Definition shown (e : FeedbackEntry) : string :=
  match comment e with
  | Some c => JS.substring0 60 c
  | None => "undefined"
  end.

Definition thematicContradiction (e1 e2 : FeedbackEntry) : Pending :=
  {| pendingType := thematic;
     pendingEntry1 := e1;
     pendingEntry2 := e2;
     pendingDescription :=
       "Mixed signals: " ++ JS.quote ++ shown e1 ++ "..." ++ JS.quote
       ++ " vs " ++ JS.quote ++ shown e2 ++ "..." ++ JS.quote
       ++ " — help me calibrate." |}.

Definition pairs : list (Theme * Theme) :=
  [(shorter, longer); (lighter, darker); (grounded, absurd)].

(** The body of [pairs.forEach]: [themes[a]?.length && themes[b]?.length]
    holds when both lists have a last element. *)
Definition checkPair (themes : Themes) (p : Theme * Theme) : list Pending :=
  match last (themes (fst p)), last (themes (snd p)) with
  | Some e1, Some e2 => [thematicContradiction e1 e2]
  | _, _ => []
  end.

Definition thematicContradictions (feedback : list FeedbackEntry) : list Pending :=
  flat_map (checkPair (tagThemes feedback)) pairs.

(** ** Documents of the data directory *)

(** A JSON value the engine only carries around. *)
Definition Json : Type := string.

Inductive Stage : Type := strategies | concepts | scripts | storyboards.

#[global] Instance Stage_eq_dec : EqDecision Stage.
Proof. solve_decision. Defined.

Definition Stage_code (s : Stage) : nat :=
  match s with strategies => 0 | concepts => 1 | scripts => 2 | storyboards => 3 end.

Definition Stage_of_code (n : nat) : Stage :=
  match n with 0 => strategies | 1 => concepts | 2 => scripts | _ => storyboards end.

#[global] Instance Stage_countable : Countable Stage.
Proof. apply (inj_countable' Stage_code Stage_of_code). intros []; reflexivity. Defined.

Module Project.
Record t : Type := mk {
  id : string;
  name : string;
  brandData : Json;
  createdAt : Z;
  updatedAt : Z
}.

Definition touch (at_ : Z) (p : t) : t :=
  {| id := id p; name := name p; brandData := brandData p;
     createdAt := createdAt p; updatedAt := at_ |}.
End Project.

Module Item.
Record Note : Type := mkNote {
  noteId : string;
  text : string;
  postedAt : Z;
  author : string
}.

Record t : Type := mk {
  id : string;
  title : string;
  description : string;
  status : string;
  comments : list Note;
  parentId : option string;
  tier : option string;
  format : option string;
  duration : option string;
  heroCopy : option string;
  script : option Json;
  hooks : option (list string);
  caption : option string;
  productionNotes : option string;
  createdAt : option Z;
  updatedAt : option Z
}.
End Item.

Module Pattern.
Record t : Type := mk {
  title : string;
  stage : string;
  comment : option string;
  timestamp : Z
}.
End Pattern.

Module Rule.
Record t : Type := mk {
  from : string;
  rule : option string;
  timestamp : Z
}.
End Rule.

Record Patterns : Type := mkPatterns {
  approved : list Pattern.t;
  rejected : list Pattern.t;
  rules : list Rule.t
}.

Record Store : Type := mkStore {
  projectsDoc : list Project.t;
  itemDocs : gmap (string * Stage) (list Item.t);
  feedbackDocs : gmap string (list FeedbackEntry);
  patternDocs : gmap string Patterns
}.

(** The files behind the documents: [`${projectId}_${category}.json`], and
    [_projects.json] for the index.  Distinct documents have distinct
    files ([documentFile_inj] below), which is what lets the store be
    keyed by project and category. *)
Inductive Category : Type :=
| itemsOf (stg : Stage)
| feedbackLedger
| patternSummary.

Definition categoryName (c : Category) : string :=
  match c with
  | itemsOf strategies => "strategies"
  | itemsOf concepts => "concepts"
  | itemsOf scripts => "scripts"
  | itemsOf storyboards => "storyboards"
  | feedbackLedger => "feedback"
  | patternSummary => "patterns"
  end.

Definition documentFile (projectId : string) (c : Category) : string :=
  projectId ++ "_" ++ categoryName c ++ ".json".

Definition indexFile : string := "_projects.json".

(** What [uuid()], [Date.now()] and the text generator answer, call by
    call ([None]: the request failed). *)
Record Generated : Type := mkGenerated {
  resultScript : option Json;
  resultHooks : option (list string);
  resultCaption : option string;
  resultProductionNotes : option string;
  resultValue : Json
}.

Record Oracles : Type := mkOracles {
  uuid : nat -> string;
  now : nat -> Z;
  reply : nat -> option Generated
}.

Record World : Type := mkWorld {
  store : Store;
  drawn : nat;
  ticks : nat;
  calls : nat
}.

Definition withStore (w : World) (s : Store) : World :=
  {| store := s; drawn := drawn w; ticks := ticks w; calls := calls w |}.

(** The entry a caller hands to [addFeedback]: [id] and [timestamp] may
    be missing. *)
Record NewEntry : Type := mkNewEntry {
  givenId : option string;
  givenItemId : string;
  givenItemTitle : string;
  givenStage : string;
  givenAction : string;
  givenComment : option string;
  givenTimestamp : option Z
}.

Module FullContext.
Record Summary : Type := mkSummary {
  totalFeedback : nat;
  approvedCount : nat;
  rejectedCount : nat;
  revisionCount : nat;
  activeContradictions : nat;
  learnedRules : nat
}.

Record t : Type := mk {
  project : option Project.t;
  strategies : list Item.t;
  concepts : list Item.t;
  scripts : list Item.t;
  feedback : list FeedbackEntry;
  patterns : Patterns;
  contradictions : list Contradiction;
  summary : Summary
}.
End FullContext.

(** The answers of [POST /scripts/batch]. *)
Inductive Response : Type :=
| BadRequest (error : string)
| ServerError (e : Error)
| Batch (items : list Item.t) (generated : nat) (message : option string).

(** ** The store *)

Definition emptyPatterns : Patterns :=
  {| approved := []; rejected := []; rules := [] |}.

Fixpoint findIndex {A : Type} (f : A -> bool) (l : list A) : option nat :=
  match l with
  | [] => None
  | x :: l' => if f x then Some 0 else option_map S (findIndex f l')
  end.

Definition listProjects (s : Store) : list Project.t := projectsDoc s.

Definition getProject (projectId : string) (s : Store) : option Project.t :=
  List.find (fun p => String.eqb (Project.id p) projectId) (listProjects s).

Definition getItems (projectId : string) (stg : Stage) (s : Store) : list Item.t :=
  default [] (itemDocs s !! (projectId, stg)).

Definition getFeedback (projectId : string) (s : Store) : list FeedbackEntry :=
  default [] (feedbackDocs s !! projectId).

Definition getPatterns (projectId : string) (s : Store) : Patterns :=
  default emptyPatterns (patternDocs s !! projectId).

Definition writeProjects (ps : list Project.t) (s : Store) : Store :=
  {| projectsDoc := ps; itemDocs := itemDocs s;
     feedbackDocs := feedbackDocs s; patternDocs := patternDocs s |}.

Definition writeItems (projectId : string) (stg : Stage) (items : list Item.t)
    (s : Store) : Store :=
  {| projectsDoc := projectsDoc s; itemDocs := <[(projectId, stg) := items]> (itemDocs s);
     feedbackDocs := feedbackDocs s; patternDocs := patternDocs s |}.

Definition writeFeedback (projectId : string) (l : list FeedbackEntry) (s : Store) : Store :=
  {| projectsDoc := projectsDoc s; itemDocs := itemDocs s;
     feedbackDocs := <[projectId := l]> (feedbackDocs s); patternDocs := patternDocs s |}.

Definition writePatterns (projectId : string) (p : Patterns) (s : Store) : Store :=
  {| projectsDoc := projectsDoc s; itemDocs := itemDocs s;
     feedbackDocs := feedbackDocs s; patternDocs := <[projectId := p]> (patternDocs s) |}.

Definition hasId (ids : list string) (i : string) : bool :=
  existsb (String.eqb i) ids.

Definition hasParent (ids : list (option string)) (i : string) : bool :=
  existsb (fun o => match o with Some p => String.eqb p i | None => false end) ids.

Section Engine.

Variable env : Oracles.

Definition setItems (projectId : string) (stg : Stage) (items : list Item.t)
    (w : World) : World :=
  let s := writeItems projectId stg items (store w) in
  let projects := listProjects s in
  match findIndex (fun p => String.eqb (Project.id p) projectId) projects with
  | Some idx =>
      let projects' := alter (Project.touch (now env (ticks w))) idx projects in
      {| store := writeProjects projects' s; drawn := drawn w;
         ticks := S (ticks w); calls := calls w |}
  | None => withStore w s
  end.

Definition addItems (projectId : string) (stg : Stage) (newItems : list Item.t)
    (w : World) : list Item.t * World :=
  let existing := getItems projectId stg (store w) in
  let existingIds := map Item.id existing in
  let toAdd := List.filter (fun i => negb (hasId existingIds (Item.id i))) newItems in
  let updated := existing ++ toAdd in
  (updated, setItems projectId stg updated w).

(** ** The pattern learner *)

Definition approvedPattern (f : FeedbackEntry) : Pattern.t :=
  {| Pattern.title := itemTitle f; Pattern.stage := stage f;
     Pattern.comment := comment f; Pattern.timestamp := timestamp f |}.

Definition learnedRule (f : FeedbackEntry) : Rule.t :=
  {| Rule.from := itemTitle f; Rule.rule := comment f;
     Rule.timestamp := timestamp f |}.

(** [f.comment && f.comment.trim().length > 0] *)
Definition hasRuleText (f : FeedbackEntry) : bool :=
  match comment f with
  | Some c => negb (String.eqb c "") && (0 <? String.length (JS.trim c))%nat
  | None => false
  end.

Definition updatePatterns (projectId : string) (feedback : list FeedbackEntry)
    (s : Store) : Patterns * Store :=
  let patterns := getPatterns projectId s in
  let approvedItems := List.filter (fun f => String.eqb (action f) "approved") feedback in
  let rejectedItems := List.filter (fun f => String.eqb (action f) "rejected") feedback in
  let revisionItems := List.filter (fun f => String.eqb (action f) "revision") feedback in
  let patterns :=
    {| approved := map approvedPattern approvedItems;
       rejected := rejected patterns; rules := rules patterns |} in
  let patterns :=
    {| approved := approved patterns;
       rejected := map approvedPattern rejectedItems; rules := rules patterns |} in
  let patterns :=
    {| approved := approved patterns; rejected := rejected patterns;
       rules := map learnedRule (List.filter hasRuleText revisionItems) |} in
  (patterns, writePatterns projectId patterns s).

(** ** The feedback ledger *)

Definition addFeedback (projectId : string) (entry : NewEntry) (w : World)
    : FeedbackEntry * World :=
  let feedback := getFeedback projectId (store w) in
  let '(id, drawn') :=
    match givenId entry with
    | Some i => if String.eqb i "" then (uuid env (drawn w), S (drawn w)) else (i, drawn w)
    | None => (uuid env (drawn w), S (drawn w))
    end in
  let '(at_, ticks') :=
    match givenTimestamp entry with
    | Some t => if (t =? 0)%Z then (now env (ticks w), S (ticks w)) else (t, ticks w)
    | None => (now env (ticks w), S (ticks w))
    end in
  let enriched :=
    {| entryId := id;
       itemId := givenItemId entry;
       itemTitle := givenItemTitle entry;
       stage := givenStage entry;
       action := givenAction entry;
       comment := givenComment entry;
       timestamp := at_ |} in
  let feedback := feedback ++ [enriched] in
  let s := writeFeedback projectId feedback (store w) in
  let s := snd (updatePatterns projectId feedback s) in
  (enriched, {| store := s; drawn := drawn'; ticks := ticks'; calls := calls w |}).

(** ** The contradiction detector *)

(** [contradictions.push({ id: uuid(), ... })], one after the other. *)
Fixpoint issueAll (n : nat) (ps : list Pending) : list Contradiction :=
  match ps with
  | [] => []
  | p :: ps' => issue (uuid env n) p :: issueAll (S n) ps'
  end.

Definition findContradictions (projectId : string) (w : World)
    : Result (list Contradiction) * World :=
  let feedback := getFeedback projectId (store w) in
  match groupByItem feedback with
  | Throw err => (Throw err, w)
  | Ok byItem =>
      let found := directContradictions byItem ++ thematicContradictions feedback in
      (Ok (issueAll (drawn w) found),
       {| store := store w; drawn := drawn w + length found;
          ticks := ticks w; calls := calls w |})
  end.

(** ** The context compiler *)

Definition countAction (a : string) (feedback : list FeedbackEntry) : nat :=
  length (List.filter (fun f => String.eqb (action f) a) feedback).

Definition getFullContext (projectId : string) (w : World)
    : Result FullContext.t * World :=
  let project := getProject projectId (store w) in
  let feedback := getFeedback projectId (store w) in
  let patterns := getPatterns projectId (store w) in
  let strategies := getItems projectId strategies (store w) in
  let concepts := getItems projectId concepts (store w) in
  let scripts := getItems projectId scripts (store w) in
  match findContradictions projectId w with
  | (Throw err, w') => (Throw err, w')
  | (Ok contradictions, w') =>
      (Ok {| FullContext.project := project;
             FullContext.strategies := strategies;
             FullContext.concepts := concepts;
             FullContext.scripts := scripts;
             FullContext.feedback := feedback;
             FullContext.patterns := patterns;
             FullContext.contradictions := contradictions;
             FullContext.summary :=
               {| FullContext.totalFeedback := length feedback;
                  FullContext.approvedCount := countAction "approved" feedback;
                  FullContext.rejectedCount := countAction "rejected" feedback;
                  FullContext.revisionCount := countAction "revision" feedback;
                  FullContext.activeContradictions := length contradictions;
                  FullContext.learnedRules := length (rules patterns) |} |},
       w')
  end.

(** ** Batch generation of scripts *)

(** [generate]: the memory context is compiled first, then the request
    is made; a failed request throws. *)
Definition generate (projectId : string) (w : World) : Result Generated * World :=
  match getFullContext projectId w with
  | (Throw err, w') => (Throw err, w')
  | (Ok _, w') =>
      let w'' := {| store := store w'; drawn := drawn w';
                    ticks := ticks w'; calls := S (calls w') |} in
      match reply env (calls w') with
      | Some result => (Ok result, w'')
      | None => (Throw UpstreamError, w'')
      end
  end.

Definition orElse {A : Type} (a b : option A) : option A :=
  match a with
  | Some _ => a
  | None => b
  end.

Definition scriptItem (concept : Item.t) (result : Generated) (id : string) (at_ : Z)
    : Item.t :=
  {| Item.id := id;
     Item.title := "Script: " ++ Item.title concept;
     Item.description := Item.description concept;
     Item.status := "pending";
     Item.comments := [];
     Item.parentId := Some (Item.id concept);
     Item.tier := Item.tier concept;
     Item.format := Item.format concept;
     Item.duration := Item.duration concept;
     Item.heroCopy := Item.heroCopy concept;
     Item.script := Some (default (resultValue result) (resultScript result));
     Item.hooks := orElse (resultHooks result) (Item.hooks concept);
     Item.caption := orElse (resultCaption result) (Item.caption concept);
     Item.productionNotes := Some (default "" (resultProductionNotes result));
     Item.createdAt := Some at_;
     Item.updatedAt := None |}.

(** The [for (const concept of toGenerate)] loop. *)
Fixpoint generateScripts (projectId : string) (toGenerate : list Item.t) (w : World)
    : Result (list Item.t) * World :=
  match toGenerate with
  | [] => (Ok [], w)
  | concept :: rest =>
      match generate projectId w with
      | (Throw err, w1) => (Throw err, w1)
      | (Ok result, w1) =>
          let item := scriptItem concept result (uuid env (drawn w1)) (now env (ticks w1)) in
          let w2 := {| store := store w1; drawn := S (drawn w1);
                       ticks := S (ticks w1); calls := calls w1 |} in
          match generateScripts projectId rest w2 with
          | (Throw err, w3) => (Throw err, w3)
          | (Ok generated, w3) => (Ok (item :: generated), w3)
          end
      end
  end.

Definition toGenerate (projectId : string) (s : Store) : list Item.t :=
  let concepts := getItems projectId concepts s in
  let approved := List.filter (fun c => String.eqb (Item.status c) "approved") concepts in
  let existingScripts := getItems projectId scripts s in
  let existingParentIds := map Item.parentId existingScripts in
  List.filter (fun c => negb (hasParent existingParentIds (Item.id c))) approved.

Definition scriptsBatch (projectId : string) (w : World) : Response * World :=
  if String.eqb projectId "" then (BadRequest "projectId required", w)
  else
    let existingScripts := getItems projectId scripts (store w) in
    let toGenerate := toGenerate projectId (store w) in
    if (length toGenerate =? 0)%nat
    then (Batch existingScripts 0 (Some "All approved concepts already have scripts."), w)
    else
      match generateScripts projectId toGenerate w with
      | (Throw err, w1) => (ServerError err, w1)
      | (Ok generated, w1) =>
          let '(updated, w2) := addItems projectId scripts generated w1 in
          (Batch updated (length generated) None, w2)
      end.

End Engine.

(** ** Projects, item updates and the feedback routes *)

Definition stageName (stg : Stage) : string := categoryName (itemsOf stg).

Definition createProject (env : Oracles) (name : string) (brandData : Json) (w : World)
    : Project.t * World :=
  let projects := listProjects (store w) in
  let project :=
    {| Project.id := uuid env (drawn w);
       Project.name := name;
       Project.brandData := brandData;
       Project.createdAt := now env (ticks w);
       Project.updatedAt := now env (S (ticks w)) |} in
  let s := writeProjects (projects ++ [project]) (store w) in
  let s := writeItems (Project.id project) strategies [] s in
  let s := writeItems (Project.id project) concepts [] s in
  let s := writeItems (Project.id project) scripts [] s in
  let s := writeItems (Project.id project) storyboards [] s in
  let s := writeFeedback (Project.id project) [] s in
  let s := writePatterns (Project.id project) emptyPatterns s in
  (project,
   {| store := s; drawn := S (drawn w); ticks := S (S (ticks w)); calls := calls w |}).

(** The update objects the feedback routes hand to [updateItem]: a new
    status, a new list of comments, or both. *)
Record Updates : Type := mkUpdates {
  newStatus : option string;
  newComments : option (list Item.Note)
}.

(** [{ ...items[idx], ...updates, updatedAt: Date.now() }] *)
Definition applyUpdates (updates : Updates) (at_ : Z) (i : Item.t) : Item.t :=
  {| Item.id := Item.id i;
     Item.title := Item.title i;
     Item.description := Item.description i;
     Item.status := default (Item.status i) (newStatus updates);
     Item.comments := default (Item.comments i) (newComments updates);
     Item.parentId := Item.parentId i;
     Item.tier := Item.tier i;
     Item.format := Item.format i;
     Item.duration := Item.duration i;
     Item.heroCopy := Item.heroCopy i;
     Item.script := Item.script i;
     Item.hooks := Item.hooks i;
     Item.caption := Item.caption i;
     Item.productionNotes := Item.productionNotes i;
     Item.createdAt := Item.createdAt i;
     Item.updatedAt := Some at_ |}.

Definition updateItem (env : Oracles) (projectId : string) (stg : Stage) (itemId : string)
    (updates : Updates) (w : World) : option Item.t * World :=
  let items := getItems projectId stg (store w) in
  match findIndex (fun i => String.eqb (Item.id i) itemId) items with
  | None => (None, w)
  | Some idx =>
      let items := alter (applyUpdates updates (now env (ticks w))) idx items in
      let w := {| store := store w; drawn := drawn w;
                  ticks := S (ticks w); calls := calls w |} in
      (items !! idx, setItems env projectId stg items w)
  end.

(** The answers of the two feedback routes. *)
Inductive Answer : Type :=
| Refused (status : nat) (error : string)
| Updated (item : option Item.t).

Definition validStatus (status : string) : bool :=
  existsb (String.eqb status) ["pending"; "approved"; "rejected"; "revision"].

Definition actionOf (status : string) : string :=
  if String.eqb status "approved" then "approved"
  else if String.eqb status "rejected" then "rejected"
  else if String.eqb status "revision" then "revision"
  else "commented".

(** [{ id: uuid(), text: comment, timestamp: Date.now(), author: 'user' }] *)
Definition userNote (env : Oracles) (text : string) (w : World) : Item.Note * World :=
  ({| Item.noteId := uuid env (drawn w); Item.text := text;
      Item.postedAt := now env (ticks w); Item.author := "user" |},
   {| store := store w; drawn := S (drawn w); ticks := S (ticks w); calls := calls w |}).

(** [POST /items/:projectId/:stage/:itemId/status], for the four pipeline
    stages. *)
Definition postStatus (env : Oracles) (projectId : string) (stg : Stage) (itemId : string)
    (status : string) (comment : option string) (w : World) : Answer * World :=
  if negb (validStatus status) then (Refused 400 "Invalid status", w)
  else
    let items := getItems projectId stg (store w) in
    match List.find (fun i => String.eqb (Item.id i) itemId) items with
    | None => (Refused 404 "Item not found", w)
    | Some item =>
        let '(updates, w) :=
          if JS.truthy comment
          then
            let '(note, w) := userNote env (default "" comment) w in
            ({| newStatus := Some status;
                newComments := Some (Item.comments item ++ [note]) |}, w)
          else ({| newStatus := Some status; newComments := None |}, w) in
        let '(updated, w) := updateItem env projectId stg itemId updates w in
        let '(_, w) :=
          addFeedback env projectId
            {| givenId := None;
               givenItemId := itemId;
               givenItemTitle := Item.title item;
               givenStage := stageName stg;
               givenAction := actionOf status;
               givenComment := if JS.truthy comment then comment else None;
               givenTimestamp := None |} w in
        (Updated updated, w)
    end.

(** [POST /items/:projectId/:stage/:itemId/comment], for the four
    pipeline stages; [!comment?.trim()] refuses a missing or blank
    comment. *)
Definition postComment (env : Oracles) (projectId : string) (stg : Stage) (itemId : string)
    (comment : option string) (w : World) : Answer * World :=
  match comment with
  | None => (Refused 400 "Comment required", w)
  | Some text =>
      if String.eqb (JS.trim text) "" then (Refused 400 "Comment required", w)
      else
        let items := getItems projectId stg (store w) in
        match List.find (fun i => String.eqb (Item.id i) itemId) items with
        | None => (Refused 404 "Item not found", w)
        | Some item =>
            let '(note, w) := userNote env text w in
            let '(updated, w) :=
              updateItem env projectId stg itemId
                {| newStatus := None;
                   newComments := Some (Item.comments item ++ [note]) |} w in
            let '(_, w) :=
              addFeedback env projectId
                {| givenId := None;
                   givenItemId := itemId;
                   givenItemTitle := Item.title item;
                   givenStage := stageName stg;
                   givenAction := "commented";
                   givenComment := Some text;
                   givenTimestamp := None |} w in
            (Updated updated, w)
        end
  end.

(** ** The single script route *)

Inductive ScriptAnswer : Type :=
| ScriptRefused (status : nat) (error : string)
| ScriptFailed (e : Error)
| ScriptMade (item : Item.t) (items : list Item.t).

(** [POST /scripts] *)
Definition postScript (env : Oracles) (projectId conceptId : string) (w : World)
    : ScriptAnswer * World :=
  if String.eqb projectId "" || String.eqb conceptId ""
  then (ScriptRefused 400 "projectId and conceptId required", w)
  else
    let concepts := getItems projectId concepts (store w) in
    match List.find (fun c => String.eqb (Item.id c) conceptId) concepts with
    | None => (ScriptRefused 404 "Concept not found", w)
    | Some concept =>
        match generate env projectId w with
        | (Throw err, w1) => (ScriptFailed err, w1)
        | (Ok result, w1) =>
            let item := scriptItem concept result (uuid env (drawn w1)) (now env (ticks w1)) in
            let w2 := {| store := store w1; drawn := S (drawn w1);
                         ticks := S (ticks w1); calls := calls w1 |} in
            let '(updated, w3) := addItems env projectId scripts [item] w2 in
            (ScriptMade item updated, w3)
        end
    end.

(** ** The project route *)

Inductive ProjectAnswer : Type :=
| ProjectRefused (status : nat) (error : string)
| ProjectMade (project : Project.t).

(** [POST /projects]: [!name?.trim()] refuses a missing or blank name;
    the project is created under the trimmed name, with [brandData || {}]
    ([None]: no brand data, or a falsy value). *)
Definition postProject (env : Oracles) (name : option string) (brandData : option Json)
    (w : World) : ProjectAnswer * World :=
  match name with
  | None => (ProjectRefused 400 "Project name required", w)
  | Some text =>
      if String.eqb (JS.trim text) "" then (ProjectRefused 400 "Project name required", w)
      else
        let '(project, w) :=
          createProject env (JS.trim text) (default "{}" brandData) w in
        (ProjectMade project, w)
  end.

(** ** Relative times of the review screen *)

Inductive Age : Type :=
| justNow
| minutesAgo (n : Z)
| hoursAgo (n : Z)
| onDate (ts : Z).

(** [ftime(ts)], with the reading of [Date.now()] it takes. *)
Definition ftime (clock ts : Z) : Age :=
  let diff := (clock - ts)%Z in
  if (diff <? 60000)%Z then justNow
  else if (diff <? 3600000)%Z then minutesAgo (diff / 60000)%Z
  else if (diff <? 86400000)%Z then hoursAgo (diff / 3600000)%Z
  else onDate ts.

(** ** Vocabulary of the properties *)

(** No entry names its item after a member of [Object.prototype]; item
    identifiers come from [uuid()], which never produces such a name. *)
Definition plainKeys (feedback : list FeedbackEntry) : Prop :=
  Forall (fun e => JS.inherited (itemId e) = false) feedback.

(** The feedback entries on one item, in ledger order. *)
Definition entriesOn (item : string) (feedback : list FeedbackEntry) : list FeedbackEntry :=
  List.filter (fun e => String.eqb (itemId e) item) feedback.

(** Every pair of positions [i < j] of a list, adjacent or not. *)
Fixpoint orderedPairs {A : Type} (l : list A) : list (A * A) :=
  match l with
  | [] => []
  | a :: later => map (pair a) later ++ orderedPairs later
  end.

(** The two actions are exactly approved and rejected, in either order. *)
Definition approvedAndRejected (p : FeedbackEntry * FeedbackEntry) : Prop :=
  (action (fst p) = "approved" /\ action (snd p) = "rejected")
  \/ (action (fst p) = "rejected" /\ action (snd p) = "approved").

Definition approvedAndRejectedb (p : FeedbackEntry * FeedbackEntry) : bool :=
  opposed (fst p) (snd p).

Definition isDirect (c : Contradiction) : bool :=
  match type c with direct => true | thematic => false end.

Definition isThematic (c : Contradiction) : bool := negb (isDirect c).

Definition directOn (item : string) (c : Contradiction) : bool :=
  isDirect c && String.eqb (itemId (entry1 c)) item.

Definition contradicted (c : Contradiction) : FeedbackEntry * FeedbackEntry :=
  (entry1 c, entry2 c).

Definition pendingOn (item : string) (p : Pending) : bool :=
  match pendingType p with direct => true | thematic => false end
  && String.eqb (itemId (pendingEntry1 p)) item.

(** The groups of a ledger: distinct keys, and under each key the entries
    on that item, in ledger order. *)
Definition grouped (feedback : list FeedbackEntry) (o : ByItem) : Prop :=
  NoDup (map fst o)
  /\ forall k, ownProperty o k
               = match entriesOn k feedback with
                 | [] => None
                 | es => Some es
                 end.

(** [kw] occurs in [s] as a substring. *)
Definition substringOf (kw s : string) : Prop :=
  exists before after, s = (before ++ kw ++ after)%string.

(** An entry is tagged under a theme: its comment is non-empty and, in
    lower case, contains one of the trigger keywords of the theme. *)
Definition Tagged (t : Theme) (e : FeedbackEntry) : Prop :=
  exists c kw,
    comment e = Some c /\ c <> "" /\ In kw (themeKeywords t)
    /\ substringOf kw (JS.toLowerCase c).

Definition tagged (t : Theme) (e : FeedbackEntry) : bool :=
  JS.truthy (comment e) && triggers t (JS.toLowerCase (commentText e)).

(** [e] is the last entry of the ledger tagged under [t]. *)
Definition mostRecent (t : Theme) (feedback : list FeedbackEntry) (e : FeedbackEntry) : Prop :=
  exists earlier later,
    feedback = earlier ++ e :: later /\ Tagged t e /\ Forall (fun x => ~ Tagged t x) later.

(** What the detector pushes for one axis. *)
Definition emitted (feedback : list FeedbackEntry) (axis : Theme * Theme) : list Pending :=
  checkPair (tagThemes feedback) axis.

(** The result of a call with the identifiers left out. *)
Definition outcome (r : Result (list Contradiction)) : Result (list Pending) :=
  match r with
  | Ok cs => Ok (map pending cs)
  | Throw err => Throw err
  end.

(** The pattern summary the specification describes.  A comment is
    blank when it consists of white space only. *)
Definition whiteSpaceOnly (chs : list string) : Prop :=
  Forall (fun ch => In (JS.codePoint ch) JS.whiteSpace) chs.

Definition blank (s : string) : Prop := whiteSpaceOnly (JS.chars s).

Definition blankb (s : string) : bool :=
  forallb JS.isSpace (JS.chars s).

Definition carriesRule (f : FeedbackEntry) : bool :=
  String.eqb (action f) "revision"
  && match comment f with
     | Some c => negb (blankb c)
     | None => false
     end.

Definition withAction (a : string) (feedback : list FeedbackEntry) : list FeedbackEntry :=
  List.filter (fun f => String.eqb (action f) a) feedback.

(** The projection of an entry to [{title, stage, comment, timestamp}]. *)
Definition decisionOf (f : FeedbackEntry) : Pattern.t :=
  {| Pattern.title := itemTitle f; Pattern.stage := stage f;
     Pattern.comment := comment f; Pattern.timestamp := timestamp f |}.

(** The projection of an entry to [{from, rule, timestamp}]. *)
Definition ruleOf (f : FeedbackEntry) : Rule.t :=
  {| Rule.from := itemTitle f; Rule.rule := comment f; Rule.timestamp := timestamp f |}.

Definition summaryOf (feedback : list FeedbackEntry) : Patterns :=
  {| approved := map decisionOf (withAction "approved" feedback);
     rejected := map decisionOf (withAction "rejected" feedback);
     rules := map ruleOf (List.filter carriesRule feedback) |}.

(** A sequence of appends to the ledger of one project. *)
Fixpoint appendAll (env : Oracles) (projectId : string) (entries : list NewEntry)
    (w : World) : list FeedbackEntry * World :=
  match entries with
  | [] => ([], w)
  | e :: rest =>
      let '(stored, w1) := addFeedback env projectId e w in
      let '(more, w2) := appendAll env projectId rest w1 in
      (stored :: more, w2)
  end.

(** What [addFeedback] stores for the entry it was given. *)
Definition storedFor (env : Oracles) (given : NewEntry) (stored : FeedbackEntry) : Prop :=
  itemId stored = givenItemId given
  /\ itemTitle stored = givenItemTitle given
  /\ stage stored = givenStage given
  /\ action stored = givenAction given
  /\ comment stored = givenComment given
  /\ (forall i, givenId given = Some i -> i <> "" -> entryId stored = i)
  /\ (givenId given = None -> exists n, entryId stored = uuid env n)
  /\ (forall t, givenTimestamp given = Some t -> t <> 0%Z -> timestamp stored = t)
  /\ (givenTimestamp given = None -> exists n, timestamp stored = now env n).

Definition summaryFields (s : FullContext.Summary) : list nat :=
  [ FullContext.totalFeedback s; FullContext.approvedCount s;
    FullContext.rejectedCount s; FullContext.revisionCount s;
    FullContext.activeContradictions s; FullContext.learnedRules s ].

(** Occurrences of an action in the ledger. *)
Definition occurrences (a : string) (feedback : list FeedbackEntry) : nat :=
  count_occ string_dec (map action feedback) a.

(** Stores that agree on every document but the project index. *)
Definition sameDocuments (s s' : Store) : Prop :=
  itemDocs s = itemDocs s' /\ feedbackDocs s = feedbackDocs s'
  /\ patternDocs s = patternDocs s'.

(** Project indices that differ at most in the [updatedAt] of one project. *)
Definition touchedOnly (projectId : string) (ps qs : list Project.t) : Prop :=
  Forall2
    (fun p q => q = p \/ (Project.id p = projectId /\ exists at_, q = Project.touch at_ p))
    ps qs.

(** The first item of the list with the identifier sought, as
    [findIndex] and [find] locate it. *)
Definition firstMatch (itemId : string) (items before : list Item.t) (item : Item.t)
    (after : list Item.t) : Prop :=
  items = before ++ item :: after
  /\ Item.id item = itemId
  /\ Forall (fun i => Item.id i <> itemId) before.

(** What the status route hands to [updateItem] and to [addFeedback]. *)
Definition statusUpdates (env : Oracles) (item : Item.t) (status : string)
    (comment : option string) (w : World) : Updates * World :=
  if JS.truthy comment
  then ({| newStatus := Some status;
           newComments :=
             Some (Item.comments item ++ [fst (userNote env (default "" comment) w)]) |},
        snd (userNote env (default "" comment) w))
  else ({| newStatus := Some status; newComments := None |}, w).

Definition statusEntry (stg : Stage) (itemId : string) (item : Item.t) (status : string)
    (comment : option string) : NewEntry :=
  {| givenId := None;
     givenItemId := itemId;
     givenItemTitle := Item.title item;
     givenStage := stageName stg;
     givenAction := actionOf status;
     givenComment := if JS.truthy comment then comment else None;
     givenTimestamp := None |}.

Definition commentUpdates (env : Oracles) (item : Item.t) (text : string) (w : World)
    : Updates :=
  {| newStatus := None;
     newComments := Some (Item.comments item ++ [fst (userNote env text w)]) |}.

Definition commentEntry (stg : Stage) (itemId : string) (item : Item.t) (text : string)
    : NewEntry :=
  {| givenId := None;
     givenItemId := itemId;
     givenItemTitle := Item.title item;
     givenStage := stageName stg;
     givenAction := "commented";
     givenComment := Some text;
     givenTimestamp := None |}.

(** A project identifier that is a plain part of a file name: letters,
    digits, hyphens and underscores, as in the identifiers [uuid()]
    gives.  The file names made from such an identifier are single path
    segments, which [path.join] appends to the data directory as they
    are; other identifiers ("./P", "a/../P") may name the files of
    another project, or files in a directory that does not exist. *)
Definition fileNameChar (c : ascii) : bool :=
  let n := nat_of_ascii c in
  ((48 <=? n)%nat && (n <=? 57)%nat) || ((65 <=? n)%nat && (n <=? 90)%nat)
  || ((97 <=? n)%nat && (n <=? 122)%nat) || (n =? 45)%nat || (n =? 95)%nat.

Definition plainId (projectId : string) : Prop :=
  Forall (fun c => fileNameChar c = true) (list_ascii_of_string projectId).

(** A file name that is one segment of a path. *)
Definition singleSegment (name : string) : Prop :=
  ~ In "/"%char (list_ascii_of_string name)
  /\ name <> "" /\ name <> "." /\ name <> "..".

(** The scripts written for one concept. *)
Definition scriptsFor (conceptId : string) (scripts : list Item.t) : list Item.t :=
  List.filter (fun s => hasParent [Item.parentId s] conceptId) scripts.

(** ** Sample data *)

Definition sampleUuid (n : nat) : string :=
  "uuid-" ++ string_of_list_ascii (repeat "x"%char n).

Definition sampleEnv : Oracles :=
  {| uuid := sampleUuid;
     now := fun n => (1000 + Z.of_nat n)%Z;
     reply := fun _ => Some (mkGenerated None None None None "{}") |}.

(** A provider that fails its first request and answers afterwards. *)
Definition flakyEnv : Oracles :=
  {| uuid := sampleUuid;
     now := fun n => (1000 + Z.of_nat n)%Z;
     reply := fun n => match n with
                       | 0 => None
                       | _ => Some (mkGenerated None None None None "{}")
                       end |}.

Definition emptyStore : Store :=
  {| projectsDoc := []; itemDocs := ∅; feedbackDocs := ∅; patternDocs := ∅ |}.

Definition worldOf (s : Store) : World :=
  {| store := s; drawn := 0; ticks := 0; calls := 0 |}.

Definition sampleEntry (id item act : string) (c : option string) (t : Z) : FeedbackEntry :=
  {| entryId := id; itemId := item; itemTitle := "Hook A"; stage := "concepts";
     action := act; comment := c; timestamp := t |}.

Definition withLedger (feedback : list FeedbackEntry) : World :=
  worldOf (writeFeedback "P" feedback emptyStore).

Definition flipLedger : list FeedbackEntry :=
  [ sampleEntry "e1" "X" "approved" None 1;
    sampleEntry "e2" "X" "commented" (Some "hmm") 2;
    sampleEntry "e3" "X" "rejected" None 3 ].

Definition oneSidedLedger : list FeedbackEntry :=
  [ sampleEntry "e1" "X" "revision" (Some "This is TOO LONG for a reel") 1 ].

Definition bothSidesLedger : list FeedbackEntry :=
  oneSidedLedger ++ [ sampleEntry "e2" "Y" "commented" (Some "Please expand the ending") 2 ].

Definition recencyLedger : list FeedbackEntry :=
  [ sampleEntry "e1" "X" "revision" (Some "too long") 1;
    sampleEntry "e2" "Y" "revision" (Some "expand the middle") 2;
    sampleEntry "e3" "Z" "commented" (Some "Trim it") 3 ].

(** The second comment is written with the Kelvin sign (U+212A), which
    [toLowerCase] turns into the letter k. *)
Definition kelvinLedger : list FeedbackEntry :=
  [ sampleEntry "e1" "X" "revision" (Some "make it lighter") 1;
    sampleEntry "e2" "Y" "revision" (Some ("DAR" ++ JS.utf8 8490 ++ "ER please")%string) 2 ].

Definition mixedComment : FeedbackEntry :=
  sampleEntry "e1" "X" "revision" (Some "Too dark here, but the ending could go darker") 1.

Definition reversalLedger : list FeedbackEntry :=
  [ sampleEntry "e1" "X" "approved" None 1; sampleEntry "e2" "X" "rejected" None 2 ].

Definition commentedLedger : list FeedbackEntry :=
  [ sampleEntry "e1" "X" "commented" (Some "nice") 1;
    sampleEntry "e2" "X" "commented" (Some "hm") 2;
    sampleEntry "e3" "Y" "commented" (Some "ok") 3;
    sampleEntry "e4" "Y" "approved" None 4 ].

Definition sampleItem (id status : string) (parent : option string) : Item.t :=
  {| Item.id := id; Item.title := "Hook " ++ id; Item.description := "A concept";
     Item.status := status; Item.comments := []; Item.parentId := parent;
     Item.tier := Some "A"; Item.format := Some "ZooZoo"; Item.duration := Some "20s";
     Item.heroCopy := None; Item.script := None; Item.hooks := None;
     Item.caption := None; Item.productionNotes := None;
     Item.createdAt := Some 1%Z; Item.updatedAt := None |}.

Definition sampleProject : Project.t :=
  {| Project.id := "P"; Project.name := "Matiks"; Project.brandData := "{}";
     Project.createdAt := 1; Project.updatedAt := 1 |}.

(** Project P with concepts A and B approved, C pending, and no script. *)
Definition conceptStore : Store :=
  writeItems "P" concepts
    [ sampleItem "A" "approved" None; sampleItem "B" "approved" None;
      sampleItem "C" "pending" None ]
    (writeProjects [sampleProject] emptyStore).

(** Project P with its approved concepts and a ledger that holds one
    entry on an item named "constructor". *)
Definition poisonedWorld : World :=
  worldOf
    (writeFeedback "P" [sampleEntry "e1" "constructor" "approved" None 1] conceptStore).

Definition quietEntry : NewEntry :=
  {| givenId := None; givenItemId := "X"; givenItemTitle := "Hook A";
     givenStage := "concepts"; givenAction := "revision";
     givenComment := Some (" " ++ JS.utf8 160 ++ " ")%string;
     givenTimestamp := None |}.

Definition approval : NewEntry :=
  {| givenId := None; givenItemId := "X"; givenItemTitle := "Hook A";
     givenStage := "concepts"; givenAction := "approved"; givenComment := None;
     givenTimestamp := None |}.

(** Project P with concept A pending. *)
Definition reviewStore : Store :=
  writeItems "P" concepts [sampleItem "A" "pending" None]
    (writeProjects [sampleProject] emptyStore).

(** A reversal on an item whose identifier has the shape [uuid()] gives. *)
Definition uuidLedger : list FeedbackEntry :=
  [ sampleEntry "e1" "123e4567-e89b-42d3-a456-426614174000" "approved" None 1;
    sampleEntry "e2" "123e4567-e89b-42d3-a456-426614174000" "rejected" None 2 ].

(** The concepts A and B have their scripts, and C has been approved
    since. *)
Definition secondRound : World :=
  snd (postStatus sampleEnv "P" concepts "C" "approved" None
         (snd (scriptsBatch sampleEnv "P" (worldOf conceptStore)))).

(** * Properties *)

(** ** Lists *)

Lemma filter_filter_andb {A : Type} (f g : A -> bool) (l : list A) :
  List.filter g (List.filter f l) = List.filter (fun x => f x && g x) l.
Proof.
  induction l as [|x l IH]; simpl; [reflexivity|].
  destruct (f x); simpl; [destruct (g x)|]; rewrite IH; reflexivity.
Qed.

Lemma filter_all {A : Type} (f : A -> bool) (l : list A) :
  Forall (fun x => f x = true) l -> List.filter f l = l.
Proof.
  induction 1 as [|x l Hx _ IH]; simpl; [reflexivity|].
  rewrite Hx, IH. reflexivity.
Qed.

Lemma filter_none {A : Type} (f : A -> bool) (l : list A) :
  Forall (fun x => f x = false) l -> List.filter f l = [].
Proof.
  induction 1 as [|x l Hx _ IH]; simpl; [reflexivity|].
  rewrite Hx. exact IH.
Qed.

Lemma filter_ext_Forall {A : Type} (f g : A -> bool) (l : list A) :
  Forall (fun x => f x = g x) l -> List.filter f l = List.filter g l.
Proof.
  induction 1 as [|x l Hx _ IH]; simpl; [reflexivity|].
  rewrite Hx, IH. reflexivity.
Qed.

Lemma orderedPairs_positions {A : Type} (l : list A) (a b : A) :
  In (a, b) (orderedPairs l)
  <-> exists i j, i < j /\ nth_error l i = Some a /\ nth_error l j = Some b.
Proof.
  induction l as [|x l IH]; simpl.
  - split; [intros []|]. intros (i & j & _ & Hi & _). destruct i; discriminate.
  - rewrite in_app_iff, in_map_iff, IH. split.
    + intros [(y & Heq & Hy) | (i & j & Hlt & Hi & Hj)].
      * injection Heq as -> ->. apply In_nth_error in Hy as [j Hj].
        exists 0, (S j). repeat split; [lia | assumption].
      * exists (S i), (S j). repeat split; [lia | assumption | assumption].
    + intros (i & j & Hlt & Hi & Hj). destruct j as [|j]; [lia|].
      simpl in Hj. destruct i as [|i]; simpl in Hi.
      * injection Hi as ->. left. exists b. split; [reflexivity|].
        eapply nth_error_In; eassumption.
      * right. exists i, j. repeat split; [lia | assumption | assumption].
Qed.

(** ** Grouping by item *)

Lemma ownProperty_pushOwn (o : ByItem) (k k' : string) (e : FeedbackEntry) :
  ownProperty (pushOwn o k e) k'
  = if String.eqb k' k then option_map (fun es => es ++ [e]) (ownProperty o k')
    else ownProperty o k'.
Proof.
  induction o as [|[k0 es] o IH]; simpl.
  - destruct (String.eqb k' k); reflexivity.
  - destruct (String.eqb k0 k) eqn:E0; simpl.
    + apply String.eqb_eq in E0. subst k0.
      destruct (String.eqb k k') eqn:E1.
      * apply String.eqb_eq in E1. subst k'. rewrite String.eqb_refl. reflexivity.
      * rewrite String.eqb_sym, E1. reflexivity.
    + destruct (String.eqb k0 k') eqn:E1; [|exact IH].
      apply String.eqb_eq in E1. subst k'. rewrite E0. reflexivity.
Qed.

Lemma ownProperty_create (o : ByItem) (k k' : string) (es : list FeedbackEntry) :
  ownProperty (o ++ [(k, es)]) k'
  = match ownProperty o k' with
    | Some found => Some found
    | None => if String.eqb k k' then Some es else None
    end.
Proof.
  induction o as [|[k0 es0] o IH]; simpl; [reflexivity|].
  destruct (String.eqb k0 k'); [reflexivity | exact IH].
Qed.

Lemma pushOwn_keys (o : ByItem) (k : string) (e : FeedbackEntry) :
  map fst (pushOwn o k e) = map fst o.
Proof.
  induction o as [|[k0 es] o IH]; simpl; [reflexivity|].
  destruct (String.eqb k0 k); simpl; [reflexivity | rewrite IH; reflexivity].
Qed.

Lemma ownProperty_None (o : ByItem) (k : string) :
  ownProperty o k = None -> ~ In k (map fst o).
Proof.
  induction o as [|[k0 es] o IH]; simpl; [tauto|].
  destruct (String.eqb k0 k) eqn:E; [discriminate|].
  apply String.eqb_neq in E. intros H [H1|H1]; [congruence | exact (IH H H1)].
Qed.

Lemma ownProperty_Some_key (o : ByItem) (k : string) (es : list FeedbackEntry) :
  ownProperty o k = Some es -> In k (map fst o).
Proof.
  induction o as [|[k0 es0] o IH]; simpl; [discriminate|].
  destruct (String.eqb k0 k) eqn:E; [|tauto].
  apply String.eqb_eq in E. tauto.
Qed.

Lemma ownProperty_In (o : ByItem) (k : string) (es : list FeedbackEntry) :
  NoDup (map fst o) -> In (k, es) o -> ownProperty o k = Some es.
Proof.
  induction o as [|[k0 es0] o IH]; simpl; [tauto|].
  intros Hnd [Heq|Hin].
  - injection Heq as -> ->. rewrite String.eqb_refl. reflexivity.
  - inversion Hnd as [|? ? Hk0 Hnd']; subst.
    destruct (String.eqb k0 k) eqn:E.
    + apply String.eqb_eq in E. subst k0. exfalso. apply Hk0.
      apply list_elem_of_In, in_map_iff. exists (k, es). split; [reflexivity | assumption].
    + apply IH; assumption.
Qed.

Lemma entriesOn_snoc (k : string) (feedback : list FeedbackEntry) (e : FeedbackEntry) :
  entriesOn k (feedback ++ [e])
  = entriesOn k feedback ++ (if String.eqb (itemId e) k then [e] else []).
Proof.
  unfold entriesOn. rewrite List.filter_app. simpl.
  destruct (String.eqb (itemId e) k); reflexivity.
Qed.

Lemma groupStep_grouped (seen : list FeedbackEntry) (o : ByItem) (e : FeedbackEntry) :
  grouped seen o -> JS.inherited (itemId e) = false ->
  exists o', groupStep o e = Ok o' /\ grouped (seen ++ [e]) o'.
Proof.
  intros [Hnd Hown] Hplain. unfold groupStep.
  destruct (ownProperty o (itemId e)) as [es|] eqn:Hk.
  - eexists. split; [reflexivity|]. split.
    + rewrite pushOwn_keys. exact Hnd.
    + intros k. rewrite ownProperty_pushOwn, entriesOn_snoc, Hown.
      rewrite (String.eqb_sym k).
      destruct (String.eqb (itemId e) k) eqn:E.
      * apply String.eqb_eq in E. subst k. rewrite Hown in Hk.
        destruct (entriesOn (itemId e) seen); [discriminate | reflexivity].
      * rewrite app_nil_r. reflexivity.
  - rewrite Hplain. eexists. split; [reflexivity|]. split.
    + rewrite map_app. simpl. apply NoDup_app. split; [exact Hnd|]. split.
      * intros x Hx Hx'. apply list_elem_of_In in Hx, Hx'. simpl in Hx'.
        destruct Hx' as [<-|[]]. exact (ownProperty_None _ _ Hk Hx).
      * apply NoDup_singleton.
    + intros k. rewrite ownProperty_create, entriesOn_snoc, Hown.
      destruct (String.eqb (itemId e) k) eqn:E.
      * apply String.eqb_eq in E. subst k. rewrite Hown in Hk.
        destruct (entriesOn (itemId e) seen); [reflexivity | discriminate].
      * rewrite app_nil_r. destruct (entriesOn k seen); reflexivity.
Qed.

Lemma groupFrom_grouped (rest seen : list FeedbackEntry) (o : ByItem) :
  grouped seen o -> plainKeys rest ->
  exists o', groupFrom o rest = Ok o' /\ grouped (seen ++ rest) o'.
Proof.
  revert seen o. induction rest as [|e rest IH]; intros seen o Hg Hplain; simpl.
  - exists o. rewrite app_nil_r. split; [reflexivity | exact Hg].
  - inversion Hplain as [|? ? He Hrest]; subst.
    destruct (groupStep_grouped seen o e Hg He) as (o1 & -> & Hg1).
    destruct (IH _ _ Hg1 Hrest) as (o2 & Hrun & Hg2).
    exists o2. split; [exact Hrun|].
    rewrite <- app_assoc in Hg2. exact Hg2.
Qed.

Lemma groupByItem_grouped (feedback : list FeedbackEntry) :
  plainKeys feedback -> exists o, groupByItem feedback = Ok o /\ grouped feedback o.
Proof.
  intros Hplain. apply (groupFrom_grouped feedback [] []); [|exact Hplain].
  split; [constructor | reflexivity].
Qed.

(** Identifiers of the length of a UUID (36 characters) are plain keys. *)
Lemma uuid_sized_keys_are_plain (feedback : list FeedbackEntry) :
  Forall (fun e => String.length (itemId e) = 36) feedback -> plainKeys feedback.
Proof.
  unfold plainKeys. intros H. eapply Forall_impl; [exact H|]. intros e He. simpl in He.
  unfold JS.inherited, JS.prototypeKeys. simpl.
  repeat match goal with
         | |- context [String.eqb (itemId e) ?k] =>
             destruct (String.eqb (itemId e) k) eqn:?E;
             [apply String.eqb_eq in E; rewrite E in He; discriminate He | clear E]
         end.
  reflexivity.
Qed.

Lemma groupFrom_throws (rest : list FeedbackEntry) (o : ByItem) (err : Error) :
  groupFrom o rest = Throw err -> ~ plainKeys rest.
Proof.
  revert o. induction rest as [|e rest IH]; intros o; simpl; [discriminate|].
  unfold groupStep. intros H Hplain. inversion Hplain as [|? ? He Hrest]; subst.
  rewrite He in H.
  destruct (ownProperty o (itemId e)); exact (IH _ H Hrest).
Qed.

(** ** Enumeration order *)

Lemma insertIndexed_Permutation (x : N * Property) (l : list (N * Property)) :
  Permutation (insertIndexed x l) (x :: l).
Proof.
  induction l as [|y l IH]; simpl; [reflexivity|].
  destruct (fst x <=? fst y)%N; [reflexivity|].
  rewrite IH. apply perm_swap.
Qed.

Lemma objectEntries_Permutation (o : ByItem) : Permutation (objectEntries o) o.
Proof.
  unfold objectEntries. induction o as [|p o IH]; simpl; [reflexivity|].
  destruct (JS.arrayIndex (fst p)) as [n|].
  - rewrite insertIndexed_Permutation. simpl. apply perm_skip. exact IH.
  - rewrite <- Permutation_middle. apply perm_skip. exact IH.
Qed.

(** ** Direct contradictions *)

Lemma checkAgainst_pairs (a : FeedbackEntry) (later : list FeedbackEntry) :
  checkAgainst a later
  = map (fun p => directContradiction (fst p) (snd p))
        (List.filter approvedAndRejectedb (map (pair a) later)).
Proof.
  unfold checkAgainst. induction later as [|b later IH]; simpl; [reflexivity|].
  unfold approvedAndRejectedb at 1. simpl.
  destruct (opposed a b); simpl; rewrite IH; reflexivity.
Qed.

Lemma checkEntries_pairs (entries : list FeedbackEntry) :
  checkEntries entries
  = map (fun p => directContradiction (fst p) (snd p))
        (List.filter approvedAndRejectedb (orderedPairs entries)).
Proof.
  induction entries as [|a later IH]; simpl; [reflexivity|].
  rewrite List.filter_app, map_app, checkAgainst_pairs, IH. reflexivity.
Qed.

Lemma approvedAndRejectedb_spec (p : FeedbackEntry * FeedbackEntry) :
  approvedAndRejectedb p = true <-> approvedAndRejected p.
Proof.
  unfold approvedAndRejectedb, approvedAndRejected, opposed.
  rewrite orb_true_iff, !andb_true_iff, !String.eqb_eq. reflexivity.
Qed.

Lemma orderedPairs_first {A : Type} (P : A -> Prop) (l : list A) :
  Forall P l -> Forall (fun p => P (fst p)) (orderedPairs l).
Proof.
  induction 1 as [|a l Ha Hl IH]; simpl; [constructor|].
  apply Forall_app. split; [|exact IH].
  apply Forall_map. apply Forall_forall. intros b _. exact Ha.
Qed.

Lemma checkEntries_on (item k : string) (entries : list FeedbackEntry) :
  Forall (fun e => itemId e = k) entries ->
  List.filter (pendingOn item) (checkEntries entries)
  = if String.eqb k item then checkEntries entries else [].
Proof.
  intros Hk. rewrite checkEntries_pairs.
  assert (Hall : Forall (fun p => itemId (pendingEntry1 p) = k /\ pendingType p = direct)
            (map (fun p => directContradiction (fst p) (snd p))
               (List.filter approvedAndRejectedb (orderedPairs entries)))).
  { apply Forall_map. apply Forall_forall. intros p Hp. split; [|reflexivity].
    apply list_elem_of_In, filter_In in Hp as [Hp _].
    pose proof (orderedPairs_first _ _ Hk) as H.
    rewrite Forall_forall in H. apply H. apply list_elem_of_In. exact Hp. }
  destruct (String.eqb k item) eqn:E.
  - apply filter_all. eapply Forall_impl; [exact Hall|].
    intros p [H1 H2]. unfold pendingOn. rewrite H1, H2, E. reflexivity.
  - apply filter_none. eapply Forall_impl; [exact Hall|].
    intros p [H1 _]. unfold pendingOn. rewrite H1, E. apply andb_false_r.
Qed.

Section DirectByGroup.

Variable feedback : list FeedbackEntry.
Variable groups : list Property.
Hypothesis groups_distinct : NoDup (map fst groups).
Hypothesis groups_filled :
  forall k es, In (k, es) groups -> es = entriesOn k feedback /\ es <> [].

Lemma group_uniform (k : string) (es : list FeedbackEntry) :
  In (k, es) groups -> Forall (fun e => itemId e = k) es.
Proof using groups_filled.
  intros Hin. destruct (groups_filled _ _ Hin) as [-> _].
  apply Forall_forall. intros e He.
  apply list_elem_of_In, filter_In in He as [_ He]. apply String.eqb_eq. exact He.
Qed.

Lemma directs_other_items (item : string) (gs : list Property) :
  (forall k es, In (k, es) gs -> In (k, es) groups) ->
  ~ In item (map fst gs) ->
  List.filter (pendingOn item) (flat_map checkEntries (map snd gs)) = [].
Proof using groups_filled.
  induction gs as [|[k es] gs IH]; simpl; intros Hsub Hnot; [reflexivity|].
  rewrite List.filter_app, (checkEntries_on item k).
  - destruct (String.eqb k item) eqn:E.
    + apply String.eqb_eq in E. tauto.
    + simpl. apply IH; [|tauto]. intros k' es' H. apply Hsub. right. exact H.
  - apply group_uniform. apply Hsub. left. reflexivity.
Qed.

Lemma directs_this_item (item : string) (es : list FeedbackEntry) (gs : list Property) :
  (forall k es, In (k, es) gs -> In (k, es) groups) ->
  NoDup (map fst gs) -> In (item, es) gs ->
  List.filter (pendingOn item) (flat_map checkEntries (map snd gs)) = checkEntries es.
Proof using groups_filled.
  induction gs as [|[k es0] gs IH]; simpl; intros Hsub Hnd Hin; [tauto|].
  inversion Hnd as [|? ? Hk Hnd']; subst.
  assert (Hsub' : forall k es, In (k, es) gs -> In (k, es) groups).
  { intros k' es' H. apply Hsub. right. exact H. }
  rewrite List.filter_app, (checkEntries_on item k);
    [|apply group_uniform; apply Hsub; left; reflexivity].
  destruct Hin as [Heq|Hin].
  - injection Heq as -> ->. rewrite String.eqb_refl.
    rewrite directs_other_items; [apply app_nil_r | exact Hsub' |].
    intros H. apply Hk, list_elem_of_In. exact H.
  - destruct (String.eqb k item) eqn:E.
    + apply String.eqb_eq in E. subst k. exfalso. apply Hk.
      apply list_elem_of_In, in_map_iff. exists (item, es). split; [reflexivity | exact Hin].
    + simpl. apply IH; assumption.
Qed.

Lemma directs_of_item (item : string) :
  (entriesOn item feedback <> [] -> In item (map fst groups)) ->
  List.filter (pendingOn item) (flat_map checkEntries (map snd groups))
  = checkEntries (entriesOn item feedback).
Proof using groups_distinct groups_filled.
  intros Hcover.
  destruct (in_dec string_dec item (map fst groups)) as [Hin|Hout].
  - apply in_map_iff in Hin as ([k es] & Hk & Hin). simpl in Hk. subst k.
    rewrite (directs_this_item item es); [|tauto | exact groups_distinct | exact Hin].
    destruct (groups_filled _ _ Hin) as [-> _]. reflexivity.
  - rewrite directs_other_items; [|tauto | exact Hout].
    destruct (entriesOn item feedback) as [|e es] eqn:E; [reflexivity|].
    exfalso. apply Hout, Hcover. discriminate.
Qed.

End DirectByGroup.

Lemma directContradictions_on (feedback : list FeedbackEntry) (o : ByItem) (item : string) :
  grouped feedback o ->
  List.filter (pendingOn item) (directContradictions o)
  = checkEntries (entriesOn item feedback).
Proof.
  intros [Hnd Hown]. unfold directContradictions, objectValues.
  pose proof (objectEntries_Permutation o) as Hperm.
  assert (Hfilled : forall k es, In (k, es) o -> es = entriesOn k feedback /\ es <> []).
  { intros k es Hin. pose proof (ownProperty_In o k es Hnd Hin) as H.
    rewrite Hown in H. destruct (entriesOn k feedback); [discriminate|].
    injection H as <-. split; [reflexivity | discriminate]. }
  apply directs_of_item.
  - rewrite (Permutation_map fst Hperm). exact Hnd.
  - intros k es Hin. apply Hfilled. eapply Permutation_in; [exact Hperm | exact Hin].
  - intros Hne. eapply Permutation_in; [apply Permutation_map; symmetry; exact Hperm|].
    specialize (Hown item).
    destruct (entriesOn item feedback) as [|e es]; [congruence|].
    eapply ownProperty_Some_key. exact Hown.
Qed.

Lemma directContradictions_direct (o : ByItem) :
  Forall (fun p => pendingType p = direct) (directContradictions o).
Proof.
  unfold directContradictions. apply Forall_forall. intros p Hp.
  apply list_elem_of_In, in_flat_map in Hp as (es & _ & Hp).
  rewrite checkEntries_pairs in Hp. apply in_map_iff in Hp as (q & <- & _). reflexivity.
Qed.

(** ** Substrings and tags *)

Lemma append_cons (c : ascii) (s t : string) :
  (String c s ++ t)%string = String c (s ++ t)%string.
Proof. reflexivity. Qed.

Lemma prefix_spec (kw s : string) :
  String.prefix kw s = true <-> exists after, s = (kw ++ after)%string.
Proof.
  revert s. induction kw as [|a kw IH]; intros s.
  - split; [intros _; exists s; reflexivity | intros _; destruct s; reflexivity].
  - destruct s as [|b s]; simpl.
    + split; [discriminate | intros [after H]; discriminate].
    + destruct (ascii_dec a b) as [->|Hne].
      * rewrite IH. split; intros [after H]; exists after;
          rewrite append_cons in *; congruence.
      * split; [discriminate | intros [after H]; rewrite append_cons in H; congruence].
Qed.

Lemma includes_spec (hay kw : string) :
  JS.includes hay kw = true <-> substringOf kw hay.
Proof.
  unfold substringOf. induction hay as [|c hay IH].
  - change (JS.includes "" kw) with (String.prefix kw "" || false).
    rewrite orb_false_r, prefix_spec. split.
    + intros [after H]. exists "", after. exact H.
    + intros (before & after & H). destruct before; [|discriminate].
      exists after. exact H.
  - change (JS.includes (String c hay) kw)
      with (String.prefix kw (String c hay) || JS.includes hay kw).
    rewrite orb_true_iff, prefix_spec, IH. split.
    + intros [[after H] | (before & after & H)].
      * exists "", after. exact H.
      * exists (String c before), after. rewrite append_cons, H. reflexivity.
    + intros (before & after & H). destruct before as [|c' before].
      * left. exists after. exact H.
      * right. rewrite append_cons in H. injection H as _ H. exists before, after. exact H.
Qed.

Lemma tagged_spec (t : Theme) (e : FeedbackEntry) :
  tagged t e = true <-> Tagged t e.
Proof.
  unfold tagged, Tagged, triggers, commentText, JS.truthy.
  rewrite andb_true_iff, existsb_exists. split.
  - intros [Hc (kw & Hin & Hkw)]. destruct (comment e) as [c|]; [|discriminate].
    exists c, kw. repeat split; try assumption.
    + intros ->. discriminate.
    + apply includes_spec. exact Hkw.
  - intros (c & kw & -> & Hne & Hin & Hsub). split.
    + apply negb_true_iff, String.eqb_neq. exact Hne.
    + exists kw. split; [exact Hin | apply includes_spec; exact Hsub].
Qed.

Lemma Theme_eqb_spec (a b : Theme) : Theme_eqb a b = true <-> a = b.
Proof. destruct a, b; simpl; split; congruence. Qed.

(** One pass over part of the keyword table appends the entry to the
    list of every theme of that part it triggers. *)
Lemma tagEntry_pass (e : FeedbackEntry) (table : list Theme) (themes : Themes) (t : Theme) :
  NoDup table ->
  fold_left
    (fun th t' =>
       if triggers t' (JS.toLowerCase (commentText e)) then pushTheme th t' e else th)
    table themes t
  = themes t
    ++ (if existsb (Theme_eqb t) table && triggers t (JS.toLowerCase (commentText e))
        then [e] else []).
Proof.
  revert themes. induction table as [|t0 table IH]; intros themes Hnd; simpl.
  - rewrite app_nil_r. reflexivity.
  - apply NoDup_cons in Hnd as [Ht0 Hnd]. rewrite (IH _ Hnd).
    destruct (Theme_eqb t t0) eqn:E; simpl.
    + apply Theme_eqb_spec in E. subst t0.
      assert (Hout : existsb (Theme_eqb t) table = false).
      { apply not_true_is_false. intros H. apply existsb_exists in H as (x & Hx & Heq).
        apply Theme_eqb_spec in Heq. subst x. apply Ht0, list_elem_of_In. exact Hx. }
      rewrite Hout. simpl. rewrite app_nil_r.
      destruct (triggers t (JS.toLowerCase (commentText e))).
      * unfold pushTheme. destruct (Theme_eqb t t) eqn:E; [reflexivity|].
        exfalso. pose proof (proj2 (Theme_eqb_spec t t) eq_refl). congruence.
      * rewrite app_nil_r. reflexivity.
    + destruct (triggers t0 (JS.toLowerCase (commentText e))); [|reflexivity].
      unfold pushTheme. destruct (Theme_eqb t0 t) eqn:E'; [|reflexivity].
      apply Theme_eqb_spec in E'. subst t0.
      pose proof (proj2 (Theme_eqb_spec t t) eq_refl). congruence.
Qed.

Lemma tagEntry_spec (themes : Themes) (e : FeedbackEntry) (t : Theme) :
  tagEntry themes e t
  = themes t ++ (if triggers t (JS.toLowerCase (commentText e)) then [e] else []).
Proof.
  unfold tagEntry. rewrite tagEntry_pass.
  - destruct t; reflexivity.
  - unfold themeOrder.
    repeat (apply NoDup_cons_2; [rewrite list_elem_of_In; simpl; intuition discriminate|]).
    apply NoDup_nil_2.
Qed.

Lemma tagAll_spec (entries : list FeedbackEntry) (themes : Themes) (t : Theme) :
  fold_left tagEntry entries themes t
  = themes t
    ++ List.filter (fun e => triggers t (JS.toLowerCase (commentText e))) entries.
Proof.
  revert themes. induction entries as [|e entries IH]; intros themes; simpl.
  - rewrite app_nil_r. reflexivity.
  - rewrite IH, tagEntry_spec, <- app_assoc.
    destruct (triggers t (JS.toLowerCase (commentText e))); reflexivity.
Qed.

(** The list kept under a theme is the ledger filtered by the tag. *)
Lemma tagThemes_spec (feedback : list FeedbackEntry) (t : Theme) :
  tagThemes feedback t = List.filter (tagged t) feedback.
Proof.
  unfold tagThemes, commented. rewrite tagAll_spec, filter_filter_andb. reflexivity.
Qed.

Lemma filter_nil_iff {A : Type} (f : A -> bool) (l : list A) :
  List.filter f l = [] <-> Forall (fun x => f x = false) l.
Proof.
  split; [|apply filter_none].
  induction l as [|x l IH]; simpl; [constructor|].
  destruct (f x) eqn:E; [discriminate|]. intros H. constructor; [exact E | exact (IH H)].
Qed.

(** The last element of a filtered list is the last element of the list
    that passes the test. *)
Lemma last_filter {A : Type} (f : A -> bool) (l : list A) (x : A) :
  last (List.filter f l) = Some x
  <-> exists earlier later,
        l = earlier ++ x :: later /\ f x = true /\ Forall (fun y => f y = false) later.
Proof.
  induction l as [|a l IH] using rev_ind.
  - simpl. split; [discriminate|]. intros (earlier & later & H & _).
    destruct earlier; discriminate.
  - rewrite List.filter_app. simpl. destruct (f a) eqn:E.
    + rewrite last_snoc. split.
      * intros H. injection H as ->. exists l, []. repeat split; [exact E | constructor].
      * intros (earlier & later & H & Hx & Hlater).
        destruct later as [|y later _] using rev_ind.
        -- apply app_inj_tail in H as [_ ->]. reflexivity.
        -- rewrite app_comm_cons, app_assoc in H. apply app_inj_tail in H as [_ ->].
           apply Forall_app in Hlater as [_ Hy]. inversion Hy; congruence.
    + rewrite app_nil_r, IH. split.
      * intros (earlier & later & -> & Hx & Hlater).
        exists earlier, (later ++ [a]). rewrite <- app_assoc. repeat split; [exact Hx|].
        apply Forall_app. split; [exact Hlater | constructor; [exact E | constructor]].
      * intros (earlier & later & H & Hx & Hlater).
        destruct later as [|y later _] using rev_ind.
        -- apply app_inj_tail in H as [_ ->]. congruence.
        -- rewrite app_comm_cons, app_assoc in H. apply app_inj_tail in H as [-> ->].
           apply Forall_app in Hlater as [Hlater _].
           exists earlier, later. repeat split; assumption.
Qed.

Lemma mostRecent_spec (t : Theme) (feedback : list FeedbackEntry) (e : FeedbackEntry) :
  last (tagThemes feedback t) = Some e <-> mostRecent t feedback e.
Proof.
  rewrite tagThemes_spec, last_filter. unfold mostRecent.
  split; intros (earlier & later & H & He & Hlater); exists earlier, later;
    (split; [exact H|]); (split; [apply tagged_spec; exact He|]);
    (eapply Forall_impl; [exact Hlater|]); intros x Hx; simpl in *.
  - rewrite <- tagged_spec. congruence.
  - rewrite <- tagged_spec in Hx. destruct (tagged t x); [tauto | reflexivity].
Qed.

Lemma tagged_any (t : Theme) (feedback : list FeedbackEntry) :
  tagThemes feedback t <> [] <-> Exists (Tagged t) feedback.
Proof.
  rewrite tagThemes_spec. split.
  - intros H. apply Exists_exists.
    destruct (List.filter (tagged t) feedback) as [|e l] eqn:E; [congruence|].
    assert (Hin : In e (List.filter (tagged t) feedback)) by (rewrite E; left; reflexivity).
    apply filter_In in Hin as [Hin He]. exists e.
    split; [apply list_elem_of_In; exact Hin | apply tagged_spec; exact He].
  - intros H Hnil. apply Exists_exists in H as (e & Hin & He).
    apply filter_nil_iff in Hnil. rewrite Forall_forall in Hnil.
    apply tagged_spec in He. rewrite (Hnil e Hin) in He. discriminate.
Qed.

(** ** The detector as a whole *)

Lemma pending_issue (id : string) (p : Pending) : pending (issue id p) = p.
Proof. destruct p; reflexivity. Qed.

Lemma issueAll_pending (env : Oracles) (ps : list Pending) (n : nat) :
  map pending (issueAll env n ps) = ps.
Proof.
  revert n. induction ps as [|p ps IH]; intros n; simpl; [reflexivity|].
  rewrite pending_issue, IH. reflexivity.
Qed.

Lemma issueAll_length (env : Oracles) (ps : list Pending) (n : nat) :
  length (issueAll env n ps) = length ps.
Proof. rewrite <- (issueAll_pending env ps n) at 2. rewrite length_map. reflexivity. Qed.

Lemma filter_pending (g : Pending -> bool) (cs : list Contradiction) :
  map pending (List.filter (fun c => g (pending c)) cs)
  = List.filter g (map pending cs).
Proof.
  induction cs as [|c cs IH]; simpl; [reflexivity|].
  destruct (g (pending c)); simpl; rewrite IH; reflexivity.
Qed.

Lemma checkPair_cases (themes : Themes) (axis : Theme * Theme) :
  (exists e1 e2,
     last (themes (fst axis)) = Some e1 /\ last (themes (snd axis)) = Some e2
     /\ checkPair themes axis = [thematicContradiction e1 e2])
  \/ ((themes (fst axis) = [] \/ themes (snd axis) = []) /\ checkPair themes axis = []).
Proof.
  unfold checkPair.
  destruct (last (themes (fst axis))) as [e1|] eqn:E1.
  - destruct (last (themes (snd axis))) as [e2|] eqn:E2.
    + left. exists e1, e2. repeat split.
    + right. split; [|reflexivity]. right. apply last_None. exact E2.
  - right. split; [|reflexivity]. left. apply last_None. exact E1.
Qed.

Lemma checkPair_thematic (themes : Themes) (axis : Theme * Theme) :
  Forall (fun p => pendingType p = thematic) (checkPair themes axis).
Proof.
  destruct (checkPair_cases themes axis) as [(e1 & e2 & _ & _ & ->) | [_ ->]];
    repeat constructor.
Qed.

Lemma thematicContradictions_axes (feedback : list FeedbackEntry) :
  thematicContradictions feedback
  = emitted feedback (shorter, longer) ++ emitted feedback (lighter, darker)
    ++ emitted feedback (grounded, absurd).
Proof.
  unfold thematicContradictions, pairs, emitted. simpl. rewrite app_nil_r. reflexivity.
Qed.

Lemma thematicContradictions_thematic (feedback : list FeedbackEntry) :
  Forall (fun p => pendingType p = thematic) (thematicContradictions feedback).
Proof.
  rewrite thematicContradictions_axes. repeat (apply Forall_app; split);
    apply checkPair_thematic.
Qed.

(** On a ledger with plain keys the detector returns: the direct
    contradictions of the groups, then the thematic ones, each with the
    next identifier. *)
Lemma findContradictions_returns (env : Oracles) (projectId : string) (w : World) :
  plainKeys (getFeedback projectId (store w)) ->
  exists o,
    grouped (getFeedback projectId (store w)) o
    /\ findContradictions env projectId w
       = (Ok (issueAll env (drawn w)
                (directContradictions o
                 ++ thematicContradictions (getFeedback projectId (store w)))),
          {| store := store w;
             drawn := drawn w
                      + length (directContradictions o
                                ++ thematicContradictions (getFeedback projectId (store w)));
             ticks := ticks w; calls := calls w |}).
Proof.
  intros Hplain. destruct (groupByItem_grouped _ Hplain) as (o & Hrun & Hg).
  exists o. split; [exact Hg|]. unfold findContradictions. rewrite Hrun. reflexivity.
Qed.

Lemma direct_entries_in_ledger (feedback : list FeedbackEntry) (o : ByItem) (p : Pending) :
  grouped feedback o -> In p (directContradictions o) ->
  In (pendingEntry1 p) feedback.
Proof.
  intros [Hnd Hown] Hp. unfold directContradictions, objectValues in Hp.
  apply in_flat_map in Hp as (es & Hes & Hp).
  apply in_map_iff in Hes as ([k es'] & Heq & Hin). simpl in Heq. subst es'.
  apply (Permutation_in _ (objectEntries_Permutation o)) in Hin.
  pose proof (ownProperty_In o k es Hnd Hin) as H. rewrite Hown in H.
  assert (Hsub : Forall (fun e => In e feedback) es).
  { destruct (entriesOn k feedback) eqn:E; [discriminate|]. injection H as <-.
    rewrite <- E. apply Forall_forall. intros e He.
    apply list_elem_of_In, filter_In in He as [He _]. exact He. }
  rewrite checkEntries_pairs in Hp. apply in_map_iff in Hp as (q & <- & Hq).
  apply filter_In in Hq as [Hq _]. simpl.
  pose proof (orderedPairs_first _ _ Hsub) as Hfirst.
  rewrite Forall_forall in Hfirst. apply (Hfirst q). apply list_elem_of_In. exact Hq.
Qed.

(** C1. On a ledger whose item identifiers are plain keys the detector
    examines, for every item, every pair of feedback entries on that
    item, adjacent or not: the direct contradictions it emits on the item
    are, in order, exactly the pairs of positions [i < j] of the item's
    entries whose actions are approved and rejected in either order, one
    contradiction per pair.  In particular the ledger [approved,
    commented, rejected] on one item yields exactly one direct
    contradiction, between the first and the third entry.  The ledgers
    the routes write have plain keys: an entry is recorded for a stored
    item only, and the identifiers of items come from [uuid()]. *)
Theorem direct_contradiction_per_pair
    (env : Oracles) (projectId : string) (w : World) (item : string) :
  plainKeys (getFeedback projectId (store w)) ->
  exists cs w',
    findContradictions env projectId w = (Ok cs, w')
    /\ map contradicted (List.filter (directOn item) cs)
       = List.filter approvedAndRejectedb
           (orderedPairs (entriesOn item (getFeedback projectId (store w))))
    /\ (forall i j a b,
          i < j ->
          nth_error (entriesOn item (getFeedback projectId (store w))) i = Some a ->
          nth_error (entriesOn item (getFeedback projectId (store w))) j = Some b ->
          approvedAndRejected (a, b) ->
          exists c, In c cs /\ type c = direct /\ entry1 c = a /\ entry2 c = b)
    /\ (forall a c r,
          getFeedback projectId (store w) = [a; c; r] ->
          itemId a = item -> itemId c = item -> itemId r = item ->
          action a = "approved" -> action c = "commented" -> action r = "rejected" ->
          map pending (List.filter isDirect cs) = [directContradiction a r]).
Proof.
  intros Hplain.
  destruct (findContradictions_returns env projectId w Hplain) as (o & Hg & Hrun).
  set (feedback := getFeedback projectId (store w)) in *.
  eexists _, _. split; [exact Hrun|].
  set (cs := issueAll env (drawn w) _).
  assert (Hps : map pending cs = directContradictions o ++ thematicContradictions feedback)
    by apply issueAll_pending.
  assert (Hon : map pending (List.filter (directOn item) cs)
                = checkEntries (entriesOn item feedback)).
  { change (directOn item) with (fun c => pendingOn item (pending c)).
    rewrite filter_pending, Hps, List.filter_app, (directContradictions_on feedback o item Hg).
    rewrite (filter_none _ (thematicContradictions feedback)); [apply app_nil_r|].
    eapply Forall_impl; [apply thematicContradictions_thematic|].
    intros p Hp. unfold pendingOn. rewrite Hp. reflexivity. }
  assert (Hpairs : map contradicted (List.filter (directOn item) cs)
                   = List.filter approvedAndRejectedb (orderedPairs (entriesOn item feedback))).
  { change contradicted with (fun c => (pendingEntry1 (pending c), pendingEntry2 (pending c))).
    rewrite <- (map_map pending (fun p => (pendingEntry1 p, pendingEntry2 p))).
    rewrite Hon, checkEntries_pairs, map_map. simpl.
    rewrite <- (map_id (List.filter _ _)) at 2. apply map_ext. intros []; reflexivity. }
  split; [exact Hpairs|]. split.
  - intros i j a b Hlt Hi Hj Hab.
    assert (Hin : In (a, b) (map contradicted (List.filter (directOn item) cs))).
    { rewrite Hpairs. apply filter_In. split.
      - apply orderedPairs_positions. exists i, j. repeat split; assumption.
      - apply approvedAndRejectedb_spec. exact Hab. }
    apply in_map_iff in Hin as (c & Hc & Hin). apply filter_In in Hin as [Hin Hd].
    exists c. injection Hc as <- <-. repeat split; [exact Hin|].
    unfold directOn, isDirect in Hd. destruct (type c); [reflexivity | discriminate].
  - intros a c r HL Ha Hc Hr Haa Hac Har.
    assert (Hsame : List.filter isDirect cs = List.filter (directOn item) cs).
    { apply filter_ext_Forall. apply Forall_forall. intros x Hx.
      unfold directOn. destruct (isDirect x) eqn:Ed; [|reflexivity]. simpl.
      apply list_elem_of_In in Hx.
      assert (Hxp : In (pending x) (map pending cs)) by (apply in_map; exact Hx).
      rewrite Hps in Hxp. apply in_app_or in Hxp as [Hxp|Hxp].
      - apply (direct_entries_in_ledger feedback o _ Hg) in Hxp. simpl in Hxp.
        rewrite HL in Hxp. simpl in Hxp. symmetry. apply String.eqb_eq.
        destruct Hxp as [<-|[<-|[<-|[]]]]; assumption.
      - pose proof (thematicContradictions_thematic feedback) as Ht.
        rewrite Forall_forall in Ht. apply list_elem_of_In, Ht in Hxp. simpl in Hxp.
        unfold isDirect in Ed. rewrite Hxp in Ed. discriminate. }
    rewrite Hsame, Hon, HL. unfold entriesOn. simpl.
    rewrite Ha, Hc, Hr, String.eqb_refl. simpl.
    unfold checkAgainst, opposed. simpl. rewrite Haa, Hac, Har. reflexivity.
Qed.

Lemma thematic_part (env : Oracles) (n : nat) (directs thematics : list Pending) :
  Forall (fun p => pendingType p = direct) directs ->
  Forall (fun p => pendingType p = thematic) thematics ->
  map pending (List.filter isThematic (issueAll env n (directs ++ thematics))) = thematics.
Proof.
  intros Hd Ht.
  rewrite (List.filter_ext isThematic
             (fun c => match pendingType (pending c) with
                       | direct => false
                       | thematic => true
                       end))
    by (intros c; unfold isThematic, isDirect; simpl; destruct (type c); reflexivity).
  rewrite (filter_pending
             (fun p => match pendingType p with direct => false | thematic => true end)).
  rewrite issueAll_pending, List.filter_app, filter_none, filter_all; [reflexivity | |].
  - eapply Forall_impl; [exact Ht|]. intros p ->. reflexivity.
  - eapply Forall_impl; [exact Hd|]. intros p ->. reflexivity.
Qed.

Lemma emitted_length (feedback : list FeedbackEntry) (axis : Theme * Theme) :
  (length (emitted feedback axis) = 1
   <-> Exists (Tagged (fst axis)) feedback /\ Exists (Tagged (snd axis)) feedback)
  /\ (length (emitted feedback axis) = 0
      <-> ~ (Exists (Tagged (fst axis)) feedback /\ Exists (Tagged (snd axis)) feedback)).
Proof.
  unfold emitted. rewrite <- !tagged_any.
  destruct (checkPair_cases (tagThemes feedback) axis)
    as [(e1 & e2 & H1 & H2 & ->) | [Hnil ->]]; simpl.
  - assert (tagThemes feedback (fst axis) <> []) by (intros E; rewrite E in H1; discriminate).
    assert (tagThemes feedback (snd axis) <> []) by (intros E; rewrite E in H2; discriminate).
    split; split; try tauto; try discriminate.
  - split; split; try tauto; try discriminate.
Qed.

(** C2. On a ledger with plain keys (as the routes write them) the
    thematic contradictions the detector returns are those of the three
    axes, in axis order, and on each axis one is emitted if and only if
    both themes of the axis have a tagged entry: exactly one when both
    sides are tagged, none when a side has no tag. *)
Theorem thematic_contradiction_needs_both_sides
    (env : Oracles) (projectId : string) (w : World) (axis : Theme * Theme) :
  plainKeys (getFeedback projectId (store w)) ->
  exists cs w',
    findContradictions env projectId w = (Ok cs, w')
    /\ map pending (List.filter isThematic cs)
       = emitted (getFeedback projectId (store w)) (shorter, longer)
         ++ emitted (getFeedback projectId (store w)) (lighter, darker)
         ++ emitted (getFeedback projectId (store w)) (grounded, absurd)
    /\ (length (emitted (getFeedback projectId (store w)) axis) = 1
        <-> Exists (Tagged (fst axis)) (getFeedback projectId (store w))
            /\ Exists (Tagged (snd axis)) (getFeedback projectId (store w)))
    /\ (length (emitted (getFeedback projectId (store w)) axis) = 0
        <-> ~ (Exists (Tagged (fst axis)) (getFeedback projectId (store w))
               /\ Exists (Tagged (snd axis)) (getFeedback projectId (store w)))).
Proof.
  intros Hplain.
  destruct (findContradictions_returns env projectId w Hplain) as (o & Hg & Hrun).
  eexists _, _. split; [exact Hrun|]. split; [|apply emitted_length].
  rewrite <- thematicContradictions_axes. apply thematic_part.
  - apply directContradictions_direct.
  - apply thematicContradictions_thematic.
Qed.

(** C3. For every ledger in which both themes of an axis have tagged
    entries, the thematic contradiction emitted for that axis references
    the most recent, that is the last in ledger order, tagged entry of
    each theme: it is the one contradiction the pass over the axes pushes
    for the axis, every list the detector returns holds it, and the
    detector does return on a ledger with plain keys.  With two
    shorter-tagged entries first and third and a longer-tagged entry
    second, the contradiction references the third entry. *)
Theorem thematic_contradiction_most_recent
    (env : Oracles) (projectId : string) (w : World) (axis : Theme * Theme) :
  In axis pairs ->
  Exists (Tagged (fst axis)) (getFeedback projectId (store w)) ->
  Exists (Tagged (snd axis)) (getFeedback projectId (store w)) ->
  exists e1 e2,
    mostRecent (fst axis) (getFeedback projectId (store w)) e1
    /\ mostRecent (snd axis) (getFeedback projectId (store w)) e2
    /\ emitted (getFeedback projectId (store w)) axis = [thematicContradiction e1 e2]
    /\ (forall cs w',
          findContradictions env projectId w = (Ok cs, w') ->
          exists c, In c cs /\ type c = thematic /\ entry1 c = e1 /\ entry2 c = e2)
    /\ (plainKeys (getFeedback projectId (store w)) ->
        exists cs w', findContradictions env projectId w = (Ok cs, w'))
    /\ (forall first second third,
          getFeedback projectId (store w) = [first; second; third] ->
          axis = (shorter, longer) ->
          Tagged shorter first -> Tagged longer second -> Tagged shorter third ->
          e1 = third).
Proof.
  intros Haxis Ha Hb.
  set (feedback := getFeedback projectId (store w)) in *.
  apply tagged_any in Ha, Hb.
  destruct (checkPair_cases (tagThemes feedback) axis)
    as [(e1 & e2 & H1 & H2 & Hemit) | [[Hnil|Hnil] _]]; [|contradiction..].
  exists e1, e2.
  split; [apply mostRecent_spec; exact H1|].
  split; [apply mostRecent_spec; exact H2|].
  split; [exact Hemit|]. split; [|split].
  - intros cs w' Hrun. unfold findContradictions in Hrun. fold feedback in Hrun.
    destruct (groupByItem feedback) as [o|err]; [|discriminate].
    injection Hrun as <- _.
    assert (Hin : In (thematicContradiction e1 e2)
                    (directContradictions o ++ thematicContradictions feedback)).
    { apply in_or_app. right. unfold thematicContradictions.
      apply in_flat_map. exists axis. split; [exact Haxis|].
      unfold emitted in Hemit. rewrite Hemit. left. reflexivity. }
    rewrite <- (issueAll_pending env _ (drawn w)) in Hin.
    apply in_map_iff in Hin as (c & Hc & Hin). exists c. split; [exact Hin|].
    destruct c. unfold pending in Hc. simpl in *. injection Hc as -> -> -> _.
    repeat split.
  - intros Hplain.
    destruct (findContradictions_returns env projectId w Hplain) as (o & _ & Hrun).
    eexists _, _. exact Hrun.
  - intros first second third HL -> _ _ Hthird. simpl in H1.
    rewrite tagThemes_spec, HL in H1. apply tagged_spec in Hthird.
    change [first; second; third] with ([first; second] ++ [third]) in H1.
    rewrite List.filter_app in H1. simpl in H1. rewrite Hthird, last_snoc in H1.
    congruence.
Qed.

Lemma Tagged_sample (t : Theme) (e : FeedbackEntry) : tagged t e = true -> Tagged t e.
Proof. apply tagged_spec. Qed.

Lemma thematic_contradiction_most_recent_witness :
  exists cs c,
    fst (findContradictions sampleEnv "P" (withLedger recencyLedger)) = Ok cs
    /\ In c cs /\ type c = thematic
    /\ entry1 c = sampleEntry "e3" "Z" "commented" (Some "Trim it") 3.
Proof.
  destruct (thematic_contradiction_most_recent sampleEnv "P"
              (withLedger recencyLedger) (shorter, longer))
    as (e1 & e2 & _ & _ & _ & Hheld & Hreturns & Hthird).
  - left. reflexivity.
  - apply Exists_cons_hd. apply Tagged_sample. reflexivity.
  - apply Exists_cons_tl, Exists_cons_hd. apply Tagged_sample. reflexivity.
  - destruct Hreturns as (cs & w' & Hrun); [vm_compute; repeat constructor|].
    destruct (Hheld cs w' Hrun) as (c & Hin & Hty & H1 & _).
    exists cs, c. rewrite Hrun. split; [reflexivity|]. split; [exact Hin|].
    split; [exact Hty|]. rewrite H1.
    apply (Hthird (sampleEntry "e1" "X" "revision" (Some "too long") 1)
             (sampleEntry "e2" "Y" "revision" (Some "expand the middle") 2));
      try reflexivity; apply Tagged_sample; reflexivity.
Defined.

(** C9. Some ledger holds a single entry whose comment triggers both
    themes of an axis (here "too dark" and "darker"); the detector then
    emits a thematic contradiction on that axis whose two entries are
    that same entry. *)
Theorem single_comment_contradicts_itself :
  exists (e : FeedbackEntry) (c : Contradiction),
    Tagged lighter e /\ Tagged darker e
    /\ fst (findContradictions sampleEnv "P" (withLedger [e])) = Ok [c]
    /\ pending c = thematicContradiction e e
    /\ emitted [e] (lighter, darker) = [pending c]
    /\ type c = thematic /\ entry1 c = e /\ entry2 c = e.
Proof.
  exists mixedComment. eexists.
  split; [apply Tagged_sample; reflexivity|].
  split; [apply Tagged_sample; reflexivity|].
  split; [vm_compute; reflexivity|].
  repeat split.
Qed.

(** C7, as the code has it. Two invocations of the detector on the same
    ledger agree on everything but the identifiers of the contradictions,
    which [uuid()] draws afresh: both fail alike, or both return the same
    contradictions in the same order.  The detector writes nothing, and
    what it returns is ordered: the direct contradictions first, then the
    thematic ones in the axis order shorter/longer, lighter/darker,
    grounded/absurd. *)
Theorem detector_deterministic_up_to_identifiers
    (env env' : Oracles) (projectId : string) (s : Store) (d t c d' t' c' : nat) :
  outcome (fst (findContradictions env projectId (mkWorld s d t c)))
  = outcome (fst (findContradictions env' projectId (mkWorld s d' t' c')))
  /\ store (snd (findContradictions env projectId (mkWorld s d t c))) = s
  /\ match fst (findContradictions env projectId (mkWorld s d t c)) with
     | Ok cs =>
         exists directs,
           map pending cs
           = directs
             ++ emitted (getFeedback projectId s) (shorter, longer)
             ++ emitted (getFeedback projectId s) (lighter, darker)
             ++ emitted (getFeedback projectId s) (grounded, absurd)
           /\ Forall (fun p => pendingType p = direct) directs
           /\ Forall (fun p => pendingType p = thematic)
                (emitted (getFeedback projectId s) (shorter, longer)
                 ++ emitted (getFeedback projectId s) (lighter, darker)
                 ++ emitted (getFeedback projectId s) (grounded, absurd))
     | Throw _ => ~ plainKeys (getFeedback projectId s)
     end.
Proof.
  unfold findContradictions. simpl.
  destruct (groupByItem (getFeedback projectId s)) as [o|err] eqn:Hrun; simpl.
  - rewrite !issueAll_pending. split; [reflexivity|]. split; [reflexivity|].
    exists (directContradictions o). rewrite <- thematicContradictions_axes.
    split; [reflexivity|]. split.
    + apply directContradictions_direct.
    + apply thematicContradictions_thematic.
  - split; [reflexivity|]. split; [reflexivity|].
    apply (groupFrom_throws _ [] err). exact Hrun.
Qed.

(** C7 as stated fails: a second invocation on an unchanged ledger
    returns contradictions with other identifiers. *)
Lemma detector_results_differ :
  getFeedback "P" (store (withLedger reversalLedger))
  = getFeedback "P"
      (store (snd (findContradictions sampleEnv "P" (withLedger reversalLedger))))
  /\ fst (findContradictions sampleEnv "P" (withLedger reversalLedger))
     <> fst (findContradictions sampleEnv "P"
               (snd (findContradictions sampleEnv "P" (withLedger reversalLedger)))).
Proof.
  split; [reflexivity|]. vm_compute. intros H. congruence.
Qed.

(** ** Documents and their files *)

Lemma list_ascii_of_string_app (s t : string) :
  list_ascii_of_string (s ++ t) = list_ascii_of_string s ++ list_ascii_of_string t.
Proof.
  induction s as [|c s IH]; [reflexivity|].
  rewrite append_cons. simpl. rewrite IH. reflexivity.
Qed.

Lemma reversed_file (projectId : string) (c : Category) :
  rev (list_ascii_of_string (documentFile projectId c))
  = rev (list_ascii_of_string ("_" ++ categoryName c ++ ".json"))
    ++ rev (list_ascii_of_string projectId).
Proof.
  unfold documentFile. rewrite list_ascii_of_string_app, rev_app_distr. reflexivity.
Qed.

Lemma documentFile_inj (p p' : string) (c c' : Category) :
  documentFile p c = documentFile p' c' -> p = p' /\ c = c'.
Proof.
  intros H. apply (f_equal (fun s => rev (list_ascii_of_string s))) in H.
  rewrite !reversed_file in H.
  remember (rev (list_ascii_of_string p)) as r eqn:Er.
  remember (rev (list_ascii_of_string p')) as r' eqn:Er'.
  assert (Hc : c = c' /\ r = r').
  { destruct c as [[]| |], c' as [[]| |]; vm_compute in H;
      first [ discriminate H | split; [reflexivity | congruence] ]. }
  destruct Hc as [-> Hp]. subst r r'. split; [|reflexivity].
  apply (f_equal (@rev ascii)) in Hp. rewrite !rev_involutive in Hp.
  apply (f_equal string_of_list_ascii) in Hp.
  rewrite !string_of_list_ascii_of_string in Hp. exact Hp.
Qed.

Lemma documentFile_not_index (p : string) (c : Category) : documentFile p c <> indexFile.
Proof.
  intros H. apply (f_equal (fun s => rev (list_ascii_of_string s))) in H.
  rewrite reversed_file in H.
  remember (rev (list_ascii_of_string p)) as r eqn:Er.
  destruct c as [[]| |]; vm_compute in H; discriminate H.
Qed.

(** ** The ledger and the pattern learner *)

Lemma append_nil_r (s : string) : (s ++ "")%string = s.
Proof. induction s as [|c s IH]; [reflexivity|]. rewrite append_cons, IH. reflexivity. Qed.

Lemma append_assoc (s t u : string) : ((s ++ t) ++ u)%string = (s ++ t ++ u)%string.
Proof.
  induction s as [|c s IH]; [reflexivity|]. rewrite !append_cons, IH. reflexivity.
Qed.

Lemma append_not_empty (s : string) (c : ascii) : (s ++ String c "")%string <> "".
Proof. destruct s; [discriminate|]. rewrite append_cons. discriminate. Qed.

(** Splitting a string into the byte sequences of its code points loses
    nothing. *)
Lemma join_sequences (s : string) (need : nat) (cur : string) :
  JS.join (JS.sequences need cur s)
  = match need with O => s | S _ => (cur ++ s)%string end.
Proof.
  revert need cur. induction s as [|c s IH]; intros need cur.
  - destruct need; simpl; [reflexivity|]. rewrite append_nil_r. reflexivity.
  - destruct need as [|k]; simpl.
    + destruct (JS.sequenceLength c - 1) as [|k'] eqn:E; simpl; rewrite IH; reflexivity.
    + destruct k as [|k']; simpl; rewrite IH.
      * rewrite append_assoc. reflexivity.
      * rewrite append_assoc. reflexivity.
Qed.

Lemma join_chars (s : string) : JS.join (JS.chars s) = s.
Proof. apply (join_sequences s 0 ""). Qed.

Lemma sequences_not_empty (s : string) (need : nat) (cur : string) :
  (need <> 0 -> cur <> "") ->
  forall ch, In ch (JS.sequences need cur s) -> ch <> "".
Proof.
  revert need cur. induction s as [|c s IH]; intros need cur Hcur ch.
  - destruct need; simpl; [intros []|]. intros [<-|[]]. apply Hcur. discriminate.
  - assert (Hnew : match need with
                   | O => String c EmptyString
                   | S _ => (cur ++ String c EmptyString)%string
                   end <> "").
    { destruct need; [discriminate | apply append_not_empty]. }
    simpl. destruct (match need with O => JS.sequenceLength c - 1 | S k => k end).
    + intros [<-|Hin]; [exact Hnew|]. apply (IH 0 "" ltac:(congruence) ch Hin).
    + intros Hin. apply (IH _ _ (fun _ => Hnew) ch Hin).
Qed.

Lemma chars_not_empty (s ch : string) : In ch (JS.chars s) -> ch <> "".
Proof. apply sequences_not_empty. congruence. Qed.

Lemma join_not_empty (ch : string) (l : list string) :
  ch <> "" -> JS.join (ch :: l) <> "".
Proof. intros H. simpl. destruct ch; [congruence|]. rewrite append_cons. discriminate. Qed.

Lemma dropSpaces_spec (l : list string) :
  exists lead,
    l = lead ++ JS.dropSpaces l
    /\ forallb JS.isSpace lead = true
    /\ forall ch rest, JS.dropSpaces l = ch :: rest -> JS.isSpace ch = false.
Proof.
  induction l as [|x l (lead & Hl & Hlead & Hhead)]; simpl.
  - exists []. repeat split. discriminate.
  - destruct (JS.isSpace x) eqn:E.
    + exists (x :: lead). simpl. rewrite E, Hlead. split; [f_equal; exact Hl|].
      split; [reflexivity | exact Hhead].
    + exists []. repeat split. intros ch rest [= <- _]. exact E.
Qed.

Lemma forallb_rev {A : Type} (f : A -> bool) (l : list A) :
  forallb f (rev l) = forallb f l.
Proof.
  induction l as [|x l IH]; [reflexivity|]. simpl.
  rewrite forallb_app, IH. simpl. rewrite andb_true_r. apply andb_comm.
Qed.

(** [trim] keeps the code points from the first to the last that is no
    white space, and removes what stands before and after. *)
Lemma trim_spec (text : string) :
  exists lead core trail,
    JS.chars text = lead ++ core ++ trail
    /\ forallb JS.isSpace lead = true
    /\ forallb JS.isSpace trail = true
    /\ JS.trim text = JS.join core
    /\ (forall ch rest, core = ch :: rest -> JS.isSpace ch = false)
    /\ (forall front ch, core = front ++ [ch] -> JS.isSpace ch = false).
Proof.
  unfold JS.trim.
  destruct (dropSpaces_spec (JS.chars text)) as (lead & Hl & Hlead & Hhead).
  destruct (dropSpaces_spec (rev (JS.dropSpaces (JS.chars text))))
    as (back & Hr & Hback & Hlast).
  set (inner := JS.dropSpaces (rev (JS.dropSpaces (JS.chars text)))) in *.
  assert (Hd : JS.dropSpaces (JS.chars text) = rev inner ++ rev back).
  { rewrite <- rev_app_distr, <- Hr, rev_involutive. reflexivity. }
  exists lead, (rev inner), (rev back).
  split; [rewrite <- Hd; exact Hl|]. split; [exact Hlead|].
  split; [rewrite forallb_rev; exact Hback|]. split; [reflexivity|]. split.
  - intros ch rest Hcore. rewrite Hcore in Hd. apply (Hhead ch _ Hd).
  - intros front ch Hcore. apply (Hlast ch (rev front)).
    rewrite <- (rev_involutive inner), Hcore, rev_app_distr. reflexivity.
Qed.

Lemma trim_empty_iff_blank (text : string) :
  String.eqb (JS.trim text) "" = blankb text.
Proof.
  destruct (trim_spec text) as (lead & core & trail & Hchars & Hlead & Htrail & -> & Hhead & _).
  unfold blankb. rewrite Hchars, !forallb_app, Hlead, Htrail, andb_true_r. simpl.
  destruct core as [|ch rest]; [reflexivity|].
  simpl forallb. rewrite (Hhead ch rest eq_refl). simpl.
  apply String.eqb_neq, join_not_empty, (chars_not_empty text).
  rewrite Hchars. apply in_or_app. right. left. reflexivity.
Qed.

(** The test of the source on a comment is: not blank. *)
Lemma trimmed_not_empty (c : string) :
  negb (String.eqb c "") && (0 <? String.length (JS.trim c))%nat = negb (blankb c).
Proof.
  rewrite <- trim_empty_iff_blank.
  destruct c as [|a c]; [reflexivity|]. simpl negb at 1. rewrite andb_true_l.
  destruct (JS.trim (String a c)); reflexivity.
Qed.

Lemma isSpace_spec (ch : string) :
  JS.isSpace ch = true <-> In (JS.codePoint ch) JS.whiteSpace.
Proof.
  unfold JS.isSpace. rewrite existsb_exists. split.
  - intros (x & Hx & E). apply N.eqb_eq in E. rewrite E. exact Hx.
  - intros H. exists (JS.codePoint ch). split; [exact H | apply N.eqb_refl].
Qed.

Lemma whiteSpaceOnly_spec (chs : list string) :
  forallb JS.isSpace chs = true <-> whiteSpaceOnly chs.
Proof.
  unfold whiteSpaceOnly. rewrite forallb_forall, Forall_forall.
  split; intros H c Hc; apply isSpace_spec, H; apply list_elem_of_In; exact Hc.
Qed.

Lemma blankb_spec (s : string) : blankb s = true <-> blank s.
Proof. apply whiteSpaceOnly_spec. Qed.

Lemma updatePatterns_summary (projectId : string) (feedback : list FeedbackEntry) (s : Store) :
  fst (updatePatterns projectId feedback s) = summaryOf feedback.
Proof.
  unfold updatePatterns, summaryOf, withAction. simpl. f_equal.
  rewrite filter_filter_andb. f_equal. apply List.filter_ext. intros f.
  unfold carriesRule, hasRuleText. destruct (comment f) as [c|]; [|reflexivity].
  rewrite trimmed_not_empty. reflexivity.
Qed.

Lemma updatePatterns_store (projectId : string) (feedback : list FeedbackEntry) (s : Store) :
  snd (updatePatterns projectId feedback s)
  = writePatterns projectId (summaryOf feedback) s.
Proof.
  rewrite <- (updatePatterns_summary projectId feedback s). reflexivity.
Qed.

Lemma addFeedback_store (env : Oracles) (projectId : string) (entry : NewEntry) (w : World) :
  store (snd (addFeedback env projectId entry w))
  = writePatterns projectId
      (summaryOf (getFeedback projectId (store w) ++ [fst (addFeedback env projectId entry w)]))
      (writeFeedback projectId
         (getFeedback projectId (store w) ++ [fst (addFeedback env projectId entry w)])
         (store w)).
Proof.
  unfold addFeedback.
  destruct (givenId entry) as [i|]; [destruct (String.eqb i "")|];
    (destruct (givenTimestamp entry) as [t|]; [destruct (t =? 0)%Z|]);
    cbv beta iota zeta; rewrite updatePatterns_store; reflexivity.
Qed.

Lemma addFeedback_ledger (env : Oracles) (projectId : string) (entry : NewEntry) (w : World) :
  getFeedback projectId (store (snd (addFeedback env projectId entry w)))
  = getFeedback projectId (store w) ++ [fst (addFeedback env projectId entry w)].
Proof.
  rewrite addFeedback_store. unfold getFeedback at 1. simpl.
  rewrite lookup_insert_eq. reflexivity.
Qed.

Lemma addFeedback_patterns (env : Oracles) (projectId : string) (entry : NewEntry) (w : World) :
  getPatterns projectId (store (snd (addFeedback env projectId entry w)))
  = summaryOf (getFeedback projectId (store (snd (addFeedback env projectId entry w)))).
Proof.
  rewrite addFeedback_ledger, addFeedback_store. unfold getPatterns. simpl.
  rewrite lookup_insert_eq. reflexivity.
Qed.

Lemma addFeedback_stored (env : Oracles) (projectId : string) (entry : NewEntry) (w : World) :
  storedFor env entry (fst (addFeedback env projectId entry w)).
Proof.
  unfold storedFor, addFeedback.
  destruct (givenId entry) as [i|] eqn:Ei; [destruct (String.eqb i "") eqn:Ee|];
    (destruct (givenTimestamp entry) as [t|] eqn:Et; [destruct (t =? 0)%Z eqn:Ez|]);
    simpl; repeat split; try discriminate; eauto;
    try (intros ? [= <-] ?; apply String.eqb_eq in Ee; congruence);
    try (intros ? [= <-] ?; apply Z.eqb_eq in Ez; congruence);
    try (intros ? [= <-] ?; reflexivity).
Qed.

Lemma appendAll_app (env : Oracles) (projectId : string) (es more : list NewEntry) (w : World) :
  appendAll env projectId (es ++ more) w
  = (fst (appendAll env projectId es w)
     ++ fst (appendAll env projectId more (snd (appendAll env projectId es w))),
     snd (appendAll env projectId more (snd (appendAll env projectId es w)))).
Proof.
  revert w. induction es as [|e es IH]; intros w; simpl.
  - destruct (appendAll env projectId more w). reflexivity.
  - destruct (addFeedback env projectId e w) as [stored w1]. rewrite IH.
    destruct (appendAll env projectId es w1) as [r1 w2]. simpl.
    destruct (appendAll env projectId more w2). reflexivity.
Qed.

Lemma appendAll_ledger (env : Oracles) (projectId : string) (es : list NewEntry) (w : World) :
  getFeedback projectId (store (snd (appendAll env projectId es w)))
  = getFeedback projectId (store w) ++ fst (appendAll env projectId es w).
Proof.
  revert w. induction es as [|e es IH]; intros w; simpl.
  - rewrite app_nil_r. reflexivity.
  - pose proof (addFeedback_ledger env projectId e w) as Hone.
    destruct (addFeedback env projectId e w) as [stored w1]. simpl in Hone.
    specialize (IH w1). destruct (appendAll env projectId es w1) as [more w2].
    simpl in *. rewrite IH, Hone, <- app_assoc. reflexivity.
Qed.

Lemma appendAll_stored (env : Oracles) (projectId : string) (es : list NewEntry) (w : World) :
  Forall2 (storedFor env) es (fst (appendAll env projectId es w)).
Proof.
  revert w. induction es as [|e es IH]; intros w; simpl; [constructor|].
  pose proof (addFeedback_stored env projectId e w) as Hone.
  destruct (addFeedback env projectId e w) as [stored w1]. specialize (IH w1).
  destruct (appendAll env projectId es w1) as [more w2]. constructor; assumption.
Qed.


(** C5. For every sequence of appends to the ledger of a project,
    listing the ledger returns what was there followed by exactly the
    appended entries in append order, later appends leave the entries
    stored before them in place, and each append returns the entry it
    stored: the entry given, with an identifier and a timestamp assigned
    when the caller left them out. *)
Theorem ledger_is_append_only
    (env : Oracles) (projectId : string) (w : World) (entries more : list NewEntry) :
  getFeedback projectId (store (snd (appendAll env projectId entries w)))
  = getFeedback projectId (store w) ++ fst (appendAll env projectId entries w)
  /\ Forall2 (storedFor env) entries (fst (appendAll env projectId entries w))
  /\ getFeedback projectId (store (snd (appendAll env projectId (entries ++ more) w)))
     = getFeedback projectId (store (snd (appendAll env projectId entries w)))
       ++ fst (appendAll env projectId more (snd (appendAll env projectId entries w))).
Proof.
  split; [apply appendAll_ledger|]. split; [apply appendAll_stored|].
  rewrite appendAll_app. simpl. apply appendAll_ledger.
Qed.

(** ** The context compiler *)

Lemma countAction_occurrences (a : string) (feedback : list FeedbackEntry) :
  countAction a feedback = occurrences a feedback.
Proof.
  unfold countAction, occurrences. induction feedback as [|f l IH]; simpl; [reflexivity|].
  destruct (string_dec (action f) a) as [->|Hne].
  - rewrite String.eqb_refl. simpl. rewrite IH. reflexivity.
  - apply String.eqb_neq in Hne. rewrite Hne. exact IH.
Qed.

(** C8, as the code has it. On a ledger with plain keys the compiled
    context carries the ledger, the stored pattern summary and the
    contradictions just detected, and its summary block holds the total
    feedback count, the counts of the approved, rejected and revision
    entries, the contradiction count and the rule count, each derived
    from those; it holds no count of the commented entries. *)
Theorem context_summary_counts (env : Oracles) (projectId : string) (w : World) :
  plainKeys (getFeedback projectId (store w)) ->
  exists ctx w',
    getFullContext env projectId w = (Ok ctx, w')
    /\ store w' = store w
    /\ FullContext.feedback ctx = getFeedback projectId (store w)
    /\ FullContext.patterns ctx = getPatterns projectId (store w)
    /\ fst (findContradictions env projectId w) = Ok (FullContext.contradictions ctx)
    /\ FullContext.summary ctx
       = {| FullContext.totalFeedback := length (FullContext.feedback ctx);
            FullContext.approvedCount := occurrences "approved" (FullContext.feedback ctx);
            FullContext.rejectedCount := occurrences "rejected" (FullContext.feedback ctx);
            FullContext.revisionCount := occurrences "revision" (FullContext.feedback ctx);
            FullContext.activeContradictions := length (FullContext.contradictions ctx);
            FullContext.learnedRules := length (rules (FullContext.patterns ctx)) |}.
Proof.
  intros Hplain.
  destruct (findContradictions_returns env projectId w Hplain) as (o & _ & Hrun).
  unfold getFullContext. rewrite Hrun. eexists _, _. split; [reflexivity|]. simpl.
  rewrite <- !countAction_occurrences. repeat split.
Qed.

Lemma context_summary_counts_witness :
  exists ctx,
    fst (getFullContext sampleEnv "P" (withLedger flipLedger)) = Ok ctx
    /\ summaryFields (FullContext.summary ctx) = [3; 1; 1; 0; 1; 0].
Proof.
  destruct (context_summary_counts sampleEnv "P" (withLedger flipLedger))
    as (ctx & w' & Hrun & _ & Hfeedback & Hpatterns & Hfound & Hsummary).
  - vm_compute. repeat constructor.
  - exists ctx. rewrite Hrun. split; [reflexivity|].
    unfold summaryFields. rewrite Hsummary. simpl.
    rewrite Hfeedback, Hpatterns.
    assert (Hlen : length (FullContext.contradictions ctx) = 1).
    { change (FullContext.contradictions ctx)
        with (match Ok (FullContext.contradictions ctx) with
              | Ok cs => cs
              | Throw _ => []
              end).
      rewrite <- Hfound. reflexivity. }
    rewrite Hlen. reflexivity.
Defined.

(** C8 as stated fails: with three commented entries in the ledger, no
    integer of the summary block is their count. *)
Lemma summary_lacks_commented_count :
  exists ctx,
    fst (getFullContext sampleEnv "P" (withLedger commentedLedger)) = Ok ctx
    /\ occurrences "commented" (FullContext.feedback ctx) = 3
    /\ ~ In 3 (summaryFields (FullContext.summary ctx)).
Proof.
  eexists. split; [vm_compute; reflexivity|]. split; [reflexivity|].
  simpl. intros H. repeat (destruct H as [H|H]; [discriminate|]). exact H.
Qed.

(** ** The pipeline item store *)

Lemma setItems_itemDocs (env : Oracles) (projectId : string) (stg : Stage)
    (items : list Item.t) (w : World) :
  itemDocs (store (setItems env projectId stg items w))
  = <[(projectId, stg) := items]> (itemDocs (store w)).
Proof.
  unfold setItems. simpl.
  destruct (findIndex _ (projectsDoc (store w))); reflexivity.
Qed.

Lemma setItems_other_docs (env : Oracles) (projectId : string) (stg : Stage)
    (items : list Item.t) (w : World) :
  feedbackDocs (store (setItems env projectId stg items w)) = feedbackDocs (store w)
  /\ patternDocs (store (setItems env projectId stg items w)) = patternDocs (store w).
Proof.
  unfold setItems. simpl.
  destruct (findIndex _ (projectsDoc (store w))); split; reflexivity.
Qed.

Lemma touchedOnly_refl (projectId : string) (ps : list Project.t) :
  touchedOnly projectId ps ps.
Proof. induction ps; constructor; [left; reflexivity | assumption]. Qed.

Lemma touchedOnly_alter (projectId : string) (at_ : Z) (ps : list Project.t) (idx : nat) :
  findIndex (fun p => String.eqb (Project.id p) projectId) ps = Some idx ->
  touchedOnly projectId ps (alter (Project.touch at_) idx ps).
Proof.
  revert idx. induction ps as [|p ps IH]; intros idx; simpl; [discriminate|].
  destruct (String.eqb (Project.id p) projectId) eqn:E.
  - intros [= <-]. simpl. constructor; [|apply touchedOnly_refl].
    right. split; [apply String.eqb_eq; exact E | exists at_; reflexivity].
  - destruct (findIndex _ ps) as [i|]; [|discriminate]. intros [= <-]. simpl.
    constructor; [left; reflexivity | apply IH; reflexivity].
Qed.

Lemma setItems_projects (env : Oracles) (projectId : string) (stg : Stage)
    (items : list Item.t) (w : World) :
  touchedOnly projectId (projectsDoc (store w))
    (projectsDoc (store (setItems env projectId stg items w))).
Proof.
  unfold setItems. simpl.
  destruct (findIndex _ (projectsDoc (store w))) as [idx|] eqn:E; simpl.
  - apply touchedOnly_alter. exact E.
  - apply touchedOnly_refl.
Qed.

Lemma getItems_setItems (env : Oracles) (projectId : string) (stg : Stage)
    (items : list Item.t) (w : World) :
  getItems projectId stg (store (setItems env projectId stg items w)) = items.
Proof.
  unfold getItems. rewrite setItems_itemDocs, lookup_insert_eq. reflexivity.
Qed.

Lemma hasId_spec (ids : list string) (i : string) : hasId ids i = true <-> In i ids.
Proof.
  unfold hasId. rewrite existsb_exists. split.
  - intros (x & Hx & E). apply String.eqb_eq in E. subst x. exact Hx.
  - intros H. exists i. split; [exact H | apply String.eqb_refl].
Qed.

(** A second pass over the same new items finds every identifier stored. *)
Lemma nothing_left_to_add (existing newItems : list Item.t) :
  List.filter
    (fun i =>
       negb (hasId
               (map Item.id
                  (existing
                   ++ List.filter
                        (fun i => negb (hasId (map Item.id existing) (Item.id i)))
                        newItems))
               (Item.id i)))
    newItems
  = [].
Proof.
  apply filter_none, Forall_forall. intros i Hi. apply list_elem_of_In in Hi.
  apply negb_false_iff, hasId_spec. rewrite map_app, in_app_iff.
  destruct (hasId (map Item.id existing) (Item.id i)) eqn:E.
  - left. apply hasId_spec. exact E.
  - right. apply in_map, filter_In. split; [exact Hi|]. rewrite E. reflexivity.
Qed.

Lemma NoDup_map_filter {A B : Type} (g : A -> B) (f : A -> bool) (l : list A) :
  NoDup (map g l) -> NoDup (map g (List.filter f l)).
Proof.
  induction l as [|x l IH]; simpl; [tauto|].
  intros H. apply NoDup_cons in H as [Hx Hl].
  destruct (f x); simpl; [|exact (IH Hl)].
  apply NoDup_cons. split; [|exact (IH Hl)].
  intros Hin. apply Hx. apply list_elem_of_In in Hin. apply list_elem_of_In.
  apply in_map_iff in Hin as (y & Hy & Hin). apply filter_In in Hin as [Hin _].
  apply in_map_iff. exists y. split; assumption.
Qed.

(** C10, as the code has it. [addItems] appends, after the stored items
    and in their given order, exactly the new items whose identifier is
    not stored yet.  A second call with the same new items returns and
    stores the same list and leaves every document as the first call left
    it, except that the project index has the [updatedAt] of the project
    refreshed.  Identifiers that were pairwise distinct stay so when the
    identifiers of the new items are pairwise distinct too. *)
Theorem addItems_appends_unknown_ids
    (env : Oracles) (projectId : string) (stg : Stage) (newItems : list Item.t) (w : World) :
  fst (addItems env projectId stg newItems w)
  = getItems projectId stg (store w)
    ++ List.filter
         (fun i => negb (hasId (map Item.id (getItems projectId stg (store w))) (Item.id i)))
         newItems
  /\ (forall i,
        In i (fst (addItems env projectId stg newItems w))
        <-> In i (getItems projectId stg (store w))
            \/ (In i newItems
                /\ ~ In (Item.id i) (map Item.id (getItems projectId stg (store w)))))
  /\ getItems projectId stg (store (snd (addItems env projectId stg newItems w)))
     = fst (addItems env projectId stg newItems w)
  /\ fst (addItems env projectId stg newItems (snd (addItems env projectId stg newItems w)))
     = fst (addItems env projectId stg newItems w)
  /\ sameDocuments
       (store (snd (addItems env projectId stg newItems
                      (snd (addItems env projectId stg newItems w)))))
       (store (snd (addItems env projectId stg newItems w)))
  /\ touchedOnly projectId
       (projectsDoc (store (snd (addItems env projectId stg newItems w))))
       (projectsDoc (store (snd (addItems env projectId stg newItems
                                   (snd (addItems env projectId stg newItems w))))))
  /\ (NoDup (map Item.id (getItems projectId stg (store w))) ->
      NoDup (map Item.id newItems) ->
      NoDup (map Item.id (fst (addItems env projectId stg newItems w)))).
Proof.
  set (existing := getItems projectId stg (store w)).
  assert (Hsecond :
    fst (addItems env projectId stg newItems (snd (addItems env projectId stg newItems w)))
    = fst (addItems env projectId stg newItems w)).
  { unfold addItems at 1. simpl. rewrite getItems_setItems. fold existing.
    rewrite nothing_left_to_add. apply app_nil_r. }
  split; [reflexivity|]. split; [|split; [|split; [exact Hsecond|split; [|split]]]].
  - intros i. simpl. fold existing. rewrite in_app_iff, filter_In, negb_true_iff.
    rewrite <- hasId_spec. destruct (hasId (map Item.id existing) (Item.id i)); split;
      intros [H|[H1 H2]]; auto; try discriminate. tauto.
  - apply getItems_setItems.
  - unfold sameDocuments.
    pose proof (setItems_other_docs env projectId stg
                  (fst (addItems env projectId stg newItems
                          (snd (addItems env projectId stg newItems w))))
                  (snd (addItems env projectId stg newItems w))) as [Hf Hp].
    pose proof (setItems_itemDocs env projectId stg
                  (fst (addItems env projectId stg newItems
                          (snd (addItems env projectId stg newItems w))))
                  (snd (addItems env projectId stg newItems w))) as Hi.
    change (snd (addItems env projectId stg newItems
                   (snd (addItems env projectId stg newItems w))))
      with (setItems env projectId stg
              (fst (addItems env projectId stg newItems
                      (snd (addItems env projectId stg newItems w))))
              (snd (addItems env projectId stg newItems w))).
    split; [|split; assumption].
    rewrite Hi, Hsecond. simpl. rewrite setItems_itemDocs. apply insert_insert_eq.
  - apply setItems_projects.
  - intros Hold Hnew. simpl. fold existing. rewrite map_app. apply NoDup_app.
    split; [exact Hold|]. split; [|apply NoDup_map_filter; exact Hnew].
    intros x Hx Hx'. apply list_elem_of_In in Hx, Hx'.
    apply in_map_iff in Hx' as (i & <- & Hi). apply filter_In in Hi as [_ Hi].
    apply negb_true_iff in Hi. apply hasId_spec in Hx. congruence.
Qed.

Lemma addItems_appends_unknown_ids_witness :
  map Item.id
    (fst (addItems sampleEnv "P" scripts
            [sampleItem "A" "pending" None; sampleItem "S" "pending" (Some "A")]
            (worldOf (writeItems "P" scripts [sampleItem "A" "pending" None] emptyStore))))
  = ["A"; "S"]
  /\ NoDup
       (map Item.id
          (fst (addItems sampleEnv "P" scripts
                  [sampleItem "A" "pending" None; sampleItem "S" "pending" (Some "A")]
                  (worldOf
                     (writeItems "P" scripts [sampleItem "A" "pending" None] emptyStore))))).
Proof.
  split; [reflexivity|].
  apply (addItems_appends_unknown_ids sampleEnv "P" scripts
           [sampleItem "A" "pending" None; sampleItem "S" "pending" (Some "A")]
           (worldOf (writeItems "P" scripts [sampleItem "A" "pending" None] emptyStore))).
  - vm_compute. apply NoDup_singleton.
  - vm_compute. apply NoDup_cons_2; [|apply NoDup_singleton].
    rewrite list_elem_of_In. simpl. intros [H|[]]. discriminate.
Defined.

(** C10 as stated fails twice: a second call changes the store (the
    project index is written with a new [updatedAt]), and two new items
    that share a fresh identifier are both stored. *)
Lemma addItems_counterexample :
  store (snd (addItems sampleEnv "P" concepts [sampleItem "D" "pending" None]
                (snd (addItems sampleEnv "P" concepts [sampleItem "D" "pending" None]
                        (worldOf conceptStore)))))
  <> store (snd (addItems sampleEnv "P" concepts [sampleItem "D" "pending" None]
                   (worldOf conceptStore)))
  /\ NoDup (map Item.id (getItems "P" scripts (store (worldOf conceptStore))))
  /\ ~ NoDup
         (map Item.id
            (fst (addItems sampleEnv "P" scripts
                    [sampleItem "S" "pending" (Some "A"); sampleItem "S" "pending" (Some "B")]
                    (worldOf conceptStore)))).
Proof.
  split; [|split].
  - intros H. apply (f_equal projectsDoc) in H. vm_compute in H. discriminate H.
  - vm_compute. apply NoDup_nil_2.
  - vm_compute. intros H. apply NoDup_cons in H as [H _]. apply H. left.
Qed.

(** ** Batch generation of scripts *)

Lemma findContradictions_store (env : Oracles) (projectId : string) (w : World) :
  store (snd (findContradictions env projectId w)) = store w.
Proof.
  unfold findContradictions.
  destruct (groupByItem (getFeedback projectId (store w))); reflexivity.
Qed.

Lemma getFullContext_store (env : Oracles) (projectId : string) (w : World) :
  store (snd (getFullContext env projectId w)) = store w.
Proof.
  unfold getFullContext. pose proof (findContradictions_store env projectId w) as H.
  destruct (findContradictions env projectId w) as [[cs|err] w']; exact H.
Qed.

Lemma generate_store (env : Oracles) (projectId : string) (w : World) :
  store (snd (generate env projectId w)) = store w.
Proof.
  unfold generate. pose proof (getFullContext_store env projectId w) as H.
  destruct (getFullContext env projectId w) as [[ctx|err] w']; [|exact H].
  destruct (reply env (calls w')); exact H.
Qed.

Lemma generateScripts_store (env : Oracles) (projectId : string)
    (todo : list Item.t) (w : World) :
  store (snd (generateScripts env projectId todo w)) = store w.
Proof.
  revert w. induction todo as [|concept rest IH]; intros w; simpl; [reflexivity|].
  pose proof (generate_store env projectId w) as H.
  destruct (generate env projectId w) as [[result|err] w1]; [|exact H].
  match goal with
  | |- context [generateScripts env projectId rest ?w2] =>
      specialize (IH w2); destruct (generateScripts env projectId rest w2) as [[gen|err] w3]
  end; simpl in *; congruence.
Qed.

(** A completed loop made one script per concept, in order, each under
    an identifier drawn from [uuid()]. *)
Lemma generateScripts_scripts (env : Oracles) (projectId : string)
    (todo generated : list Item.t) (w w' : World) :
  generateScripts env projectId todo w = (Ok generated, w') ->
  Forall2
    (fun concept item =>
       Item.parentId item = Some (Item.id concept)
       /\ Item.status item = "pending"
       /\ exists n, Item.id item = uuid env n)
    todo generated.
Proof.
  revert generated w. induction todo as [|concept rest IH]; intros generated w; simpl.
  - intros [= <- _]. constructor.
  - destruct (generate env projectId w) as [[result|err] w1]; [|discriminate].
    match goal with
    | |- context [generateScripts env projectId rest ?w2] =>
        specialize (fun g => IH g w2);
        destruct (generateScripts env projectId rest w2) as [[gen|err] w3]
    end; [|discriminate].
    intros [= <- <-]. constructor; [|apply IH; reflexivity].
    simpl. repeat split. eexists. reflexivity.
Qed.

Lemma generate_drawn (env : Oracles) (projectId : string) (w : World) :
  drawn w <= drawn (snd (generate env projectId w)).
Proof.
  unfold generate, getFullContext, findContradictions.
  destruct (groupByItem (getFeedback projectId (store w))); simpl;
    [destruct (reply env (calls w)); simpl; lia | lia].
Qed.

(** The identifiers of the scripts a completed loop made were drawn
    during the loop. *)
Lemma generateScripts_drawn (env : Oracles) (projectId : string)
    (todo generated : list Item.t) (w w' : World) :
  generateScripts env projectId todo w = (Ok generated, w') ->
  drawn w <= drawn w'
  /\ Forall (fun item => exists n, drawn w <= n < drawn w' /\ Item.id item = uuid env n)
       generated.
Proof.
  revert generated w. induction todo as [|concept rest IH]; intros generated w; simpl.
  - intros [= <- <-]. split; [lia | constructor].
  - pose proof (generate_drawn env projectId w) as Hle.
    destruct (generate env projectId w) as [[result|err] w1]; [|discriminate].
    cbn [snd] in Hle.
    match goal with
    | |- context [generateScripts env projectId rest ?w2] =>
        specialize (fun g => IH g w2);
        destruct (generateScripts env projectId rest w2) as [[gen|err] w3]
    end; [|discriminate].
    intros [= <- <-]. destruct (IH gen eq_refl) as [Hle' Hrest]. simpl in Hle'.
    split; [lia|]. constructor.
    + exists (drawn w1). split; [lia | reflexivity].
    + eapply Forall_impl; [exact Hrest|]. intros item (n & Hn & Hid). simpl in Hn.
      exists n. split; [lia | exact Hid].
Qed.

Lemma hasParent_spec (ids : list (option string)) (i : string) :
  hasParent ids i = true <-> In (Some i) ids.
Proof.
  unfold hasParent. rewrite existsb_exists. split.
  - intros ([p|] & Hin & E); [|discriminate]. apply String.eqb_eq in E. subst p. exact Hin.
  - intros H. exists (Some i). split; [exact H | apply String.eqb_refl].
Qed.

Lemma toGenerate_spec (projectId : string) (s : Store) (c : Item.t) :
  In c (toGenerate projectId s)
  <-> In c (getItems projectId concepts s)
      /\ Item.status c = "approved"
      /\ ~ In (Some (Item.id c)) (map Item.parentId (getItems projectId scripts s)).
Proof.
  unfold toGenerate. rewrite !filter_In, negb_true_iff, String.eqb_eq.
  rewrite <- hasParent_spec. destruct (hasParent _ (Item.id c)); intuition congruence.
Qed.

Lemma toGenerate_done (projectId : string) (s s' : Store) (generated : list Item.t) :
  getItems projectId concepts s' = getItems projectId concepts s ->
  getItems projectId scripts s' = getItems projectId scripts s ++ generated ->
  map Item.parentId generated = map (fun c => Some (Item.id c)) (toGenerate projectId s) ->
  toGenerate projectId s' = [].
Proof.
  intros Hconcepts Hscripts Hparents.
  destruct (toGenerate projectId s') as [|c rest] eqn:E; [reflexivity|]. exfalso.
  assert (Hc : In c (toGenerate projectId s')) by (rewrite E; left; reflexivity).
  apply toGenerate_spec in Hc as (Hin & Happroved & Hnone).
  rewrite Hscripts, map_app, in_app_iff, Hparents in Hnone.
  rewrite Hconcepts in Hin.
  apply Hnone.
  destruct (hasParent (map Item.parentId (getItems projectId scripts s)) (Item.id c)) eqn:Ep.
  - left. apply hasParent_spec. exact Ep.
  - right. apply (in_map (fun c => Some (Item.id c))).
    apply toGenerate_spec. repeat split; [assumption..|].
    rewrite <- hasParent_spec. congruence.
Qed.

Lemma addItems_fresh (env : Oracles) (projectId : string) (stg : Stage)
    (newItems : list Item.t) (w : World) :
  Forall (fun i => ~ In (Item.id i) (map Item.id (getItems projectId stg (store w)))) newItems ->
  fst (addItems env projectId stg newItems w) = getItems projectId stg (store w) ++ newItems.
Proof.
  intros H. simpl. f_equal. apply filter_all.
  eapply Forall_impl; [exact H|]. intros i Hi. simpl in Hi.
  apply negb_true_iff, not_true_is_false. rewrite hasId_spec. exact Hi.
Qed.

Lemma addItems_other_stage (env : Oracles) (projectId : string) (stg other : Stage)
    (newItems : list Item.t) (w : World) :
  other <> stg ->
  getItems projectId other (store (snd (addItems env projectId stg newItems w)))
  = getItems projectId other (store w).
Proof.
  intros Hne. unfold getItems. simpl. rewrite setItems_itemDocs.
  rewrite lookup_insert_ne; [reflexivity|]. intros [= E]. congruence.
Qed.

(** C6, as the code has it. The batch route selects exactly the approved
    concepts whose identifier is not the [parentId] of a stored script.
    When a run completes (no request to the generator failed; a failure
    aborts the batch before anything is stored) and the identifiers drawn
    during the run are not those of stored scripts, it stores one
    new script per selected concept, in order, and leaves the concepts as
    they were; a second run, whatever the generator would answer, then
    finds nothing to generate: it reports zero and changes nothing. *)
Theorem batch_scripts_once_per_approved_concept
    (env : Oracles) (projectId : string) (w w1 : World)
    (items : list Item.t) (count : nat) (message : option string) :
  scriptsBatch env projectId w = (Batch items count message, w1) ->
  (forall n,
     drawn w <= n < drawn w1 ->
     ~ In (uuid env n) (map Item.id (getItems projectId scripts (store w)))) ->
  (forall c,
     In c (toGenerate projectId (store w))
     <-> In c (getItems projectId concepts (store w))
         /\ Item.status c = "approved"
         /\ ~ In (Some (Item.id c))
                (map Item.parentId (getItems projectId scripts (store w))))
  /\ exists generated,
       Forall2
         (fun concept item =>
            Item.parentId item = Some (Item.id concept)
            /\ Item.status item = "pending"
            /\ exists n, Item.id item = uuid env n)
         (toGenerate projectId (store w)) generated
       /\ count = length generated
       /\ items = getItems projectId scripts (store w) ++ generated
       /\ getItems projectId scripts (store w1) = items
       /\ getItems projectId concepts (store w1) = getItems projectId concepts (store w)
       /\ forall env',
            scriptsBatch env' projectId w1
            = (Batch items 0 (Some "All approved concepts already have scripts."), w1).
Proof.
  intros Hrun Hfresh. split; [apply toGenerate_spec|].
  unfold scriptsBatch in Hrun.
  destruct (String.eqb projectId "") eqn:Epid; [discriminate|].
  destruct (length (toGenerate projectId (store w)) =? 0)%nat eqn:Elen.
  - injection Hrun as <- <- _ <-. apply Nat.eqb_eq in Elen.
    destruct (toGenerate projectId (store w)) as [|c rest] eqn:Etodo; [|discriminate].
    exists []. split; [constructor|]. split; [reflexivity|].
    split; [symmetry; apply app_nil_r|]. split; [reflexivity|]. split; [reflexivity|].
    intros env'. unfold scriptsBatch. rewrite Epid, Etodo. reflexivity.
  - pose proof (generateScripts_store env projectId (toGenerate projectId (store w)) w) as Hstore.
    destruct (generateScripts env projectId (toGenerate projectId (store w)) w)
      as [[generated|err] w0] eqn:Egen; [|discriminate].
    simpl in Hstore.
    pose proof (generateScripts_scripts env projectId _ _ _ _ Egen) as Hmade.
    destruct (generateScripts_drawn env projectId _ _ _ _ Egen) as [_ Hdrawn].
    assert (Hw1 : drawn w1 = drawn w0).
    { unfold addItems in Hrun. injection Hrun as _ _ _ <-. unfold setItems. simpl.
      destruct (findIndex _ _); reflexivity. }
    rewrite Hw1 in Hfresh.
    assert (Hitems : fst (addItems env projectId scripts generated w0)
                     = getItems projectId scripts (store w) ++ generated).
    { rewrite addItems_fresh, Hstore; [reflexivity|]. rewrite Hstore.
      eapply Forall_impl; [exact Hdrawn|]. intros item (n & Hn & Hid).
      simpl. rewrite Hid. apply Hfresh. exact Hn. }
    assert (Hstored : getItems projectId scripts (store (snd (addItems env projectId scripts generated w0)))
                      = getItems projectId scripts (store w) ++ generated).
    { rewrite <- Hitems. apply getItems_setItems. }
    assert (Hconcepts : getItems projectId concepts
                          (store (snd (addItems env projectId scripts generated w0)))
                        = getItems projectId concepts (store w)).
    { rewrite addItems_other_stage, Hstore; [reflexivity | discriminate]. }
    destruct (addItems env projectId scripts generated w0) as [updated w2] eqn:Eadd.
    simpl in Hitems, Hstored, Hconcepts. injection Hrun as <- <- _ <-.
    exists generated. split; [exact Hmade|]. split; [reflexivity|].
    split; [exact Hitems|]. split; [congruence|]. split; [exact Hconcepts|].
    intros env'. unfold scriptsBatch. rewrite Epid.
    rewrite (toGenerate_done projectId (store w) (store w2) generated Hconcepts Hstored).
    + simpl. rewrite Hstored, Hitems. reflexivity.
    + clear -Hmade. induction Hmade as [|c i ? ? (Hp & _) _ IH]; simpl; [reflexivity|].
      rewrite Hp, IH. reflexivity.
Qed.

Lemma batch_scripts_once_per_approved_concept_witness :
  map Item.parentId (getItems "P" scripts (store secondRound)) = [Some "A"; Some "B"]
  /\ map Item.parentId
       (getItems "P" scripts (store (snd (scriptsBatch sampleEnv "P" secondRound))))
     = [Some "A"; Some "B"; Some "C"]
  /\ forall env',
       exists items,
         scriptsBatch env' "P" (snd (scriptsBatch sampleEnv "P" secondRound))
         = (Batch items 0 (Some "All approved concepts already have scripts."),
            snd (scriptsBatch sampleEnv "P" secondRound)).
Proof.
  split; [reflexivity|]. split; [reflexivity|]. intros env'.
  destruct (batch_scripts_once_per_approved_concept sampleEnv "P" secondRound
              (snd (scriptsBatch sampleEnv "P" secondRound))
              (getItems "P" scripts (store (snd (scriptsBatch sampleEnv "P" secondRound))))
              1 None)
    as (_ & generated & _ & _ & _ & _ & _ & Hagain).
  - vm_compute. reflexivity.
  - intros n Hn.
    assert (Hdrawn : drawn secondRound = 3
                     /\ drawn (snd (scriptsBatch sampleEnv "P" secondRound)) = 4)
      by (split; vm_compute; reflexivity).
    destruct Hdrawn as [Hfrom Hto]. rewrite Hfrom, Hto in Hn.
    assert (n = 3) as -> by lia. vm_compute. intuition discriminate.
  - eexists. apply Hagain.
Defined.

(** C6 as stated fails: when the generator fails its first request, the
    first run stores no script for the two selected concepts, and a
    second run, with no approval in between, produces two. *)
Lemma batch_rerun_after_failure :
  length (toGenerate "P" (store (worldOf conceptStore))) = 2
  /\ fst (scriptsBatch flakyEnv "P" (worldOf conceptStore)) = ServerError UpstreamError
  /\ store (snd (scriptsBatch flakyEnv "P" (worldOf conceptStore))) = conceptStore
  /\ exists items,
       fst (scriptsBatch flakyEnv "P" (snd (scriptsBatch flakyEnv "P" (worldOf conceptStore))))
       = Batch items 2 None
       /\ map Item.parentId items = [Some "A"; Some "B"].
Proof.
  split; [reflexivity|]. split; [reflexivity|]. split; [reflexivity|].
  eexists. split; [vm_compute; reflexivity | reflexivity].
Qed.

(** * Further properties of the detector *)

Lemma groupFrom_returns_plain (rest seen : list FeedbackEntry) (o o' : ByItem) :
  grouped seen o -> plainKeys seen -> groupFrom o rest = Ok o' ->
  plainKeys rest /\ grouped (seen ++ rest) o'.
Proof.
  revert seen o. induction rest as [|e rest IH]; intros seen o Hg Hseen; simpl.
  - intros [= <-]. rewrite app_nil_r. split; [constructor | exact Hg].
  - intros Hrun.
    assert (He : JS.inherited (itemId e) = false).
    { destruct (JS.inherited (itemId e)) eqn:E; [|reflexivity]. exfalso.
      unfold groupStep in Hrun. destruct Hg as [_ Hown].
      destruct (ownProperty o (itemId e)) as [es|] eqn:Hk.
      - rewrite Hown in Hk. unfold entriesOn in Hk.
        destruct (List.filter _ seen) as [|x l] eqn:Ef; [discriminate|].
        assert (Hx : In x (List.filter (fun e0 => String.eqb (itemId e0) (itemId e)) seen))
          by (rewrite Ef; left; reflexivity).
        apply filter_In in Hx as [Hx Hid]. apply String.eqb_eq in Hid.
        unfold plainKeys in Hseen. rewrite Forall_forall in Hseen.
        apply list_elem_of_In, Hseen in Hx. simpl in Hx. congruence.
      - rewrite E in Hrun. discriminate. }
    destruct (groupStep_grouped seen o e Hg He) as (o1 & Hstep & Hg1).
    rewrite Hstep in Hrun.
    assert (Hseen1 : plainKeys (seen ++ [e])).
    { apply Forall_app. split; [exact Hseen | constructor; [exact He | constructor]]. }
    destruct (IH _ _ Hg1 Hseen1 Hrun) as [Hrest Hg2].
    split; [constructor; assumption|]. rewrite <- app_assoc in Hg2. exact Hg2.
Qed.

Lemma groupByItem_returns (feedback : list FeedbackEntry) (o : ByItem) :
  groupByItem feedback = Ok o -> plainKeys feedback /\ grouped feedback o.
Proof.
  intros H. apply (groupFrom_returns_plain feedback [] [] o); [|constructor | exact H].
  split; [constructor | reflexivity].
Qed.

Lemma groupFrom_error (rest : list FeedbackEntry) (o : ByItem) (err : Error) :
  groupFrom o rest = Throw err ->
  err = TypeError "byItem[e.itemId].push is not a function".
Proof.
  revert o. induction rest as [|e rest IH]; intros o; simpl; [discriminate|].
  unfold groupStep. destruct (ownProperty o (itemId e)); [apply IH|].
  destruct (JS.inherited (itemId e)); [congruence | apply IH].
Qed.

(** What a returning call of the detector did. *)
Lemma findContradictions_run (env : Oracles) (projectId : string) (w w' : World)
    (cs : list Contradiction) :
  findContradictions env projectId w = (Ok cs, w') ->
  exists o,
    grouped (getFeedback projectId (store w)) o
    /\ plainKeys (getFeedback projectId (store w))
    /\ map pending cs
       = directContradictions o ++ thematicContradictions (getFeedback projectId (store w))
    /\ w' = {| store := store w; drawn := drawn w + length cs;
               ticks := ticks w; calls := calls w |}.
Proof.
  unfold findContradictions.
  destruct (groupByItem (getFeedback projectId (store w))) as [o|err] eqn:Hrun;
    [|discriminate].
  intros [= <- <-]. destruct (groupByItem_returns _ _ Hrun) as [Hplain Hg].
  exists o. rewrite issueAll_pending, issueAll_length.
  split; [exact Hg|]. split; [exact Hplain|]. split; reflexivity.
Qed.

(** The detector returns exactly on the ledgers in which no entry names
    its item after a member of [Object.prototype]; otherwise it throws a
    [TypeError] before it has drawn an identifier.  A returning call
    draws one identifier per contradiction and changes nothing else. *)
Theorem detector_throws_exactly_on_inherited_keys
    (env : Oracles) (projectId : string) (w : World) :
  (plainKeys (getFeedback projectId (store w))
   <-> exists cs, fst (findContradictions env projectId w) = Ok cs)
  /\ (~ plainKeys (getFeedback projectId (store w))
      <-> findContradictions env projectId w
          = (Throw (TypeError "byItem[e.itemId].push is not a function"), w))
  /\ (forall cs w',
        findContradictions env projectId w = (Ok cs, w') ->
        store w' = store w /\ drawn w' = drawn w + length cs
        /\ ticks w' = ticks w /\ calls w' = calls w).
Proof.
  split; [|split].
  - split.
    + intros Hplain. destruct (findContradictions_returns env projectId w Hplain)
        as (o & _ & ->). eexists. reflexivity.
    + intros [cs Hcs]. destruct (findContradictions env projectId w) as [r w'] eqn:E.
      simpl in Hcs. subst r. destruct (findContradictions_run _ _ _ _ _ E) as (o & _ & H & _).
      exact H.
  - split.
    + intros Hnot. unfold findContradictions.
      destruct (groupByItem (getFeedback projectId (store w))) as [o|err] eqn:Hrun.
      * exfalso. apply Hnot. apply (groupByItem_returns _ _ Hrun).
      * rewrite (groupFrom_error _ _ _ Hrun). reflexivity.
    + intros Hthrow Hplain.
      destruct (findContradictions_returns env projectId w Hplain) as (o & _ & Hrun).
      rewrite Hrun in Hthrow. discriminate.
  - intros cs w' Hrun. destruct (findContradictions_run _ _ _ _ _ Hrun) as (o & _ & _ & _ & ->).
    repeat split.
Qed.

Lemma countAction_cons (a : string) (x : FeedbackEntry) (l : list FeedbackEntry) :
  countAction a (x :: l)
  = (if String.eqb (action x) a then 1 else 0) + countAction a l.
Proof. unfold countAction. simpl. destruct (String.eqb (action x) a); reflexivity. Qed.

Lemma pairs_with_count (x : FeedbackEntry) (l : list FeedbackEntry) :
  length (List.filter approvedAndRejectedb (map (pair x) l))
  = (if String.eqb (action x) "approved" then countAction "rejected" l else 0)
    + (if String.eqb (action x) "rejected" then countAction "approved" l else 0).
Proof.
  induction l as [|b l IH]; simpl.
  - destruct (String.eqb (action x) "approved"), (String.eqb (action x) "rejected");
      reflexivity.
  - rewrite !countAction_cons. unfold approvedAndRejectedb at 1. unfold opposed. simpl.
    destruct (String.eqb (action x) "approved") eqn:Ea;
      destruct (String.eqb (action x) "rejected") eqn:Er;
      destruct (String.eqb (action b) "approved") eqn:Eb;
      destruct (String.eqb (action b) "rejected") eqn:Ec;
      simpl; rewrite IH; try lia;
      apply String.eqb_eq in Eb, Ec; congruence.
Qed.

(** The approved/rejected pairs of a list are as many as the product of
    its approvals and its rejections. *)
Lemma opposed_pairs_count (l : list FeedbackEntry) :
  length (List.filter approvedAndRejectedb (orderedPairs l))
  = countAction "approved" l * countAction "rejected" l.
Proof.
  induction l as [|x l IH]; simpl; [reflexivity|].
  rewrite List.filter_app, length_app, pairs_with_count, IH, !countAction_cons.
  destruct (String.eqb (action x) "approved") eqn:Ea;
    destruct (String.eqb (action x) "rejected") eqn:Er; try lia.
  apply String.eqb_eq in Ea, Er. congruence.
Qed.

Lemma direct_pairs_on_item (env : Oracles) (projectId : string) (w w' : World)
    (cs : list Contradiction) (item : string) :
  findContradictions env projectId w = (Ok cs, w') ->
  map contradicted (List.filter (directOn item) cs)
  = List.filter approvedAndRejectedb
      (orderedPairs (entriesOn item (getFeedback projectId (store w)))).
Proof.
  intros Hrun. destruct (findContradictions_run _ _ _ _ _ Hrun) as (o & Hg & _ & Hps & _).
  change contradicted with (fun c => (pendingEntry1 (pending c), pendingEntry2 (pending c))).
  rewrite <- (map_map pending (fun p => (pendingEntry1 p, pendingEntry2 p))).
  change (directOn item) with (fun c => pendingOn item (pending c)).
  rewrite filter_pending, Hps, List.filter_app, (directContradictions_on _ o item Hg).
  rewrite (filter_none _ (thematicContradictions _)).
  - rewrite app_nil_r, checkEntries_pairs, map_map. simpl.
    rewrite <- (map_id (List.filter _ _)) at 2. apply map_ext. intros []; reflexivity.
  - eapply Forall_impl; [apply thematicContradictions_thematic|].
    intros p Hp. unfold pendingOn. rewrite Hp. reflexivity.
Qed.

(** On a ledger with plain keys, the direct contradictions on an item
    number its approvals times its rejections, whatever their order. *)
Theorem direct_contradictions_multiply
    (env : Oracles) (projectId : string) (w : World) (item : string) :
  plainKeys (getFeedback projectId (store w)) ->
  exists cs w',
    findContradictions env projectId w = (Ok cs, w')
    /\ length (List.filter (directOn item) cs)
       = countAction "approved" (entriesOn item (getFeedback projectId (store w)))
         * countAction "rejected" (entriesOn item (getFeedback projectId (store w))).
Proof.
  intros Hplain.
  destruct (findContradictions_returns env projectId w Hplain) as (o & _ & Hrun).
  eexists _, _. split; [exact Hrun|].
  rewrite <- (length_map contradicted), (direct_pairs_on_item _ _ _ _ _ _ Hrun).
  apply opposed_pairs_count.
Qed.

Lemma direct_contradictions_multiply_witness :
  exists cs,
    fst (findContradictions sampleEnv "P" (withLedger flipLedger)) = Ok cs
    /\ length (List.filter (directOn "X") cs) = 1.
Proof.
  destruct (direct_contradictions_multiply sampleEnv "P" (withLedger flipLedger) "X")
    as (cs & w' & Hrun & Hcount).
  - vm_compute. repeat constructor.
  - exists cs. rewrite Hrun. split; [reflexivity | exact Hcount].
Defined.

Lemma orderedPairs_in_order {A : Type} (f : A -> bool) (l : list A) (a b : A) :
  In (a, b) (orderedPairs (List.filter f l)) ->
  exists l1 l2 l3, l = l1 ++ a :: l2 ++ b :: l3.
Proof.
  induction l as [|x l IH]; simpl; [tauto|].
  assert (Hlater : In (a, b) (orderedPairs (List.filter f l)) ->
                   exists l1 l2 l3, x :: l = l1 ++ a :: l2 ++ b :: l3).
  { intros H. destruct (IH H) as (l1 & l2 & l3 & ->). exists (x :: l1), l2, l3. reflexivity. }
  destruct (f x); [|exact Hlater].
  simpl. rewrite in_app_iff, in_map_iff. intros [(y & [= <- <-] & Hy) | H]; [|exact (Hlater H)].
  apply filter_In in Hy as [Hy _]. apply in_split in Hy as (l2 & l3 & ->).
  exists [], l2, l3. reflexivity.
Qed.

(** A direct contradiction never pairs entries of different items: its
    two entries are on the same item, one approved and one rejected, and
    the first stands before the second in the ledger. *)
Theorem direct_contradiction_within_item
    (env : Oracles) (projectId : string) (w w' : World)
    (cs : list Contradiction) (c : Contradiction) :
  findContradictions env projectId w = (Ok cs, w') ->
  In c cs -> type c = direct ->
  itemId (entry1 c) = itemId (entry2 c)
  /\ approvedAndRejected (entry1 c, entry2 c)
  /\ exists l1 l2 l3,
       getFeedback projectId (store w) = l1 ++ entry1 c :: l2 ++ entry2 c :: l3.
Proof.
  intros Hrun Hin Hdirect.
  assert (Hon : In c (List.filter (directOn (itemId (entry1 c))) cs)).
  { apply filter_In. split; [exact Hin|]. unfold directOn, isDirect.
    rewrite Hdirect, String.eqb_refl. reflexivity. }
  apply (in_map contradicted) in Hon.
  rewrite (direct_pairs_on_item _ _ _ _ _ _ Hrun) in Hon.
  apply filter_In in Hon as [Hpair Hopp]. unfold contradicted in *.
  split; [|split].
  - assert (H2 : In (entry2 c) (entriesOn (itemId (entry1 c)) (getFeedback projectId (store w)))).
    { apply orderedPairs_positions in Hpair as (i & j & _ & _ & Hj).
      eapply nth_error_In. exact Hj. }
    apply filter_In in H2 as [_ H2]. apply String.eqb_eq in H2. congruence.
  - apply approvedAndRejectedb_spec. exact Hopp.
  - eapply orderedPairs_in_order. exact Hpair.
Qed.

Lemma direct_contradiction_within_item_witness :
  exists c,
    In c (match fst (findContradictions sampleEnv "P" (withLedger flipLedger)) with
          | Ok cs => cs
          | Throw _ => []
          end)
    /\ itemId (entry1 c) = itemId (entry2 c)
    /\ timestamp (entry1 c) = 1%Z /\ timestamp (entry2 c) = 3%Z.
Proof.
  eexists. split; [vm_compute; left; reflexivity|].
  split; [|split; reflexivity].
  eapply (direct_contradiction_within_item sampleEnv "P" (withLedger flipLedger)).
  - vm_compute. reflexivity.
  - left. reflexivity.
  - reflexivity.
Defined.

Lemma checkPair_tagged (feedback : list FeedbackEntry) (axis : Theme * Theme) (p : Pending) :
  In p (checkPair (tagThemes feedback) axis) ->
  pendingType p = thematic
  /\ mostRecent (fst axis) feedback (pendingEntry1 p)
  /\ mostRecent (snd axis) feedback (pendingEntry2 p).
Proof.
  destruct (checkPair_cases (tagThemes feedback) axis)
    as [(e1 & e2 & H1 & H2 & ->) | [_ ->]]; [|intros []].
  intros [<-|[]]. simpl. split; [reflexivity|].
  split; apply mostRecent_spec; assumption.
Qed.

(** Whatever the size of the ledger, the detector returns at most three
    thematic contradictions, and each of them is, for one of the three
    axes, between the most recent entry tagged under the first theme and
    the most recent entry tagged under the second: both carry a comment. *)
Theorem thematic_contradictions_at_most_three
    (env : Oracles) (projectId : string) (w w' : World) (cs : list Contradiction) :
  findContradictions env projectId w = (Ok cs, w') ->
  length (List.filter isThematic cs) <= 3
  /\ forall c,
       In c cs -> type c = thematic ->
       exists axis,
         In axis pairs
         /\ mostRecent (fst axis) (getFeedback projectId (store w)) (entry1 c)
         /\ mostRecent (snd axis) (getFeedback projectId (store w)) (entry2 c)
         /\ JS.truthy (comment (entry1 c)) = true
         /\ JS.truthy (comment (entry2 c)) = true.
Proof.
  intros Hrun. destruct (findContradictions_run _ _ _ _ _ Hrun) as (o & _ & _ & Hps & _).
  split.
  - assert (Hthem : map pending (List.filter isThematic cs)
                    = thematicContradictions (getFeedback projectId (store w))).
    { rewrite (List.filter_ext isThematic
                 (fun c => match pendingType (pending c) with
                           | direct => false
                           | thematic => true
                           end))
        by (intros c; unfold isThematic, isDirect; simpl; destruct (type c); reflexivity).
      rewrite (filter_pending
                 (fun p => match pendingType p with direct => false | thematic => true end)).
      rewrite Hps, List.filter_app, filter_none, filter_all; [reflexivity | |].
      - eapply Forall_impl; [apply thematicContradictions_thematic|]. intros p ->. reflexivity.
      - eapply Forall_impl; [apply directContradictions_direct|]. intros p ->. reflexivity. }
    rewrite <- (length_map pending), Hthem, thematicContradictions_axes, !length_app.
    pose proof (proj1 (emitted_length (getFeedback projectId (store w)) (shorter, longer))).
    pose proof (proj2 (emitted_length (getFeedback projectId (store w)) (shorter, longer))).
    assert (Hone : forall axis, length (emitted (getFeedback projectId (store w)) axis) <= 1).
    { intros axis. unfold emitted.
      destruct (checkPair_cases (tagThemes (getFeedback projectId (store w))) axis)
        as [(e1 & e2 & _ & _ & ->) | [_ ->]]; simpl; lia. }
    pose proof (Hone (shorter, longer)). pose proof (Hone (lighter, darker)).
    pose proof (Hone (grounded, absurd)). lia.
  - intros c Hin Hty.
    assert (Hp : In (pending c) (map pending cs)) by (apply in_map; exact Hin).
    rewrite Hps in Hp. apply in_app_or in Hp as [Hp|Hp].
    + pose proof (directContradictions_direct o) as Hd. rewrite Forall_forall in Hd.
      apply list_elem_of_In, Hd in Hp. simpl in Hp. congruence.
    + apply in_flat_map in Hp as (axis & Haxis & Hp).
      destruct (checkPair_tagged _ _ _ Hp) as (_ & H1 & H2). simpl in H1, H2.
      exists axis. repeat split; try assumption.
      * destruct H1 as (_ & _ & _ & (t & kw & Hc & Hne & _) & _). rewrite Hc. simpl.
        apply negb_true_iff, String.eqb_neq. exact Hne.
      * destruct H2 as (_ & _ & _ & (t & kw & Hc & Hne & _) & _). rewrite Hc. simpl.
        apply negb_true_iff, String.eqb_neq. exact Hne.
Qed.

Lemma thematic_contradictions_at_most_three_witness :
  exists cs,
    fst (findContradictions sampleEnv "P" (withLedger bothSidesLedger)) = Ok cs
    /\ length (List.filter isThematic cs) <= 3.
Proof.
  eexists. split; [vm_compute; reflexivity|].
  eapply (thematic_contradictions_at_most_three sampleEnv "P" (withLedger bothSidesLedger)).
  vm_compute. reflexivity.
Defined.

(** * Further properties of the store and the routes *)

Lemma getFullContext_throws (env : Oracles) (projectId : string) (w : World) :
  ~ plainKeys (getFeedback projectId (store w)) ->
  getFullContext env projectId w
  = (Throw (TypeError "byItem[e.itemId].push is not a function"), w).
Proof.
  intros Hnot. unfold getFullContext, findContradictions.
  destruct (groupByItem (getFeedback projectId (store w))) as [o|err] eqn:Hrun.
  - exfalso. apply Hnot. apply (groupByItem_returns _ _ Hrun).
  - rewrite (groupFrom_error _ _ _ Hrun). reflexivity.
Qed.

(** One entry on an item named after a member of [Object.prototype]
    blocks script generation for the project: the memory context cannot
    be compiled, so the batch route (when it has something to generate)
    and the single route (for any stored concept) answer with the
    [TypeError], before a request is sent and without a change. *)
Theorem inherited_key_blocks_generation
    (env : Oracles) (projectId : string) (w : World) :
  ~ plainKeys (getFeedback projectId (store w)) ->
  projectId <> "" ->
  getFullContext env projectId w
  = (Throw (TypeError "byItem[e.itemId].push is not a function"), w)
  /\ (toGenerate projectId (store w) <> [] ->
      scriptsBatch env projectId w
      = (ServerError (TypeError "byItem[e.itemId].push is not a function"), w))
  /\ (forall conceptId concept,
        conceptId <> "" ->
        List.find (fun c => String.eqb (Item.id c) conceptId)
          (getItems projectId concepts (store w)) = Some concept ->
        postScript env projectId conceptId w
        = (ScriptFailed (TypeError "byItem[e.itemId].push is not a function"), w)).
Proof.
  intros Hnot Hpid. pose proof (getFullContext_throws env projectId w Hnot) as Hctx.
  apply String.eqb_neq in Hpid.
  split; [exact Hctx|]. split.
  - intros Htodo. unfold scriptsBatch. rewrite Hpid.
    destruct (toGenerate projectId (store w)) as [|c rest]; [congruence|].
    simpl. unfold generate. rewrite Hctx. reflexivity.
  - intros conceptId concept Hid Hfind. apply String.eqb_neq in Hid.
    unfold postScript. rewrite Hpid, Hid, Hfind. simpl.
    unfold generate. rewrite Hctx. reflexivity.
Qed.

Lemma inherited_key_blocks_generation_witness :
  scriptsBatch sampleEnv "P" poisonedWorld
  = (ServerError (TypeError "byItem[e.itemId].push is not a function"), poisonedWorld)
  /\ postScript sampleEnv "P" "C" poisonedWorld
     = (ScriptFailed (TypeError "byItem[e.itemId].push is not a function"), poisonedWorld).
Proof.
  destruct (inherited_key_blocks_generation sampleEnv "P" poisonedWorld)
    as (_ & Hbatch & Hsingle).
  - intros H. vm_compute in H. inversion H as [|? ? Hkey _]. discriminate Hkey.
  - discriminate.
  - split.
    + apply Hbatch. vm_compute. discriminate.
    + apply (Hsingle "C" (sampleItem "C" "pending" None)); [discriminate | reflexivity].
Defined.

(** A batch that fails stores nothing, however many scripts it had
    already generated when a request failed. *)
Theorem failed_batch_stores_nothing
    (env : Oracles) (projectId : string) (w w1 : World) (err : Error) :
  scriptsBatch env projectId w = (ServerError err, w1) ->
  store w1 = store w
  /\ toGenerate projectId (store w1) = toGenerate projectId (store w)
  /\ toGenerate projectId (store w) <> [].
Proof.
  unfold scriptsBatch. destruct (String.eqb projectId ""); [discriminate|].
  destruct (length (toGenerate projectId (store w)) =? 0)%nat eqn:Elen; [discriminate|].
  pose proof (generateScripts_store env projectId (toGenerate projectId (store w)) w) as Hs.
  destruct (generateScripts env projectId (toGenerate projectId (store w)) w)
    as [[generated|e] w0].
  - destruct (addItems env projectId scripts generated w0). discriminate.
  - intros [= _ <-]. simpl in Hs. split; [exact Hs|]. split; [rewrite Hs; reflexivity|].
    intros E. rewrite E in Elen. discriminate.
Qed.

Lemma failed_batch_stores_nothing_witness :
  fst (scriptsBatch flakyEnv "P" (worldOf conceptStore)) = ServerError UpstreamError
  /\ store (snd (scriptsBatch flakyEnv "P" (worldOf conceptStore))) = conceptStore.
Proof.
  split; [reflexivity|].
  apply (failed_batch_stores_nothing flakyEnv "P" (worldOf conceptStore)
           (snd (scriptsBatch flakyEnv "P" (worldOf conceptStore))) UpstreamError).
  vm_compute. reflexivity.
Defined.

(** [addFeedback] writes the ledger and the pattern summary of its
    project and nothing else: the project index (and so [updatedAt]) and
    the item lists stay, and so do the ledgers and summaries of the other
    projects (identifiers that are plain parts of a file name). *)
Theorem addFeedback_touches_one_project
    (env : Oracles) (projectId : string) (entry : NewEntry) (w : World) :
  plainId projectId ->
  listProjects (store (snd (addFeedback env projectId entry w))) = listProjects (store w)
  /\ (forall q stg,
        getItems q stg (store (snd (addFeedback env projectId entry w)))
        = getItems q stg (store w))
  /\ forall other,
       plainId other ->
       other <> projectId ->
       getFeedback other (store (snd (addFeedback env projectId entry w)))
       = getFeedback other (store w)
       /\ getPatterns other (store (snd (addFeedback env projectId entry w)))
          = getPatterns other (store w).
Proof.
  intros _. rewrite addFeedback_store. simpl. split; [reflexivity|]. split; [reflexivity|].
  intros other _ Hne. unfold getFeedback, getPatterns. simpl.
  rewrite !lookup_insert_ne by congruence. split; reflexivity.
Qed.

Lemma addFeedback_touches_one_project_witness :
  getFeedback "Q"
    (store (snd (addFeedback sampleEnv "P" quietEntry
                   (worldOf (writeFeedback "Q" flipLedger conceptStore)))))
  = flipLedger
  /\ listProjects
       (store (snd (addFeedback sampleEnv "P" quietEntry
                      (worldOf (writeFeedback "Q" flipLedger conceptStore)))))
     = [sampleProject].
Proof.
  destruct (addFeedback_touches_one_project sampleEnv "P" quietEntry
              (worldOf (writeFeedback "Q" flipLedger conceptStore)))
    as (Hindex & _ & Hother).
  - repeat constructor.
  - split.
    + destruct (Hother "Q") as [Hledger _];
        [repeat constructor | discriminate | rewrite Hledger; reflexivity].
    + rewrite Hindex. reflexivity.
Defined.

Lemma withAction_snoc_other (a : string) (feedback : list FeedbackEntry) (e : FeedbackEntry) :
  action e <> a -> withAction a (feedback ++ [e]) = withAction a feedback.
Proof.
  intros Hne. unfold withAction. rewrite List.filter_app. simpl.
  apply String.eqb_neq in Hne. rewrite Hne. apply app_nil_r.
Qed.

(** An appended entry that is neither an approval nor a rejection, and
    either no revision or a revision whose comment is missing or blank,
    teaches nothing: the stored summary is the summary of the ledger as
    it was before the append. *)
Theorem quiet_entry_leaves_summary
    (env : Oracles) (projectId : string) (entry : NewEntry) (w : World) :
  givenAction entry <> "approved" ->
  givenAction entry <> "rejected" ->
  (givenAction entry <> "revision"
   \/ match givenComment entry with
      | Some c => blank c
      | None => True
      end) ->
  getPatterns projectId (store (snd (addFeedback env projectId entry w)))
  = summaryOf (getFeedback projectId (store w)).
Proof.
  intros Ha Hr Hquiet. rewrite addFeedback_patterns, addFeedback_ledger.
  destruct (addFeedback_stored env projectId entry w)
    as (_ & _ & _ & Hact & Hcom & _).
  set (e := fst (addFeedback env projectId entry w)) in *.
  unfold summaryOf. rewrite !withAction_snoc_other by congruence.
  f_equal. f_equal. rewrite List.filter_app. simpl.
  assert (Hno : carriesRule e = false).
  { unfold carriesRule. rewrite Hact, Hcom. destruct Hquiet as [Hv|Hb].
    - apply String.eqb_neq in Hv. rewrite Hv. reflexivity.
    - destruct (givenComment entry) as [c|]; [|apply andb_false_r].
      apply blankb_spec in Hb. rewrite Hb. apply andb_false_r. }
  rewrite Hno. apply app_nil_r.
Qed.

Lemma quiet_entry_leaves_summary_witness :
  getPatterns "P" (store (snd (addFeedback sampleEnv "P" quietEntry (withLedger flipLedger))))
  = summaryOf flipLedger.
Proof.
  apply (quiet_entry_leaves_summary sampleEnv "P" quietEntry (withLedger flipLedger)).
  - discriminate.
  - discriminate.
  - right. apply blankb_spec. reflexivity.
Defined.

Lemma actions_apart (feedback : list FeedbackEntry) :
  countAction "approved" feedback + countAction "rejected" feedback
  + countAction "revision" feedback <= length feedback.
Proof.
  induction feedback as [|f l IH]; [unfold countAction; simpl; lia|].
  rewrite !countAction_cons. simpl length.
  destruct (String.eqb (action f) "approved") eqn:Ea;
    destruct (String.eqb (action f) "rejected") eqn:Er;
    destruct (String.eqb (action f) "revision") eqn:Ev; try lia;
    repeat match goal with H : String.eqb _ _ = true |- _ => apply String.eqb_eq in H end;
    congruence.
Qed.

Lemma rules_are_revisions (feedback : list FeedbackEntry) :
  length (List.filter carriesRule feedback) <= countAction "revision" feedback.
Proof.
  unfold countAction. induction feedback as [|f l IH]; simpl; [lia|].
  unfold carriesRule at 1. destruct (String.eqb (action f) "revision"); simpl.
  - destruct (match comment f with Some c => negb (blankb c) | None => false end);
      simpl; lia.
  - exact IH.
Qed.

(** The context compiled right after an append is consistent with the
    ledger (when the detector returns on it): the approved and rejected
    patterns are as many as the approved and rejected entries, the rules
    are at most as many as the revisions, the three counts together do
    not exceed the total, and the total has grown by one. *)
Theorem context_after_append_is_consistent
    (env : Oracles) (projectId : string) (entry : NewEntry) (w : World) :
  plainKeys (getFeedback projectId (store (snd (addFeedback env projectId entry w)))) ->
  exists ctx w',
    getFullContext env projectId (snd (addFeedback env projectId entry w)) = (Ok ctx, w')
    /\ FullContext.totalFeedback (FullContext.summary ctx)
       = S (length (getFeedback projectId (store w)))
    /\ length (approved (FullContext.patterns ctx))
       = FullContext.approvedCount (FullContext.summary ctx)
    /\ length (rejected (FullContext.patterns ctx))
       = FullContext.rejectedCount (FullContext.summary ctx)
    /\ FullContext.learnedRules (FullContext.summary ctx)
       <= FullContext.revisionCount (FullContext.summary ctx)
    /\ FullContext.approvedCount (FullContext.summary ctx)
       + FullContext.rejectedCount (FullContext.summary ctx)
       + FullContext.revisionCount (FullContext.summary ctx)
       <= FullContext.totalFeedback (FullContext.summary ctx).
Proof.
  intros Hplain.
  destruct (findContradictions_returns env projectId _ Hplain) as (o & _ & Hrun).
  unfold getFullContext. rewrite Hrun. eexists _, _. split; [reflexivity|]. simpl.
  rewrite addFeedback_patterns.
  set (feedback := getFeedback projectId (store (snd (addFeedback env projectId entry w)))).
  split; [|split; [|split; [|split]]].
  - unfold feedback. rewrite addFeedback_ledger, length_app. simpl. lia.
  - simpl. rewrite length_map. reflexivity.
  - simpl. rewrite length_map. reflexivity.
  - simpl. rewrite length_map. apply rules_are_revisions.
  - apply actions_apart.
Qed.

Lemma context_after_append_is_consistent_witness :
  exists ctx,
    fst (getFullContext sampleEnv "P" (snd (addFeedback sampleEnv "P" approval (withLedger flipLedger))))
    = Ok ctx
    /\ FullContext.totalFeedback (FullContext.summary ctx) = 4
    /\ length (approved (FullContext.patterns ctx)) = 2.
Proof.
  destruct (context_after_append_is_consistent sampleEnv "P" approval (withLedger flipLedger))
    as (ctx & w' & Hrun & Htotal & Happroved & _).
  - vm_compute. repeat constructor.
  - exists ctx. rewrite Hrun. split; [reflexivity|]. split; [exact Htotal|].
    rewrite Happroved.
    change (FullContext.approvedCount (FullContext.summary ctx))
      with (FullContext.approvedCount
              (FullContext.summary
                 (match Ok ctx with Ok c => c | Throw _ => ctx end))).
    change (Ok ctx) with (fst (Ok ctx, w')). rewrite <- Hrun. reflexivity.
Defined.

(** ** Projects *)

Lemma find_snoc {A : Type} (f : A -> bool) (l : list A) (x : A) :
  List.find f (l ++ [x])
  = match List.find f l with
    | Some y => Some y
    | None => if f x then Some x else None
    end.
Proof.
  induction l as [|a l IH]; simpl; [reflexivity|].
  destruct (f a); [reflexivity | exact IH].
Qed.

(** [createProject] appends the project to the index under an identifier
    drawn from [uuid()] and writes its six documents empty.  Projects
    found before are found unchanged; the new one is found under its
    identifier when no earlier project has it; the documents of other
    identifiers stay as they were. *)
Theorem createProject_registers_empty_project
    (env : Oracles) (name : string) (brandData : Json) (w : World) :
  Project.id (fst (createProject env name brandData w)) = uuid env (drawn w)
  /\ Project.name (fst (createProject env name brandData w)) = name
  /\ listProjects (store (snd (createProject env name brandData w)))
     = listProjects (store w) ++ [fst (createProject env name brandData w)]
  /\ (forall stg,
        getItems (uuid env (drawn w)) stg (store (snd (createProject env name brandData w)))
        = [])
  /\ getFeedback (uuid env (drawn w)) (store (snd (createProject env name brandData w))) = []
  /\ getPatterns (uuid env (drawn w)) (store (snd (createProject env name brandData w)))
     = emptyPatterns
  /\ (forall q p,
        getProject q (store w) = Some p ->
        getProject q (store (snd (createProject env name brandData w))) = Some p)
  /\ (getProject (uuid env (drawn w)) (store w) = None ->
      getProject (uuid env (drawn w)) (store (snd (createProject env name brandData w)))
      = Some (fst (createProject env name brandData w)))
  /\ (forall q,
        q <> uuid env (drawn w) ->
        (forall stg,
           getItems q stg (store (snd (createProject env name brandData w)))
           = getItems q stg (store w))
        /\ getFeedback q (store (snd (createProject env name brandData w)))
           = getFeedback q (store w)
        /\ getPatterns q (store (snd (createProject env name brandData w)))
           = getPatterns q (store w)).
Proof.
  unfold createProject, getProject, listProjects, getItems, getFeedback, getPatterns. simpl.
  split; [reflexivity|]. split; [reflexivity|]. split; [reflexivity|].
  split; [|split; [|split; [|split; [|split]]]].
  - intros []; simpl;
      repeat first [ rewrite lookup_insert_eq; reflexivity
                   | rewrite lookup_insert_ne by discriminate ].
  - rewrite lookup_insert_eq. reflexivity.
  - rewrite lookup_insert_eq. reflexivity.
  - intros q p Hq. rewrite find_snoc, Hq. reflexivity.
  - intros Hq. rewrite find_snoc, Hq. simpl. rewrite String.eqb_refl. reflexivity.
  - intros q Hq. split; [|split].
    + intros stg. rewrite !lookup_insert_ne by congruence. reflexivity.
    + rewrite lookup_insert_ne by congruence. reflexivity.
    + rewrite lookup_insert_ne by congruence. reflexivity.
Qed.

Lemma createProject_registers_empty_project_witness :
  getProject "uuid-" (store (snd (createProject sampleEnv "New" "{}" (worldOf conceptStore))))
  = Some (Project.mk "uuid-" "New" "{}" 1000 1001)
  /\ getProject "P" (store (snd (createProject sampleEnv "New" "{}" (worldOf conceptStore))))
     = Some sampleProject
  /\ length (getItems "P" concepts
               (store (snd (createProject sampleEnv "New" "{}" (worldOf conceptStore)))))
     = 3.
Proof.
  destruct (createProject_registers_empty_project sampleEnv "New" "{}" (worldOf conceptStore))
    as (_ & _ & _ & _ & _ & _ & Hold & Hnew & Hother).
  split; [|split].
  - exact (Hnew eq_refl).
  - apply Hold. reflexivity.
  - destruct (Hother "P") as [Hitems _]; [discriminate|].
    rewrite (Hitems concepts). reflexivity.
Defined.

(** ** Item updates *)

Lemma findIndex_first {A : Type} (f : A -> bool) (before after : list A) (x : A) :
  Forall (fun y => f y = false) before -> f x = true ->
  findIndex f (before ++ x :: after) = Some (length before)
  /\ List.find f (before ++ x :: after) = Some x.
Proof.
  induction 1 as [|y l Hy _ IH]; intros Hx; simpl.
  - rewrite Hx. split; reflexivity.
  - rewrite Hy. destruct (IH Hx) as [-> ->]. split; reflexivity.
Qed.

Lemma findIndex_none {A : Type} (f : A -> bool) (l : list A) :
  Forall (fun y => f y = false) l -> findIndex f l = None /\ List.find f l = None.
Proof.
  induction 1 as [|y l Hy _ [IH1 IH2]]; simpl; [split; reflexivity|].
  rewrite Hy, IH1, IH2. split; reflexivity.
Qed.

Lemma alter_first {A : Type} (g : A -> A) (before after : list A) (x : A) :
  alter g (length before) (before ++ x :: after) = before ++ g x :: after.
Proof. induction before as [|y l IH]; simpl; [reflexivity | f_equal; exact IH]. Qed.

Lemma firstMatch_found (itemId : string) (items before after : list Item.t) (item : Item.t) :
  firstMatch itemId items before item after ->
  findIndex (fun i => String.eqb (Item.id i) itemId) items = Some (length before)
  /\ List.find (fun i => String.eqb (Item.id i) itemId) items = Some item.
Proof.
  intros (-> & Hid & Hbefore). apply findIndex_first.
  - eapply Forall_impl; [exact Hbefore|]. intros i Hi. apply String.eqb_neq. exact Hi.
  - apply String.eqb_eq. exact Hid.
Qed.

Lemma find_firstMatch (itemId : string) (items : list Item.t) (item : Item.t) :
  List.find (fun i => String.eqb (Item.id i) itemId) items = Some item ->
  exists before after, firstMatch itemId items before item after.
Proof.
  induction items as [|x l IH]; simpl; [discriminate|].
  destruct (String.eqb (Item.id x) itemId) eqn:E.
  - intros [= <-]. exists [], l. repeat split; [apply String.eqb_eq; exact E | constructor].
  - intros H. destruct (IH H) as (before & after & -> & Hid & Hbefore).
    exists (x :: before), after. repeat split; [exact Hid|].
    constructor; [apply String.eqb_neq; exact E | exact Hbefore].
Qed.

Lemma updateItem_run (env : Oracles) (projectId : string) (stg : Stage) (itemId : string)
    (updates : Updates) (w : World) (before after : list Item.t) (item : Item.t) :
  firstMatch itemId (getItems projectId stg (store w)) before item after ->
  updateItem env projectId stg itemId updates w
  = (Some (applyUpdates updates (now env (ticks w)) item),
     setItems env projectId stg
       (before ++ applyUpdates updates (now env (ticks w)) item :: after)
       {| store := store w; drawn := drawn w; ticks := S (ticks w); calls := calls w |}).
Proof.
  intros Hm. destruct (firstMatch_found _ _ _ _ _ Hm) as [Hidx _].
  unfold updateItem. rewrite Hidx. destruct Hm as (-> & _ & _).
  rewrite alter_first, list_lookup_middle by reflexivity. reflexivity.
Qed.

(** [updateItem] changes the first item with the identifier, and only
    its updated fields and [updatedAt]: it returns the item it stored,
    the items before and after stay, and so do the identifiers and their
    order.  When no item has the identifier it returns nothing and
    changes nothing, not even the clock. *)
Theorem updateItem_changes_first_match
    (env : Oracles) (projectId : string) (stg : Stage) (itemId : string)
    (updates : Updates) (w : World) :
  (Forall (fun i => Item.id i <> itemId) (getItems projectId stg (store w)) ->
   updateItem env projectId stg itemId updates w = (None, w))
  /\ (forall before item after,
        firstMatch itemId (getItems projectId stg (store w)) before item after ->
        exists stored,
          fst (updateItem env projectId stg itemId updates w) = Some stored
          /\ stored = applyUpdates updates (now env (ticks w)) item
          /\ Item.id stored = itemId
          /\ Item.updatedAt stored = Some (now env (ticks w))
          /\ Item.status stored = default (Item.status item) (newStatus updates)
          /\ getItems projectId stg
               (store (snd (updateItem env projectId stg itemId updates w)))
             = before ++ stored :: after
          /\ map Item.id
               (getItems projectId stg
                  (store (snd (updateItem env projectId stg itemId updates w))))
             = map Item.id (getItems projectId stg (store w))).
Proof.
  split.
  - intros Hnone. unfold updateItem.
    destruct (findIndex_none (fun i => String.eqb (Item.id i) itemId)
                (getItems projectId stg (store w))) as [-> _]; [|reflexivity].
    eapply Forall_impl; [exact Hnone|]. intros i Hi. apply String.eqb_neq. exact Hi.
  - intros before item after Hm. rewrite (updateItem_run _ _ _ _ _ _ _ _ _ Hm).
    destruct Hm as (Hitems & Hid & _). eexists. split; [reflexivity|].
    split; [reflexivity|]. split; [exact Hid|]. split; [reflexivity|].
    split; [reflexivity|]. simpl. rewrite getItems_setItems. split; [reflexivity|].
    rewrite Hitems, !map_app. reflexivity.
Qed.

Lemma updateItem_changes_first_match_witness :
  map Item.status
    (getItems "P" concepts
       (store (snd (updateItem sampleEnv "P" concepts "B"
                      {| newStatus := Some "rejected"; newComments := None |}
                      (worldOf conceptStore)))))
  = ["approved"; "rejected"; "pending"]
  /\ updateItem sampleEnv "P" concepts "Z"
       {| newStatus := Some "rejected"; newComments := None |} (worldOf conceptStore)
     = (None, worldOf conceptStore).
Proof.
  destruct (updateItem_changes_first_match sampleEnv "P" concepts "B"
              {| newStatus := Some "rejected"; newComments := None |} (worldOf conceptStore))
    as [_ Hfound].
  destruct (updateItem_changes_first_match sampleEnv "P" concepts "Z"
              {| newStatus := Some "rejected"; newComments := None |} (worldOf conceptStore))
    as [Hmissing _].
  split.
  - destruct (Hfound [sampleItem "A" "approved" None] (sampleItem "B" "approved" None)
                [sampleItem "C" "pending" None])
      as (stored & _ & -> & _ & _ & _ & -> & _).
    + repeat split. repeat constructor; discriminate.
    + reflexivity.
  - apply Hmissing. vm_compute. repeat constructor; discriminate.
Defined.

(** ** The feedback routes *)

Lemma postStatus_found (env : Oracles) (projectId : string) (stg : Stage) (itemId : string)
    (status : string) (comment : option string) (w : World) (item : Item.t) :
  validStatus status = true ->
  List.find (fun i => String.eqb (Item.id i) itemId) (getItems projectId stg (store w))
  = Some item ->
  postStatus env projectId stg itemId status comment w
  = (Updated
       (fst (updateItem env projectId stg itemId
               (fst (statusUpdates env item status comment w))
               (snd (statusUpdates env item status comment w)))),
     snd (addFeedback env projectId (statusEntry stg itemId item status comment)
            (snd (updateItem env projectId stg itemId
                    (fst (statusUpdates env item status comment w))
                    (snd (statusUpdates env item status comment w)))))).
Proof.
  intros Hvalid Hfind. unfold postStatus, statusUpdates, statusEntry.
  rewrite Hvalid, Hfind. cbn [negb].
  destruct (JS.truthy comment); cbn [userNote fst snd];
    match goal with
    | |- context [updateItem env projectId stg itemId ?u ?w0] =>
        destruct (updateItem env projectId stg itemId u w0) as [updated w1]
    end; cbn [fst snd];
    match goal with
    | |- context [addFeedback env projectId ?e ?w0] =>
        destruct (addFeedback env projectId e w0) as [stored w2]
    end; reflexivity.
Qed.

Lemma postComment_found (env : Oracles) (projectId : string) (stg : Stage) (itemId : string)
    (text : string) (w : World) (item : Item.t) :
  blankb text = false ->
  List.find (fun i => String.eqb (Item.id i) itemId) (getItems projectId stg (store w))
  = Some item ->
  postComment env projectId stg itemId (Some text) w
  = (Updated
       (fst (updateItem env projectId stg itemId (commentUpdates env item text w)
               (snd (userNote env text w)))),
     snd (addFeedback env projectId (commentEntry stg itemId item text)
            (snd (updateItem env projectId stg itemId (commentUpdates env item text w)
                    (snd (userNote env text w)))))).
Proof.
  intros Hblank Hfind. unfold postComment, commentUpdates, commentEntry.
  rewrite trim_empty_iff_blank, Hblank, Hfind. cbn [userNote fst snd].
  match goal with
  | |- context [updateItem env projectId stg itemId ?u ?w0] =>
      destruct (updateItem env projectId stg itemId u w0) as [updated w1]
  end; cbn [fst snd];
  match goal with
  | |- context [addFeedback env projectId ?e ?w0] =>
      destruct (addFeedback env projectId e w0) as [stored w2]
  end; reflexivity.
Qed.

(** The feedback routes check before they write: an invalid status, an
    unknown item, and a missing or blank comment are refused, with 400 or
    404, and nothing is changed, drawn or read. *)
Theorem feedback_routes_refuse_without_change
    (env : Oracles) (projectId : string) (stg : Stage) (itemId : string) (w : World) :
  (forall status comment,
     ~ In status ["pending"; "approved"; "rejected"; "revision"] ->
     postStatus env projectId stg itemId status comment w = (Refused 400 "Invalid status", w))
  /\ (forall status comment,
        In status ["pending"; "approved"; "rejected"; "revision"] ->
        Forall (fun i => Item.id i <> itemId) (getItems projectId stg (store w)) ->
        postStatus env projectId stg itemId status comment w
        = (Refused 404 "Item not found", w))
  /\ postComment env projectId stg itemId None w = (Refused 400 "Comment required", w)
  /\ (forall text,
        blank text ->
        postComment env projectId stg itemId (Some text) w
        = (Refused 400 "Comment required", w))
  /\ (forall text,
        ~ blank text ->
        Forall (fun i => Item.id i <> itemId) (getItems projectId stg (store w)) ->
        postComment env projectId stg itemId (Some text) w
        = (Refused 404 "Item not found", w)).
Proof.
  assert (Hvalid : forall status,
            validStatus status = true
            <-> In status ["pending"; "approved"; "rejected"; "revision"]).
  { intros status. unfold validStatus. rewrite existsb_exists. split.
    - intros (x & Hx & E). apply String.eqb_eq in E. subst x. exact Hx.
    - intros H. exists status. split; [exact H | apply String.eqb_refl]. }
  assert (Hnone : Forall (fun i => Item.id i <> itemId) (getItems projectId stg (store w)) ->
                  List.find (fun i => String.eqb (Item.id i) itemId)
                    (getItems projectId stg (store w)) = None).
  { intros H. apply findIndex_none. eapply Forall_impl; [exact H|].
    intros i Hi. apply String.eqb_neq. exact Hi. }
  split; [|split; [|split; [|split]]].
  - intros status comment Hnot. unfold postStatus.
    destruct (validStatus status) eqn:E; [|reflexivity].
    exfalso. apply Hnot, Hvalid. exact E.
  - intros status comment Hin Hmissing. unfold postStatus.
    rewrite (proj2 (Hvalid status) Hin), (Hnone Hmissing). reflexivity.
  - reflexivity.
  - intros text Hblank. unfold postComment.
    rewrite trim_empty_iff_blank, (proj2 (blankb_spec text) Hblank). reflexivity.
  - intros text Hblank Hmissing. unfold postComment. rewrite trim_empty_iff_blank.
    destruct (blankb text) eqn:E; [exfalso; apply Hblank, blankb_spec; exact E|].
    rewrite (Hnone Hmissing). reflexivity.
Qed.

Lemma feedback_routes_refuse_without_change_witness :
  postStatus sampleEnv "P" concepts "A" "done" None (worldOf reviewStore)
  = (Refused 400 "Invalid status", worldOf reviewStore)
  /\ postStatus sampleEnv "P" concepts "Z" "approved" None (worldOf reviewStore)
     = (Refused 404 "Item not found", worldOf reviewStore)
  /\ postComment sampleEnv "P" concepts "A" (Some (JS.utf8 160 ++ " ")%string)
       (worldOf reviewStore)
     = (Refused 400 "Comment required", worldOf reviewStore).
Proof.
  destruct (feedback_routes_refuse_without_change sampleEnv "P" concepts "A"
              (worldOf reviewStore)) as (Hstatus & _ & _ & Hblank & _).
  destruct (feedback_routes_refuse_without_change sampleEnv "P" concepts "Z"
              (worldOf reviewStore)) as (_ & Hmissing & _).
  split; [|split].
  - apply Hstatus. simpl. intuition discriminate.
  - apply Hmissing; [simpl; tauto|]. vm_compute. repeat constructor; discriminate.
  - apply Hblank, blankb_spec. reflexivity.
Defined.

Lemma addFeedback_items (env : Oracles) (projectId : string) (entry : NewEntry) (w : World)
    (q : string) (stg : Stage) :
  getItems q stg (store (snd (addFeedback env projectId entry w))) = getItems q stg (store w).
Proof. rewrite addFeedback_store. reflexivity. Qed.

Lemma setItems_feedback (env : Oracles) (projectId : string) (stg : Stage)
    (items : list Item.t) (w : World) (q : string) :
  getFeedback q (store (setItems env projectId stg items w)) = getFeedback q (store w).
Proof.
  unfold getFeedback. destruct (setItems_other_docs env projectId stg items w) as [-> _].
  reflexivity.
Qed.

Lemma statusUpdates_store (env : Oracles) (item : Item.t) (status : string)
    (comment : option string) (w : World) :
  store (snd (statusUpdates env item status comment w)) = store w
  /\ newStatus (fst (statusUpdates env item status comment w)) = Some status.
Proof. unfold statusUpdates. destruct (JS.truthy comment); split; reflexivity. Qed.

(** What a status change that goes through does. *)
Lemma postStatus_effect (env : Oracles) (projectId : string) (stg : Stage) (itemId : string)
    (status : string) (comment : option string) (w : World)
    (before after : list Item.t) (item : Item.t) :
  validStatus status = true ->
  firstMatch itemId (getItems projectId stg (store w)) before item after ->
  exists stored entry w',
    postStatus env projectId stg itemId status comment w = (Updated (Some stored), w')
    /\ stored
       = applyUpdates (fst (statusUpdates env item status comment w))
           (now env (ticks (snd (statusUpdates env item status comment w)))) item
    /\ getItems projectId stg (store w') = before ++ stored :: after
    /\ getFeedback projectId (store w') = getFeedback projectId (store w) ++ [entry]
    /\ storedFor env (statusEntry stg itemId item status comment) entry
    /\ getPatterns projectId (store w') = summaryOf (getFeedback projectId (store w')).
Proof.
  intros Hvalid Hm. destruct (firstMatch_found _ _ _ _ _ Hm) as [_ Hfind].
  rewrite (postStatus_found _ _ _ _ _ _ _ _ Hvalid Hfind).
  destruct (statusUpdates_store env item status comment w) as [Hstore _].
  assert (Hm' : firstMatch itemId
                  (getItems projectId stg (store (snd (statusUpdates env item status comment w))))
                  before item after) by (rewrite Hstore; exact Hm).
  rewrite (updateItem_run _ _ _ _ _ _ _ _ _ Hm'). cbn [fst snd].
  match goal with |- context [addFeedback env projectId ?e ?w0] => set (w1 := w0) end.
  exists (applyUpdates (fst (statusUpdates env item status comment w))
            (now env (ticks (snd (statusUpdates env item status comment w)))) item),
         (fst (addFeedback env projectId (statusEntry stg itemId item status comment) w1)),
         (snd (addFeedback env projectId (statusEntry stg itemId item status comment) w1)).
  split; [reflexivity|]. split; [reflexivity|].
  split; [rewrite addFeedback_items; apply getItems_setItems|].
  split; [rewrite addFeedback_ledger; f_equal; unfold w1; rewrite setItems_feedback;
          cbn [store]; rewrite Hstore; reflexivity|].
  split; [apply addFeedback_stored | apply addFeedback_patterns].
Qed.

Lemma validStatus_spec (status : string) :
  validStatus status = true <-> In status ["pending"; "approved"; "rejected"; "revision"].
Proof.
  unfold validStatus. rewrite existsb_exists. split.
  - intros (x & Hx & E). apply String.eqb_eq in E. subst x. exact Hx.
  - intros H. exists status. split; [exact H | apply String.eqb_refl].
Qed.

(** A status change on a stored item sets the status of the first item
    with that identifier, appends the comment, if one was given, to its
    comments, and records exactly one feedback entry: on that item, under
    the item's title, with the action of the same name as the status
    ("commented" for a reset to pending) and the comment only when one
    was given.  The pattern summary is brought in line with the ledger. *)
Theorem postStatus_records_the_decision
    (env : Oracles) (projectId : string) (stg : Stage) (itemId_ : string)
    (status : string) (comment_ : option string) (w : World)
    (before after : list Item.t) (item : Item.t) :
  In status ["pending"; "approved"; "rejected"; "revision"] ->
  firstMatch itemId_ (getItems projectId stg (store w)) before item after ->
  exists stored entry w',
    postStatus env projectId stg itemId_ status comment_ w = (Updated (Some stored), w')
    /\ Item.id stored = itemId_ /\ Item.status stored = status
    /\ Item.title stored = Item.title item
    /\ (JS.truthy comment_ = false -> Item.comments stored = Item.comments item)
    /\ (forall text,
          comment_ = Some text -> text <> "" ->
          exists note,
            Item.comments stored = Item.comments item ++ [note]
            /\ Item.text note = text /\ Item.author note = "user")
    /\ getItems projectId stg (store w') = before ++ stored :: after
    /\ getFeedback projectId (store w') = getFeedback projectId (store w) ++ [entry]
    /\ itemId entry = itemId_
    /\ itemTitle entry = Item.title item
    /\ stage entry = stageName stg
    /\ action entry = (if String.eqb status "pending" then "commented" else status)
    /\ comment entry = (if JS.truthy comment_ then comment_ else None)
    /\ getPatterns projectId (store w') = summaryOf (getFeedback projectId (store w')).
Proof.
  intros Hin Hm.
  destruct (postStatus_effect env projectId stg itemId_ status comment_ w before after item
              (proj2 (validStatus_spec status) Hin) Hm)
    as (stored & entry & w' & Hrun & Hstored & Hitems & Hledger & Hentry & Hpatterns).
  exists stored, entry, w'. split; [exact Hrun|].
  destruct Hm as (_ & Hid & _).
  destruct Hentry as (He1 & He2 & He3 & He4 & He5 & _).
  simpl in He1, He2, He3, He4, He5.
  assert (Hcomments : Item.comments stored
                      = default (Item.comments item)
                          (newComments (fst (statusUpdates env item status comment_ w)))).
  { rewrite Hstored. reflexivity. }
  split; [rewrite Hstored; exact Hid|].
  split; [rewrite Hstored; simpl;
          rewrite (proj2 (statusUpdates_store env item status comment_ w)); reflexivity|].
  split; [rewrite Hstored; reflexivity|].
  split; [intros Hno; rewrite Hcomments; unfold statusUpdates; rewrite Hno; reflexivity|].
  split.
  { intros text -> Hne. rewrite Hcomments. unfold statusUpdates.
    assert (Ht : JS.truthy (Some text) = true)
      by (simpl; apply negb_true_iff, String.eqb_neq; exact Hne).
    rewrite Ht. eexists. split; [reflexivity|]. split; reflexivity. }
  split; [exact Hitems|]. split; [exact Hledger|]. split; [exact He1|].
  split; [exact He2|]. split; [exact He3|]. split; [|split; [exact He5 | exact Hpatterns]].
  rewrite He4. unfold actionOf. simpl in Hin.
  destruct Hin as [<-|[<-|[<-|[<-|[]]]]]; reflexivity.
Qed.

Lemma postStatus_records_the_decision_witness :
  map Item.status
    (getItems "P" concepts
       (store (snd (postStatus sampleEnv "P" concepts "A" "approved" (Some "love it")
                      (worldOf reviewStore)))))
  = ["approved"]
  /\ map action
       (getFeedback "P"
          (store (snd (postStatus sampleEnv "P" concepts "A" "approved" (Some "love it")
                         (worldOf reviewStore)))))
     = ["approved"].
Proof.
  destruct (postStatus_records_the_decision sampleEnv "P" concepts "A" "approved"
              (Some "love it") (worldOf reviewStore) [] [] (sampleItem "A" "pending" None))
    as (stored & entry & w' & Hrun & _ & Hstatus & _ & _ & _ & Hitems & Hledger
        & _ & _ & _ & Haction & _).
  - simpl. tauto.
  - repeat split. constructor.
  - rewrite Hrun. cbn [snd]. rewrite Hitems, Hledger. split.
    + cbn [map app]. rewrite Hstatus. reflexivity.
    + rewrite map_app. cbn [map]. rewrite Haction. reflexivity.
Defined.

(** What a comment that goes through does. *)
Lemma postComment_effect (env : Oracles) (projectId : string) (stg : Stage) (itemId : string)
    (text : string) (w : World) (before after : list Item.t) (item : Item.t) :
  blankb text = false ->
  firstMatch itemId (getItems projectId stg (store w)) before item after ->
  exists stored entry w',
    postComment env projectId stg itemId (Some text) w = (Updated (Some stored), w')
    /\ stored
       = applyUpdates (commentUpdates env item text w)
           (now env (ticks (snd (userNote env text w)))) item
    /\ getItems projectId stg (store w') = before ++ stored :: after
    /\ getFeedback projectId (store w') = getFeedback projectId (store w) ++ [entry]
    /\ storedFor env (commentEntry stg itemId item text) entry
    /\ getPatterns projectId (store w') = summaryOf (getFeedback projectId (store w')).
Proof.
  intros Hblank Hm. destruct (firstMatch_found _ _ _ _ _ Hm) as [_ Hfind].
  rewrite (postComment_found _ _ _ _ _ _ _ Hblank Hfind).
  assert (Hm' : firstMatch itemId
                  (getItems projectId stg (store (snd (userNote env text w))))
                  before item after) by exact Hm.
  rewrite (updateItem_run _ _ _ _ _ _ _ _ _ Hm'). cbn [fst snd].
  match goal with |- context [addFeedback env projectId ?e ?w0] => set (w1 := w0) end.
  exists (applyUpdates (commentUpdates env item text w)
            (now env (ticks (snd (userNote env text w)))) item),
         (fst (addFeedback env projectId (commentEntry stg itemId item text) w1)),
         (snd (addFeedback env projectId (commentEntry stg itemId item text) w1)).
  split; [reflexivity|]. split; [reflexivity|].
  split; [rewrite addFeedback_items; apply getItems_setItems|].
  split; [rewrite addFeedback_ledger; f_equal; unfold w1; rewrite setItems_feedback;
          reflexivity|].
  split; [apply addFeedback_stored | apply addFeedback_patterns].
Qed.

(** A comment on a stored item leaves the item's status as it is, appends
    one note by the user with the text as given (not trimmed) to the
    comments of the first item with that identifier, and records exactly
    one feedback entry, with the action "commented" and the same text. *)
Theorem postComment_records_the_comment
    (env : Oracles) (projectId : string) (stg : Stage) (itemId_ : string)
    (text : string) (w : World) (before after : list Item.t) (item : Item.t) :
  ~ blank text ->
  firstMatch itemId_ (getItems projectId stg (store w)) before item after ->
  exists stored note entry w',
    postComment env projectId stg itemId_ (Some text) w = (Updated (Some stored), w')
    /\ Item.id stored = itemId_ /\ Item.status stored = Item.status item
    /\ Item.comments stored = Item.comments item ++ [note]
    /\ Item.text note = text /\ Item.author note = "user"
    /\ getItems projectId stg (store w') = before ++ stored :: after
    /\ getFeedback projectId (store w') = getFeedback projectId (store w) ++ [entry]
    /\ itemId entry = itemId_
    /\ itemTitle entry = Item.title item
    /\ stage entry = stageName stg
    /\ action entry = "commented"
    /\ comment entry = Some text
    /\ getPatterns projectId (store w') = summaryOf (getFeedback projectId (store w')).
Proof.
  intros Hblank Hm.
  assert (Hb : blankb text = false).
  { destruct (blankb text) eqn:E; [|reflexivity]. exfalso. apply Hblank, blankb_spec, E. }
  destruct (postComment_effect env projectId stg itemId_ text w before after item Hb Hm)
    as (stored & entry & w' & Hrun & Hstored & Hitems & Hledger & Hentry & Hpatterns).
  exists stored, (fst (userNote env text w)), entry, w'. split; [exact Hrun|].
  destruct Hm as (_ & Hid & _).
  destruct Hentry as (He1 & He2 & He3 & He4 & He5 & _).
  subst stored. repeat split; try assumption; reflexivity.
Qed.

Lemma postComment_records_the_comment_witness :
  map Item.status
    (getItems "P" concepts
       (store (snd (postComment sampleEnv "P" concepts "A" (Some " punchier ")
                      (worldOf reviewStore)))))
  = ["pending"]
  /\ map comment
       (getFeedback "P"
          (store (snd (postComment sampleEnv "P" concepts "A" (Some " punchier ")
                         (worldOf reviewStore)))))
     = [Some " punchier "].
Proof.
  destruct (postComment_records_the_comment sampleEnv "P" concepts "A" " punchier "
              (worldOf reviewStore) [] [] (sampleItem "A" "pending" None))
    as (stored & note & entry & w' & Hrun & _ & Hstatus & _ & _ & _ & Hitems & Hledger
        & _ & _ & _ & _ & Hcomment & _).
  - intros Hb. apply blankb_spec in Hb. discriminate Hb.
  - repeat split. constructor.
  - rewrite Hrun. cbn [snd]. rewrite Hitems, Hledger. split.
    + cbn [map app]. rewrite Hstatus. reflexivity.
    + rewrite map_app. cbn [map]. rewrite Hcomment. reflexivity.
Defined.

Lemma orderedPairs_last_two {A : Type} (l : list A) (a b : A) :
  In (a, b) (orderedPairs (l ++ [a; b])).
Proof.
  induction l as [|x l IH]; simpl; [left; reflexivity|].
  apply in_app_iff. right. exact IH.
Qed.

Lemma actionOf_decisions (s1 s2 : string) :
  (s1 = "approved" /\ s2 = "rejected") \/ (s1 = "rejected" /\ s2 = "approved") ->
  validStatus s1 = true /\ validStatus s2 = true
  /\ actionOf s1 = s1 /\ actionOf s2 = s2.
Proof. intros [[-> ->]|[-> ->]]; repeat split; reflexivity. Qed.

(** A reversal made through the status route is found by the detector.
    When an item is approved and then rejected (or rejected and then
    approved) by two status changes, the ledger grows by the two entries
    and the detector, run afterwards, returns a direct contradiction
    between exactly these two, whatever comments went with them and
    whatever the ledger held before, provided no item identifier in it,
    nor the item's own, is a member of [Object.prototype]. *)
Theorem reversal_through_status_route_is_detected
    (env : Oracles) (projectId : string) (stg : Stage) (itemId : string)
    (s1 s2 : string) (c1 c2 : option string) (w : World)
    (before after : list Item.t) (item : Item.t) :
  (s1 = "approved" /\ s2 = "rejected") \/ (s1 = "rejected" /\ s2 = "approved") ->
  firstMatch itemId (getItems projectId stg (store w)) before item after ->
  JS.inherited itemId = false ->
  plainKeys (getFeedback projectId (store w)) ->
  exists w1 w2 e1 e2 found w3 c,
    snd (postStatus env projectId stg itemId s1 c1 w) = w1
    /\ snd (postStatus env projectId stg itemId s2 c2 w1) = w2
    /\ getFeedback projectId (store w2) = getFeedback projectId (store w) ++ [e1; e2]
    /\ action e1 = s1 /\ action e2 = s2
    /\ findContradictions env projectId w2 = (Ok found, w3)
    /\ In c found
    /\ type c = direct /\ entry1 c = e1 /\ entry2 c = e2.
Proof.
  intros Hdec Hm Hitem Hplain.
  destruct (actionOf_decisions s1 s2 Hdec) as (Hv1 & Hv2 & Ha1 & Ha2).
  destruct (postStatus_effect env projectId stg itemId s1 c1 w before after item Hv1 Hm)
    as (stored1 & e1 & w1 & Hrun1 & Hstored1 & Hitems1 & Hledger1 & Hentry1 & _).
  assert (Hm1 : firstMatch itemId (getItems projectId stg (store w1)) before stored1 after).
  { destruct Hm as (_ & Hid & Hbefore). split; [exact Hitems1|].
    split; [rewrite Hstored1; exact Hid | exact Hbefore]. }
  destruct (postStatus_effect env projectId stg itemId s2 c2 w1 before after stored1 Hv2 Hm1)
    as (stored2 & e2 & w2 & Hrun2 & _ & _ & Hledger2 & Hentry2 & _).
  destruct Hentry1 as (Hid1 & _ & _ & Hact1 & _).
  destruct Hentry2 as (Hid2 & _ & _ & Hact2 & _).
  simpl in Hid1, Hid2, Hact1, Hact2. rewrite Ha1 in Hact1. rewrite Ha2 in Hact2.
  assert (Hledger : getFeedback projectId (store w2)
                    = getFeedback projectId (store w) ++ [e1; e2]).
  { rewrite Hledger2, Hledger1, <- app_assoc. reflexivity. }
  assert (Hplain2 : plainKeys (getFeedback projectId (store w2))).
  { rewrite Hledger. unfold plainKeys. apply Forall_app. split; [exact Hplain|].
    repeat constructor; [rewrite Hid1 | rewrite Hid2]; exact Hitem. }
  destruct (findContradictions_returns env projectId w2 Hplain2) as (o & _ & Hfound).
  pose proof (direct_pairs_on_item env projectId w2 _ _ itemId Hfound) as Hpairs.
  assert (Hin : In (e1, e2)
                  (List.filter approvedAndRejectedb
                     (orderedPairs (entriesOn itemId (getFeedback projectId (store w2)))))).
  { apply filter_In. split.
    - rewrite Hledger. unfold entriesOn. rewrite List.filter_app. simpl.
      rewrite Hid1, Hid2, String.eqb_refl. apply orderedPairs_last_two.
    - apply approvedAndRejectedb_spec. unfold approvedAndRejected. simpl.
      rewrite Hact1, Hact2. exact Hdec. }
  rewrite <- Hpairs in Hin. apply in_map_iff in Hin as (c & Hc & Hcin).
  apply filter_In in Hcin as [Hcin Hdirect].
  unfold directOn in Hdirect. apply andb_true_iff in Hdirect as [Hdirect _].
  unfold isDirect in Hdirect. injection Hc as Hc1 Hc2.
  eexists w1, w2, e1, e2, _, _, c.
  split; [rewrite Hrun1; reflexivity|]. split; [rewrite Hrun2; reflexivity|].
  split; [exact Hledger|]. split; [exact Hact1|]. split; [exact Hact2|].
  split; [exact Hfound|]. split; [exact Hcin|].
  split; [destruct (type c); [reflexivity | discriminate Hdirect]|].
  split; assumption.
Qed.

Lemma reversal_through_status_route_is_detected_witness :
  exists found w3 c,
    findContradictions sampleEnv "P"
      (snd (postStatus sampleEnv "P" concepts "A" "rejected" (Some "too long")
              (snd (postStatus sampleEnv "P" concepts "A" "approved" None
                      (worldOf reviewStore)))))
    = (Ok found, w3)
    /\ In c found /\ type c = direct
    /\ action (entry1 c) = "approved" /\ action (entry2 c) = "rejected".
Proof.
  destruct (reversal_through_status_route_is_detected sampleEnv "P" concepts "A"
              "approved" "rejected" None (Some "too long") (worldOf reviewStore)
              [] [] (sampleItem "A" "pending" None))
    as (w1 & w2 & e1 & e2 & found & w3 & c & <- & <- & _ & Ha1 & Ha2 & Hrun & Hin & Ht
        & He1 & He2).
  - left. split; reflexivity.
  - repeat split. constructor.
  - reflexivity.
  - vm_compute. constructor.
  - exists found, w3, c. rewrite He1, He2. repeat split; assumption.
Defined.

(** ** The single script route *)

(** The single script route does not look at the concept's status nor at
    the scripts it already has: every completed call whose new identifier
    is not that of a stored script appends one pending script for the
    concept, so the concept has one script more than before, and leaves
    concepts and ledger as they were.  Afterwards the batch route has
    nothing to generate for that concept. *)
Theorem postScript_adds_a_script_each_time
    (env : Oracles) (projectId conceptId : string) (w w' : World)
    (item : Item.t) (items : list Item.t) :
  postScript env projectId conceptId w = (ScriptMade item items, w') ->
  ~ In (Item.id item) (map Item.id (getItems projectId scripts (store w))) ->
  (exists concept,
     List.find (fun c => String.eqb (Item.id c) conceptId)
       (getItems projectId concepts (store w)) = Some concept
     /\ Item.title item = ("Script: " ++ Item.title concept)%string)
  /\ Item.parentId item = Some conceptId
  /\ Item.status item = "pending"
  /\ (exists n, Item.id item = uuid env n)
  /\ items = getItems projectId scripts (store w) ++ [item]
  /\ getItems projectId scripts (store w') = items
  /\ getItems projectId concepts (store w') = getItems projectId concepts (store w)
  /\ getFeedback projectId (store w') = getFeedback projectId (store w)
  /\ length (scriptsFor conceptId items)
     = S (length (scriptsFor conceptId (getItems projectId scripts (store w))))
  /\ Forall (fun c => Item.id c <> conceptId) (toGenerate projectId (store w')).
Proof.
  unfold postScript. intros Hrun Hfresh.
  destruct (String.eqb projectId "" || String.eqb conceptId ""); [discriminate|].
  destruct (List.find _ (getItems projectId concepts (store w))) as [concept|] eqn:Hfind;
    [|discriminate].
  pose proof (generate_store env projectId w) as Hstore.
  destruct (generate env projectId w) as [[result|err] w1]; [|discriminate].
  cbn [snd] in Hstore.
  match type of Hrun with
  | context [addItems env projectId scripts [?i] ?w0] =>
      set (made := i) in *; set (w2 := w0) in *
  end.
  assert (Hw2 : store w2 = store w) by exact Hstore.
  assert (Hid : Item.id concept = conceptId).
  { apply find_some in Hfind as [_ E]. apply String.eqb_eq. exact E. }
  pose proof (addItems_fresh env projectId scripts [made] w2) as Hadd.
  pose proof (getItems_setItems env projectId scripts
                (fst (addItems env projectId scripts [made] w2)) w2) as Hstored.
  pose proof (addItems_other_stage env projectId scripts concepts [made] w2) as Hconcepts.
  pose proof (setItems_feedback env projectId scripts
                (fst (addItems env projectId scripts [made] w2)) w2 projectId) as Hledger.
  change (setItems env projectId scripts (fst (addItems env projectId scripts [made] w2)) w2)
    with (snd (addItems env projectId scripts [made] w2)) in Hstored, Hledger.
  destruct (addItems env projectId scripts [made] w2) as [updated w3].
  cbn [fst snd] in *. injection Hrun as <- <- <-.
  rewrite Hw2 in *.
  assert (Hitems : updated = getItems projectId scripts (store w) ++ [made]).
  { apply Hadd. constructor; [exact Hfresh | constructor]. }
  split; [exists concept; split; reflexivity|].
  split; [simpl; rewrite Hid; reflexivity|]. split; [reflexivity|].
  split; [eexists; reflexivity|]. split; [exact Hitems|]. split; [exact Hstored|].
  split; [apply Hconcepts; discriminate|]. split; [exact Hledger|].
  split.
  - rewrite Hitems. unfold scriptsFor. rewrite List.filter_app, length_app. simpl.
    rewrite Hid, String.eqb_refl. simpl. lia.
  - apply Forall_forall. intros c Hc Heq. apply list_elem_of_In in Hc.
    apply toGenerate_spec in Hc as (_ & _ & Hnone). apply Hnone.
    rewrite Hstored, Hitems, map_app, in_app_iff. right. left.
    simpl. rewrite Hid, Heq. reflexivity.
Qed.

Lemma postScript_adds_a_script_each_time_witness :
  exists item items w',
    postScript sampleEnv "P" "C" (worldOf conceptStore) = (ScriptMade item items, w')
    /\ Item.parentId item = Some "C"
    /\ items = [item].
Proof.
  destruct (postScript sampleEnv "P" "C" (worldOf conceptStore)) as [answer w'] eqn:Hrun.
  destruct answer as [status error|e|item items];
    [vm_compute in Hrun; discriminate Hrun | vm_compute in Hrun; discriminate Hrun|].
  destruct (postScript_adds_a_script_each_time sampleEnv "P" "C" (worldOf conceptStore) w'
              item items Hrun) as (_ & Hparent & _ & _ & Hitems & _).
  - intros [].
  - exists item, items, w'. split; [reflexivity|]. split; [exact Hparent | exact Hitems].
Defined.

(** ** Documents, projects and the clock *)

Lemma documentFile_chars (p : string) (c : Category) :
  exists suffix,
    list_ascii_of_string (documentFile p c) = list_ascii_of_string p ++ "_"%char :: suffix
    /\ ~ In "/"%char suffix.
Proof.
  unfold documentFile. rewrite list_ascii_of_string_app.
  eexists. split; [reflexivity|].
  destruct c as [[]| |]; vm_compute; intuition discriminate.
Qed.

(** The documents have file names of their own.  The name of a document
    of a project whose identifier is a plain part of a file name is a
    single path segment: it has no [/] and is not empty, [.] or [..].
    Two documents have the same name only if they are the same document
    of the same project, and none is named like the project index.  (For
    the six kinds of document [createProject] sets up.) *)
Theorem documents_have_their_own_files (p p' : string) (c c' : Category) :
  (plainId p -> singleSegment (documentFile p c))
  /\ (documentFile p c = documentFile p' c' <-> p = p' /\ c = c')
  /\ documentFile p c <> indexFile.
Proof.
  split; [|split; [split|]].
  - intros Hp. destruct (documentFile_chars p c) as (suffix & Hchars & Hsuffix).
    assert (Hlen : 2 <= length (list_ascii_of_string (documentFile p c))).
    { rewrite Hchars, length_app. destruct c as [[]| |]; simpl in Hsuffix |- *.
      all: apply (f_equal (@length ascii)) in Hchars; rewrite length_app in Hchars;
        simpl in Hchars.
      all: unfold documentFile in Hchars; rewrite !list_ascii_of_string_app in Hchars;
        rewrite !length_app in Hchars; simpl in Hchars; lia. }
    split; [|split; [|split]].
    + rewrite Hchars, in_app_iff. intros [Hin|[Heq|Hin]].
      * unfold plainId in Hp. rewrite Forall_forall in Hp.
        apply list_elem_of_In, Hp in Hin. discriminate Hin.
      * discriminate Heq.
      * exact (Hsuffix Hin).
    + intros E. rewrite E in Hlen. simpl in Hlen. lia.
    + intros E. rewrite E in Hlen. simpl in Hlen. lia.
    + intros E. rewrite E in Hchars. simpl in Hchars.
      destruct (list_ascii_of_string p) as [|a [|b l]]; simpl in Hchars.
      * injection Hchars as Ha _. discriminate Ha.
      * injection Hchars as _ Hb _. discriminate Hb.
      * injection Hchars as _ _ Hl. destruct l; discriminate Hl.
  - apply documentFile_inj.
  - intros [-> ->]. reflexivity.
  - apply documentFile_not_index.
Qed.

Lemma documents_have_their_own_files_witness :
  singleSegment (documentFile "P" feedbackLedger)
  /\ documentFile "P" feedbackLedger <> documentFile "P" patternSummary.
Proof.
  destruct (documents_have_their_own_files "P" "P" feedbackLedger patternSummary)
    as (Hsegment & Hsame & _).
  split.
  - apply Hsegment. repeat constructor.
  - intros E. apply Hsame in E as [_ E]. discriminate E.
Defined.

Lemma find_split {A : Type} (f : A -> bool) (l : list A) (x : A) :
  List.find f l = Some x ->
  exists before after,
    l = before ++ x :: after /\ Forall (fun y => f y = false) before /\ f x = true.
Proof.
  induction l as [|y l IH]; simpl; [discriminate|].
  destruct (f y) eqn:E.
  - intros [= <-]. exists [], l. repeat split; [constructor | exact E].
  - intros H. destruct (IH H) as (before & after & -> & Hbefore & Hx).
    exists (y :: before), after. repeat split; [|exact Hx].
    constructor; assumption.
Qed.

Lemma find_none_all {A : Type} (f : A -> bool) (l : list A) :
  List.find f l = None -> Forall (fun y => f y = false) l.
Proof.
  induction l as [|y l IH]; simpl; [constructor|].
  destruct (f y) eqn:E; [discriminate|]. intros H. constructor; [exact E | exact (IH H)].
Qed.

Lemma find_touched (projectId q : string) (ps qs : list Project.t) :
  touchedOnly projectId ps qs -> q <> projectId ->
  List.find (fun p => String.eqb (Project.id p) q) qs
  = List.find (fun p => String.eqb (Project.id p) q) ps.
Proof.
  intros H Hq. induction H as [|p p' ps qs Hp _ IH]; [reflexivity|]. simpl.
  destruct Hp as [->|(Hid & at_ & ->)]; [rewrite IH; reflexivity|]. simpl.
  rewrite Hid. destruct (String.eqb_spec projectId q) as [E|_]; [congruence | exact IH].
Qed.

Lemma touchedOnly_ids (projectId : string) (ps qs : list Project.t) :
  touchedOnly projectId ps qs -> map Project.id qs = map Project.id ps.
Proof.
  induction 1 as [|p p' ps qs Hp _ IH]; [reflexivity|]. simpl. rewrite IH.
  destruct Hp as [->|(_ & at_ & ->)]; reflexivity.
Qed.

(** Writing an item list (of a project whose identifier is a plain part
    of a file name) replaces that list and nothing else of the
    documents: the other lists of the project, the lists of the other
    such projects, the ledgers and the pattern summaries stay.  If the
    project is registered, its [updatedAt] (the first one under that
    identifier) is set to the clock reading and every other project is
    left as it is; if it is not registered, the list is written all the
    same, the index stays as it is and the clock is not read. *)
Theorem setItems_stamps_the_project
    (env : Oracles) (projectId : string) (stg : Stage) (items : list Item.t) (w : World) :
  plainId projectId ->
  getItems projectId stg (store (setItems env projectId stg items w)) = items
  /\ (forall q other,
        plainId q ->
        (q, other) <> (projectId, stg) ->
        getItems q other (store (setItems env projectId stg items w))
        = getItems q other (store w))
  /\ (forall q,
        getFeedback q (store (setItems env projectId stg items w)) = getFeedback q (store w)
        /\ getPatterns q (store (setItems env projectId stg items w))
           = getPatterns q (store w))
  /\ map Project.id (listProjects (store (setItems env projectId stg items w)))
     = map Project.id (listProjects (store w))
  /\ (forall q,
        q <> projectId ->
        getProject q (store (setItems env projectId stg items w)) = getProject q (store w))
  /\ (forall p,
        getProject projectId (store w) = Some p ->
        getProject projectId (store (setItems env projectId stg items w))
        = Some (Project.touch (now env (ticks w)) p)
        /\ ticks (setItems env projectId stg items w) = S (ticks w))
  /\ (getProject projectId (store w) = None ->
      listProjects (store (setItems env projectId stg items w)) = listProjects (store w)
      /\ ticks (setItems env projectId stg items w) = ticks w).
Proof.
  intros _. split; [apply getItems_setItems|].
  split.
  { intros q other _ Hne. unfold getItems. rewrite setItems_itemDocs.
    rewrite lookup_insert_ne; [reflexivity | congruence]. }
  split.
  { intros q. unfold getFeedback, getPatterns.
    destruct (setItems_other_docs env projectId stg items w) as [-> ->].
    split; reflexivity. }
  split; [apply (touchedOnly_ids projectId), setItems_projects|].
  split.
  { intros q Hq. unfold getProject, listProjects.
    apply (find_touched projectId); [apply setItems_projects | exact Hq]. }
  unfold getProject, listProjects. split.
  - intros p Hp. destruct (find_split _ _ _ Hp) as (before & after & Hps & Hbefore & Hx).
    destruct (findIndex_first _ before after p Hbefore Hx) as [Hidx _].
    unfold setItems, listProjects. simpl. rewrite Hps, Hidx. simpl.
    rewrite alter_first. split; [|reflexivity].
    apply findIndex_first; [exact Hbefore | exact Hx].
  - intros Hp. destruct (findIndex_none _ _ (find_none_all _ _ Hp)) as [Hidx _].
    unfold setItems, listProjects. simpl. rewrite Hidx. split; reflexivity.
Qed.

Lemma setItems_stamps_the_project_witness :
  option_map Project.updatedAt
    (getProject "P" (store (setItems sampleEnv "P" scripts [] (worldOf conceptStore))))
  = Some (now sampleEnv 0)
  /\ length (getItems "P" concepts
               (store (setItems sampleEnv "P" scripts [] (worldOf conceptStore))))
     = 3
  /\ ticks (setItems sampleEnv "Q" scripts [] (worldOf conceptStore)) = 0.
Proof.
  destruct (setItems_stamps_the_project sampleEnv "P" scripts [] (worldOf conceptStore))
    as (_ & Hothers & _ & _ & _ & Hknown & _); [repeat constructor|].
  destruct (setItems_stamps_the_project sampleEnv "Q" scripts [] (worldOf conceptStore))
    as (_ & _ & _ & _ & _ & _ & Hunknown); [repeat constructor|].
  split; [|split].
  - destruct (Hknown sampleProject) as [-> _]; reflexivity.
  - rewrite (Hothers "P" concepts); [reflexivity | repeat constructor | discriminate].
  - destruct Hunknown as [_ ->]; reflexivity.
Defined.

(** A project just created, under an identifier no registered project
    has, compiles to an empty context: the project itself, no items, an
    empty ledger, empty patterns, no contradictions and a summary of
    zeros; compiling it draws no identifier and changes nothing. *)
Theorem new_project_has_empty_context
    (env : Oracles) (name : string) (brandData : Json) (w : World) :
  getProject (uuid env (drawn w)) (store w) = None ->
  exists ctx,
    getFullContext env (Project.id (fst (createProject env name brandData w)))
      (snd (createProject env name brandData w))
    = (Ok ctx, snd (createProject env name brandData w))
    /\ FullContext.project ctx = Some (fst (createProject env name brandData w))
    /\ FullContext.strategies ctx = [] /\ FullContext.concepts ctx = []
    /\ FullContext.scripts ctx = []
    /\ FullContext.feedback ctx = [] /\ FullContext.patterns ctx = emptyPatterns
    /\ FullContext.contradictions ctx = []
    /\ summaryFields (FullContext.summary ctx) = [0; 0; 0; 0; 0; 0].
Proof.
  intros Hfresh.
  unfold getFullContext, findContradictions, createProject, getProject, listProjects,
    getItems, getFeedback, getPatterns in *.
  simpl. rewrite find_snoc, Hfresh. simpl. rewrite String.eqb_refl.
  repeat first [ rewrite lookup_insert_eq | rewrite lookup_insert_ne by discriminate ].
  simpl. rewrite Nat.add_0_r. eexists. split; [reflexivity|]. repeat split.
Qed.

Lemma new_project_has_empty_context_witness :
  exists ctx,
    fst (getFullContext sampleEnv "uuid-"
           (snd (createProject sampleEnv "New" "{}" (worldOf conceptStore))))
    = Ok ctx
    /\ summaryFields (FullContext.summary ctx) = [0; 0; 0; 0; 0; 0].
Proof.
  destruct (new_project_has_empty_context sampleEnv "New" "{}" (worldOf conceptStore))
    as (ctx & Hrun & _ & _ & _ & _ & _ & _ & _ & Hsummary).
  - reflexivity.
  - exists ctx. split; [|exact Hsummary].
    change "uuid-" with (Project.id (fst (createProject sampleEnv "New" "{}"
                                             (worldOf conceptStore)))).
    rewrite Hrun. reflexivity.
Defined.

(** ** Relative times *)

(** The review screen shows "just now" for every timestamp less than a
    minute old, future ones included; minutes from 1 to 59 and hours from
    1 to 23, rounded down; and the date itself only from a full day on. *)
Theorem ftime_ranges (clock ts : Z) :
  (ftime clock ts = justNow <-> clock - ts < 60000)%Z
  /\ (forall n,
        ftime clock ts = minutesAgo n
        <-> (1 <= n <= 59 /\ n * 60000 <= clock - ts < (n + 1) * 60000)%Z)
  /\ (forall n,
        ftime clock ts = hoursAgo n
        <-> (1 <= n <= 23 /\ n * 3600000 <= clock - ts < (n + 1) * 3600000)%Z)
  /\ (forall t, ftime clock ts = onDate t <-> t = ts /\ (86400000 <= clock - ts)%Z).
Proof.
  unfold ftime. cbv zeta.
  destruct (Z.ltb_spec (clock - ts) 60000) as [H1|H1];
    [|destruct (Z.ltb_spec (clock - ts) 3600000) as [H2|H2];
      [|destruct (Z.ltb_spec (clock - ts) 86400000) as [H3|H3]]].
  - split; [tauto|]. split; [|split]; intros; (split; [discriminate | lia]).
  - split; [split; [discriminate | lia]|]. split; [|split].
    + intros n. pose proof (Z.div_mod (clock - ts) 60000 ltac:(lia)) as Hd.
      pose proof (Z.mod_pos_bound (clock - ts) 60000 ltac:(lia)) as Hm.
      split.
      * intros [= <-]. lia.
      * intros Hn. f_equal. nia.
    + intros; split; [discriminate | lia].
    + intros; split; [discriminate | lia].
  - split; [split; [discriminate | lia]|]. split; [|split].
    + intros; split; [discriminate | lia].
    + intros n. pose proof (Z.div_mod (clock - ts) 3600000 ltac:(lia)) as Hd.
      pose proof (Z.mod_pos_bound (clock - ts) 3600000 ltac:(lia)) as Hm.
      split.
      * intros [= <-]. lia.
      * intros Hn. f_equal. nia.
    + intros; split; [discriminate | lia].
  - split; [split; [discriminate | lia]|]. split; [|split].
    + intros; split; [discriminate | lia].
    + intros; split; [discriminate | lia].
    + intros t. split; [intros [= <-]; lia | intros [-> _]; reflexivity].
Qed.

(** ** Identifiers from [uuid()] *)

(** On a ledger whose item identifiers all have the length of a UUID, as
    every identifier the engine gives to an item has, the detector and the
    compilation of the context return, and with them the memory context
    of a generation request. *)
Theorem detector_returns_on_uuid_items (env : Oracles) (projectId : string) (w : World) :
  Forall (fun e => String.length (itemId e) = 36) (getFeedback projectId (store w)) ->
  (exists found w', findContradictions env projectId w = (Ok found, w'))
  /\ (exists ctx w', getFullContext env projectId w = (Ok ctx, w'))
  /\ forall err w', generate env projectId w = (Throw err, w') -> err = UpstreamError.
Proof.
  intros Hids. pose proof (uuid_sized_keys_are_plain _ Hids) as Hplain.
  destruct (findContradictions_returns env projectId w Hplain) as (o & _ & Hrun).
  split; [eexists _, _; exact Hrun|].
  unfold generate, getFullContext. rewrite Hrun.
  split; [eexists _, _; reflexivity|].
  intros err w'. cbv beta iota zeta.
  destruct (reply env _); [discriminate|]. intros [= <- _]. reflexivity.
Qed.

Lemma detector_returns_on_uuid_items_witness :
  exists found w',
    findContradictions sampleEnv "P" (withLedger uuidLedger) = (Ok found, w').
Proof.
  destruct (detector_returns_on_uuid_items sampleEnv "P" (withLedger uuidLedger))
    as (Hfound & _).
  - vm_compute. repeat constructor.
  - exact Hfound.
Defined.

(** ** The project route *)

(** The project route registers no project without a name: a missing or
    blank name is refused and nothing is changed.  Any other name is
    trimmed: the project is appended to the index under the code points
    of the name from the first to the last that is no white space, which
    is not the empty name. *)
Theorem postProject_needs_a_name
    (env : Oracles) (name : option string) (brandData : option Json) (w : World) :
  (name = None \/ (exists text, name = Some text /\ blank text) ->
   postProject env name brandData w = (ProjectRefused 400 "Project name required", w))
  /\ (forall text,
        name = Some text -> ~ blank text ->
        exists project lead core trail,
          fst (postProject env name brandData w) = ProjectMade project
          /\ JS.chars text = lead ++ core ++ trail
          /\ whiteSpaceOnly lead /\ whiteSpaceOnly trail
          /\ (forall ch rest, core = ch :: rest -> ~ In (JS.codePoint ch) JS.whiteSpace)
          /\ (forall front ch,
                core = front ++ [ch] -> ~ In (JS.codePoint ch) JS.whiteSpace)
          /\ Project.name project = JS.join core
          /\ Project.name project <> ""
          /\ Project.id project = uuid env (drawn w)
          /\ listProjects (store (snd (postProject env name brandData w)))
             = listProjects (store w) ++ [project]).
Proof.
  split.
  - intros [->|(text & -> & Hblank)]; [reflexivity|]. unfold postProject.
    rewrite trim_empty_iff_blank, (proj2 (blankb_spec text) Hblank). reflexivity.
  - intros text -> Hblank.
    assert (Hb : blankb text = false).
    { destruct (blankb text) eqn:E; [|reflexivity]. exfalso. apply Hblank, blankb_spec, E. }
    pose proof (trim_empty_iff_blank text) as Hempty. rewrite Hb in Hempty.
    destruct (trim_spec text)
      as (lead & core & trail & Hchars & Hlead & Htrail & Htrim & Hhead & Hlast).
    unfold postProject. rewrite Hempty.
    unfold createProject. cbn [fst snd]. eexists _, lead, core, trail.
    split; [reflexivity|]. split; [exact Hchars|].
    split; [apply whiteSpaceOnly_spec; exact Hlead|].
    split; [apply whiteSpaceOnly_spec; exact Htrail|].
    split.
    { intros ch rest Hcore Hin. apply isSpace_spec in Hin.
      rewrite (Hhead ch rest Hcore) in Hin. discriminate Hin. }
    split.
    { intros front ch Hcore Hin. apply isSpace_spec in Hin.
      rewrite (Hlast front ch Hcore) in Hin. discriminate Hin. }
    split; [exact Htrim|]. split; [apply String.eqb_neq; exact Hempty|].
    split; reflexivity.
Qed.

Lemma postProject_needs_a_name_witness :
  postProject sampleEnv (Some (" " ++ JS.utf8 160 ++ " ")%string) None (worldOf conceptStore)
  = (ProjectRefused 400 "Project name required", worldOf conceptStore)
  /\ map Project.name
       (listProjects
          (store (snd (postProject sampleEnv
                         (Some (JS.utf8 160 ++ " Launch day" ++ JS.utf8 8232)%string) None
                         (worldOf conceptStore)))))
     = map Project.name (listProjects conceptStore) ++ ["Launch day"].
Proof.
  destruct (postProject_needs_a_name sampleEnv (Some (" " ++ JS.utf8 160 ++ " ")%string) None
              (worldOf conceptStore)) as [Hrefused _].
  destruct (postProject_needs_a_name sampleEnv
              (Some (JS.utf8 160 ++ " Launch day" ++ JS.utf8 8232)%string) None
              (worldOf conceptStore)) as [_ Hmade].
  split.
  - apply Hrefused. right. eexists. split; [reflexivity|]. apply blankb_spec. reflexivity.
  - destruct (Hmade _ eq_refl)
      as (project & lead & core & trail & Hrun & _ & _ & _ & _ & _ & _ & _ & _ & ->).
    + intros Hb. apply blankb_spec in Hb. discriminate Hb.
    + rewrite map_app. cbn [map]. vm_compute in Hrun. injection Hrun as <-. reflexivity.
Defined.

(** ** Review and generation *)

Lemma updateItem_other_items (env : Oracles) (projectId : string) (stg : Stage)
    (itemId : string) (updates : Updates) (w : World) (q : string) (other : Stage) :
  (q, other) <> (projectId, stg) ->
  getItems q other (store (snd (updateItem env projectId stg itemId updates w)))
  = getItems q other (store w).
Proof.
  intros Hne. unfold updateItem.
  destruct (findIndex _ (getItems projectId stg (store w))); [|reflexivity].
  cbn [snd]. unfold getItems. rewrite setItems_itemDocs.
  rewrite lookup_insert_ne; [reflexivity | congruence].
Qed.

Lemma postStatus_other_items (env : Oracles) (projectId : string) (stg : Stage)
    (itemId status : string) (comment : option string) (w : World)
    (q : string) (other : Stage) :
  (q, other) <> (projectId, stg) ->
  getItems q other (store (snd (postStatus env projectId stg itemId status comment w)))
  = getItems q other (store w).
Proof.
  intros Hne. destruct (validStatus status) eqn:Hvalid.
  - destruct (List.find (fun i => String.eqb (Item.id i) itemId)
                (getItems projectId stg (store w))) as [item|] eqn:Hfind.
    + rewrite (postStatus_found _ _ _ _ _ _ _ _ Hvalid Hfind). cbn [snd].
      rewrite addFeedback_items, (updateItem_other_items _ _ _ _ _ _ _ _ Hne).
      rewrite (proj1 (statusUpdates_store env item status comment w)). reflexivity.
    + unfold postStatus. rewrite Hvalid, Hfind. reflexivity.
  - unfold postStatus. rewrite Hvalid. reflexivity.
Qed.

(** Review decides what the batch generates.  After a status change on a
    concept, the batch selects that concept if and only if the new status
    is approved and no stored script has it as parent; for the concepts
    under other identifiers the selection is what it was. *)
Theorem approval_gates_script_generation
    (env : Oracles) (projectId conceptId status : string) (comment : option string)
    (w : World) (before after : list Item.t) (item : Item.t) :
  In status ["pending"; "approved"; "rejected"; "revision"] ->
  firstMatch conceptId (getItems projectId concepts (store w)) before item after ->
  exists stored w',
    postStatus env projectId concepts conceptId status comment w = (Updated (Some stored), w')
    /\ (In stored (toGenerate projectId (store w'))
        <-> status = "approved"
            /\ ~ In (Some conceptId)
                   (map Item.parentId (getItems projectId scripts (store w))))
    /\ (forall c,
          Item.id c <> conceptId ->
          In c (toGenerate projectId (store w')) <-> In c (toGenerate projectId (store w))).
Proof.
  intros Hin Hm.
  destruct (postStatus_effect env projectId concepts conceptId status comment w before after
              item (proj2 (validStatus_spec status) Hin) Hm)
    as (stored & entry & w' & Hrun & Hstored & Hitems & _).
  pose proof (postStatus_other_items env projectId concepts conceptId status comment w
                projectId scripts ltac:(discriminate)) as Hscripts.
  rewrite Hrun in Hscripts. cbn [snd] in Hscripts.
  assert (Hstatus : Item.status stored = status).
  { rewrite Hstored. simpl.
    rewrite (proj2 (statusUpdates_store env item status comment w)). reflexivity. }
  destruct Hm as (Hold & Hid & _).
  assert (Hsid : Item.id stored = conceptId) by (rewrite Hstored; exact Hid).
  exists stored, w'. split; [exact Hrun|]. split.
  - rewrite toGenerate_spec, Hitems, Hscripts, Hstatus, Hsid. split.
    + intros (_ & Ha & Hn). split; assumption.
    + intros [Ha Hn]. split; [|split; assumption].
      apply in_app_iff. right. left. reflexivity.
  - intros c Hc. rewrite !toGenerate_spec, Hitems, Hscripts, Hold, !in_app_iff. simpl.
    split; intros ([H|[H|H]] & Ha & Hn); subst;
      first [ congruence | split; [|split; assumption]; tauto ].
Qed.

Lemma approval_gates_script_generation_witness :
  exists stored,
    fst (postStatus sampleEnv "P" concepts "C" "approved" None (worldOf conceptStore))
    = Updated (Some stored)
    /\ In stored
         (toGenerate "P"
            (store (snd (postStatus sampleEnv "P" concepts "C" "approved" None
                           (worldOf conceptStore))))).
Proof.
  destruct (approval_gates_script_generation sampleEnv "P" "C" "approved" None
              (worldOf conceptStore)
              [sampleItem "A" "approved" None; sampleItem "B" "approved" None] []
              (sampleItem "C" "pending" None))
    as (stored & w' & Hrun & Hsel & _).
  - simpl. tauto.
  - repeat split. repeat constructor; discriminate.
  - exists stored. rewrite Hrun. split; [reflexivity|]. cbn [snd]. apply Hsel.
    split; [reflexivity | intros []].
Defined.

(** ** The detector on the sample ledgers *)

Lemma direct_contradiction_per_pair_witness :
  exists cs,
    fst (findContradictions sampleEnv "P" (withLedger flipLedger)) = Ok cs
    /\ map pending (List.filter isDirect cs)
       = [directContradiction (sampleEntry "e1" "X" "approved" None 1)
            (sampleEntry "e3" "X" "rejected" None 3)].
Proof.
  destruct (direct_contradiction_per_pair sampleEnv "P" (withLedger flipLedger) "X")
    as (cs & w' & Hrun & _ & _ & Hthree).
  - vm_compute. repeat constructor.
  - exists cs. rewrite Hrun. split; [reflexivity|].
    apply (Hthree _ (sampleEntry "e2" "X" "commented" (Some "hmm") 2) _); reflexivity.
Defined.

Lemma thematic_contradiction_needs_both_sides_witness :
  exists cs,
    fst (findContradictions sampleEnv "P" (withLedger kelvinLedger)) = Ok cs
    /\ length (emitted (getFeedback "P" (store (withLedger kelvinLedger)))
                 (lighter, darker)) = 1
    /\ length (emitted (getFeedback "P" (store (withLedger oneSidedLedger)))
                 (shorter, longer)) = 0.
Proof.
  destruct (thematic_contradiction_needs_both_sides sampleEnv "P" (withLedger kelvinLedger)
              (lighter, darker))
    as (cs & w' & Hrun & _ & Hone & _); [vm_compute; repeat constructor|].
  destruct (thematic_contradiction_needs_both_sides sampleEnv "P" (withLedger oneSidedLedger)
              (shorter, longer))
    as (_ & _ & _ & _ & _ & Hnone); [vm_compute; repeat constructor|].
  exists cs. rewrite Hrun. split; [reflexivity|]. split.
  - apply Hone. split.
    + apply Exists_cons_hd. apply Tagged_sample. reflexivity.
    + apply Exists_cons_tl, Exists_cons_hd. apply Tagged_sample. reflexivity.
  - apply Hnone. intros [_ Hlonger]. apply Exists_exists in Hlonger as (e & Hin & He).
    apply list_elem_of_In in Hin. destruct Hin as [<-|[]].
    apply tagged_spec in He. discriminate He.
Defined.

(** ** The ledgers the routes write *)

Lemma postStatus_ledger (env : Oracles) (projectId : string) (stg : Stage)
    (itemId_ status : string) (comment_ : option string) (w : World) :
  getFeedback projectId (store (snd (postStatus env projectId stg itemId_ status comment_ w)))
  = getFeedback projectId (store w)
  \/ exists item entry,
       In item (getItems projectId stg (store w)) /\ Item.id item = itemId_
       /\ itemId entry = itemId_
       /\ getFeedback projectId
            (store (snd (postStatus env projectId stg itemId_ status comment_ w)))
          = getFeedback projectId (store w) ++ [entry].
Proof.
  destruct (validStatus status) eqn:Hvalid;
    [|left; unfold postStatus; rewrite Hvalid; reflexivity].
  destruct (List.find (fun i => String.eqb (Item.id i) itemId_)
              (getItems projectId stg (store w))) as [item|] eqn:Hfind;
    [|left; unfold postStatus; rewrite Hvalid, Hfind; reflexivity].
  destruct (find_firstMatch _ _ _ Hfind) as (before & after & Hm).
  destruct (postStatus_effect env projectId stg itemId_ status comment_ w before after item
              Hvalid Hm)
    as (stored & entry & w' & Hrun & _ & _ & Hledger & (Hid & _) & _).
  right. exists item, entry. rewrite Hrun. destruct Hm as (Hitems & Hitem & _).
  split; [rewrite Hitems; apply in_or_app; right; left; reflexivity|].
  split; [exact Hitem|]. split; [exact Hid | exact Hledger].
Qed.

Lemma postComment_ledger (env : Oracles) (projectId : string) (stg : Stage)
    (itemId_ : string) (comment_ : option string) (w : World) :
  getFeedback projectId (store (snd (postComment env projectId stg itemId_ comment_ w)))
  = getFeedback projectId (store w)
  \/ exists item entry,
       In item (getItems projectId stg (store w)) /\ Item.id item = itemId_
       /\ itemId entry = itemId_
       /\ getFeedback projectId
            (store (snd (postComment env projectId stg itemId_ comment_ w)))
          = getFeedback projectId (store w) ++ [entry].
Proof.
  destruct comment_ as [text|]; [|left; reflexivity].
  destruct (blankb text) eqn:Hblank;
    [left; unfold postComment; rewrite trim_empty_iff_blank, Hblank; reflexivity|].
  destruct (List.find (fun i => String.eqb (Item.id i) itemId_)
              (getItems projectId stg (store w))) as [item|] eqn:Hfind;
    [|left; unfold postComment; rewrite trim_empty_iff_blank, Hblank, Hfind; reflexivity].
  destruct (find_firstMatch _ _ _ Hfind) as (before & after & Hm).
  destruct (postComment_effect env projectId stg itemId_ text w before after item Hblank Hm)
    as (stored & entry & w' & Hrun & _ & _ & Hledger & (Hid & _) & _).
  right. exists item, entry. rewrite Hrun. destruct Hm as (Hitems & Hitem & _).
  split; [rewrite Hitems; apply in_or_app; right; left; reflexivity|].
  split; [exact Hitem|]. split; [exact Hid | exact Hledger].
Qed.

(** The feedback routes record entries on stored items only, so they keep
    the ledger within the reach of the detector: when no stored item of
    the stage and no entry of the ledger is named after a member of
    [Object.prototype], the same holds of the ledger after a status
    change or a comment, whatever the request, and the detector
    returns on it. *)
Theorem routes_keep_plain_keys
    (env : Oracles) (projectId : string) (stg : Stage) (itemId_ : string) (w : World) :
  plainKeys (getFeedback projectId (store w)) ->
  Forall (fun i => JS.inherited (Item.id i) = false) (getItems projectId stg (store w)) ->
  (forall status comment_,
     plainKeys
       (getFeedback projectId
          (store (snd (postStatus env projectId stg itemId_ status comment_ w))))
     /\ exists found,
          fst (findContradictions env projectId
                 (snd (postStatus env projectId stg itemId_ status comment_ w)))
          = Ok found)
  /\ (forall comment_,
        plainKeys
          (getFeedback projectId
             (store (snd (postComment env projectId stg itemId_ comment_ w))))
        /\ exists found,
             fst (findContradictions env projectId
                    (snd (postComment env projectId stg itemId_ comment_ w)))
             = Ok found).
Proof.
  intros Hplain Hitems.
  assert (Hstep : forall w',
            (getFeedback projectId (store w') = getFeedback projectId (store w)
             \/ exists item entry,
                  In item (getItems projectId stg (store w)) /\ Item.id item = itemId_
                  /\ itemId entry = itemId_
                  /\ getFeedback projectId (store w')
                     = getFeedback projectId (store w) ++ [entry]) ->
            plainKeys (getFeedback projectId (store w'))
            /\ exists found, fst (findContradictions env projectId w') = Ok found).
  { intros w' Hw'.
    assert (Hkeys : plainKeys (getFeedback projectId (store w'))).
    { destruct Hw' as [->|(item & entry & Hin & Hitem & Hentry & ->)]; [exact Hplain|].
      unfold plainKeys. apply Forall_app. split; [exact Hplain|].
      constructor; [|constructor]. rewrite Hentry, <- Hitem.
      unfold plainKeys in Hitems. rewrite Forall_forall in Hitems.
      apply Hitems, list_elem_of_In. exact Hin. }
    split; [exact Hkeys|].
    destruct (findContradictions_returns env projectId w' Hkeys) as (o & _ & Hrun).
    rewrite Hrun. eexists. reflexivity. }
  split.
  - intros status comment_. apply Hstep, postStatus_ledger.
  - intros comment_. apply Hstep, postComment_ledger.
Qed.

Lemma routes_keep_plain_keys_witness :
  exists found,
    fst (findContradictions sampleEnv "P"
           (snd (postStatus sampleEnv "P" concepts "A" "rejected" None
                   (snd (postStatus sampleEnv "P" concepts "A" "approved" None
                           (worldOf reviewStore))))))
    = Ok found.
Proof.
  destruct (routes_keep_plain_keys sampleEnv "P" concepts "A"
              (snd (postStatus sampleEnv "P" concepts "A" "approved" None
                      (worldOf reviewStore))))
    as [Hstatus _].
  - vm_compute. repeat constructor.
  - vm_compute. repeat constructor.
  - destruct (Hstatus "rejected" None) as [_ Hfound]. exact Hfound.
Defined.
